(** * Job application tracker (app.py): a shallow embedding and its properties

    The development follows the classes of [app.py]:
    [DatabaseManager] (the sqlite3 store), [AuthManager], [AIAssistant],
    [NotificationManager] and the operations of [JobAutomationApp] that
    read and write application, settings and account data.

    Modelling conventions.
    - Python [str] is [string]; [None]-able values are [option].  Text is
      ASCII: [isspace], the digits of [\d] and slices are those of ASCII
      characters.
    - A [float] is kept as the rational number it denotes.  The scores of
      [JobScraper] are computed in binary64 arithmetic ([PyFloat]); a
      number read from text and a rate obtained by one division are taken
      exactly.
    - The values bound to keys are typed as the program writes them: the
      API key is a [str], a settings category is a JSON object.
    - A table is the list of its rows in insertion order.  A column that
      the schema leaves nullable and that some statement leaves unset is
      an [option]; the [created_at] columns (filled by the store's clock,
      read by no operation) are left out.
    - A TEXT column written with [json.dumps] and read with [json.loads]
      holds the document it encodes.
    - Everything outside the program is an input: the fault plan of the
      store (which calls of [execute_query] raise inside sqlite3), the
      chat-completion service, the SMTP exchange, [uuid.uuid4()] and
      [datetime.now()].  Calls to [logger] are not modelled. *)

From Stdlib Require Import ZArith QArith String Ascii List Lia.
From Stdlib Require SpecFloat.
From stdpp Require Import base option list strings gmap sorting pretty.

Local Open Scope string_scope.
Local Open Scope list_scope.

(** ** Python string helpers *)

Module Py.

(** [needle in hay] *)
Fixpoint contains (needle hay : string) : bool :=
  match hay with
  | EmptyString => String.prefix needle hay
  | String _ rest => String.prefix needle hay || contains needle rest
  end.

(** [sep.join(parts)] *)
Definition join (sep : string) (parts : list string) : string :=
  String.concat sep parts.

(** The text of a triple-quoted literal, given line by line. *)
Definition nl : string := String (ascii_of_nat 10) EmptyString.
Definition lines (ls : list string) : string := String.concat nl ls.

(** [s.split(',')]: the pieces between the separators, empty ones kept. *)
Fixpoint split_on (sep : ascii) (s : string) : list string :=
  match s with
  | EmptyString => [EmptyString]
  | String c rest =>
      if Ascii.eqb c sep then EmptyString :: split_on sep rest
      else match split_on sep rest with
           | [] => [String c EmptyString]
           | piece :: pieces => String c piece :: pieces
           end
  end.

(** [s[:n]] *)
Definition slice_to (n : nat) (s : string) : string := String.substring 0 n s.

(** Truth value of a [str]. *)
Definition truthy_str (s : string) : bool :=
  match s with EmptyString => false | _ => true end.

(** [str.isspace] on one ASCII character: TAB..CR, FS..US and the blank. *)
Definition is_space (c : ascii) : bool :=
  let n := nat_of_ascii c in
  (Nat.leb 9 n && Nat.leb n 13) || (Nat.leb 28 n && Nat.leb n 32).

Fixpoint lstrip (s : string) : string :=
  match s with
  | EmptyString => EmptyString
  | String c rest => if is_space c then lstrip rest else s
  end.

Fixpoint rstrip (s : string) : string :=
  match s with
  | EmptyString => EmptyString
  | String c rest =>
      match rstrip rest with
      | EmptyString => if is_space c then EmptyString else String c EmptyString
      | kept => String c kept
      end
  end.

(** [s.strip()] *)
Definition strip (s : string) : string := rstrip (lstrip s).

(** The ASCII digits. *)
Definition is_digit (c : ascii) : bool :=
  let n := nat_of_ascii c in Nat.leb 48 n && Nat.leb n 57.

End Py.

(** ** JSON documents *)

#[warnings="-register-all"]
Inductive json : Type :=
| JNull
| JBool (b : bool)
| JInt (z : Z)
| JFloat (q : Q)
| JStr (s : string)
| JList (items : list json)
| JDict (entries : list (string * json)).

(** A JSON object: what [json.loads] returns for the settings columns. *)
Definition jdict : Type := list (string * json).

(** [d.get(key)] on a dict: [None] when the key is absent. *)
Fixpoint dict_get (key : string) (d : jdict) : option json :=
  match d with
  | [] => None
  | (k, v) :: rest => if String.eqb k key then Some v else dict_get key rest
  end.

(** Truth value of a Python value, as tested by [if]. *)
Definition truthy (v : json) : bool :=
  match v with
  | JNull => false
  | JBool b => b
  | JInt z => negb (Z.eqb z 0)
  | JFloat q => negb (Qeq_bool q 0)
  | JStr s => Py.truthy_str s
  | JList items => match items with [] => false | _ => true end
  | JDict entries => match entries with [] => false | _ => true end
  end.

(** ** Data model *)

Definition timestamp : Type := Z.
Bind Scope Z_scope with timestamp.

(** The dataclasses [Job] and [JobProfile]. *)
Record Job : Type := mkJob {
  job_id : string;
  job_title : string;
  job_company : string;
  job_location : string;
  job_description : string;
  job_url : string;
  job_salary_range : string;
  job_posted_date : timestamp;
  job_match_score : Q;
  job_source : string
}.

Record JobProfile : Type := mkJobProfile {
  profile_id : string;
  profile_name : string;
  profile_skills : list string;
  profile_experience : string;
  profile_summary : string;
  profile_target_positions : list string;
  profile_created_at : timestamp
}.

(** Rows of the five tables of [init_database]. *)
Record user_row : Type := mkUser {
  u_id : string;
  u_username : string;
  u_password_hash : string;
  u_email : option string
}.

Record profile_row : Type := mkProfile {
  p_id : string;
  p_user_id : option string;
  p_name : string;
  p_skills : string;
  p_experience : string;
  p_summary : string;
  p_target_positions : string;
  p_resume_path : option string
}.

Record job_row : Type := mkJobRow {
  j_id : string;
  j_title : string;
  j_company : string;
  j_location : string;
  j_description : string;
  j_url : string;
  j_salary_range : string;
  j_posted_date : timestamp;
  j_match_score : Q;
  j_source : string
}.

Record application_row : Type := mkApplication {
  a_id : string;
  a_job_id : string;
  a_profile_id : string;
  a_user_id : option string;
  a_status : string;
  a_applied_date : timestamp;
  a_cover_letter : option string;
  a_custom_answers : option string;
  a_response_received : bool;
  a_notes : option string
}.

Record settings_row : Type := mkSettings {
  s_user_id : option string;
  s_openai_api_key : option string;
  s_email_settings : option jdict;
  s_automation_settings : option jdict;
  s_notification_settings : option jdict
}.

Record database : Type := mkDatabase {
  users : list user_row;
  profiles : list profile_row;
  jobs : list job_row;
  applications : list application_row;
  settings : list settings_row
}.

(** ** DatabaseManager *)

Module DatabaseManager.

(** [column = ?]: a NULL on either side matches nothing. *)
Definition sql_eq (column param : option string) : bool :=
  match column, param with
  | Some a, Some b => String.eqb a b
  | _, _ => false
  end.

Definition with_users (f : list user_row -> list user_row) (d : database) : database :=
  mkDatabase (f (users d)) (profiles d) (jobs d) (applications d) (settings d).
Definition with_profiles (f : list profile_row -> list profile_row) (d : database) : database :=
  mkDatabase (users d) (f (profiles d)) (jobs d) (applications d) (settings d).
Definition with_applications (f : list application_row -> list application_row)
    (d : database) : database :=
  mkDatabase (users d) (profiles d) (jobs d) (f (applications d)) (settings d).
Definition with_settings (f : list settings_row -> list settings_row) (d : database) : database :=
  mkDatabase (users d) (profiles d) (jobs d) (applications d) (f (settings d)).

(** A statement that writes: [None] is the sqlite3 error of a violated
    constraint, [Some d'] the committed store. *)
Definition statement : Type := database -> option database.

(** INSERT INTO users (id, username, password_hash, email):
    [id] is the primary key and [username] is UNIQUE. *)
Definition insert_user (row : user_row) : statement := fun d =>
  if existsb (fun u => String.eqb (u_id u) (u_id row)
                       || String.eqb (u_username u) (u_username row)) (users d)
  then None
  else Some (with_users (fun rows => rows ++ [row]) d).

(** SELECT id FROM users WHERE username = ? AND password_hash = ? *)
Definition select_user_id (username password_hash : string) (d : database) : list string :=
  map u_id
    (List.filter (fun u => String.eqb (u_username u) username
                      && String.eqb (u_password_hash u) password_hash) (users d)).

(** SELECT email FROM users WHERE id = ? *)
Definition select_user_email (uid : option string) (d : database) : list (option string) :=
  map u_email (List.filter (fun u => sql_eq (Some (u_id u)) uid) (users d)).

(** INSERT INTO applications (id, job_id, profile_id, user_id, status,
    applied_date, cover_letter): [custom_answers] and [notes] stay NULL,
    [response_received] takes its default 0. *)
Definition insert_application (id jid pid : string) (uid : option string)
    (status : string) (applied : timestamp) (cover_letter : string) : statement := fun d =>
  if existsb (fun a => String.eqb (a_id a) id) (applications d)
  then None
  else Some (with_applications
               (fun rows => rows ++ [mkApplication id jid pid uid status applied
                                       (Some cover_letter) None false None]) d).

(** UPDATE applications SET status = ?, notes = ? WHERE id = ? AND user_id = ? *)
Definition update_application (status notes app_id : string) (uid : option string)
    : statement := fun d =>
  Some (with_applications
          (map (fun a =>
                  if String.eqb (a_id a) app_id && sql_eq (a_user_id a) uid
                  then mkApplication (a_id a) (a_job_id a) (a_profile_id a) (a_user_id a)
                         status (a_applied_date a) (a_cover_letter a)
                         (a_custom_answers a) (a_response_received a) (Some notes)
                  else a)) d).

(** DELETE FROM applications WHERE user_id = ? *)
Definition delete_applications_of (uid : option string) : statement := fun d =>
  Some (with_applications (List.filter (fun a => negb (sql_eq (a_user_id a) uid))) d).

(** DELETE FROM profiles WHERE user_id = ? *)
Definition delete_profiles_of (uid : option string) : statement := fun d =>
  Some (with_profiles (List.filter (fun p => negb (sql_eq (p_user_id p) uid))) d).

(** DELETE FROM settings WHERE user_id = ? *)
Definition delete_settings_of (uid : option string) : statement := fun d =>
  Some (with_settings (List.filter (fun s => negb (sql_eq (s_user_id s) uid))) d).

(** DELETE FROM users WHERE id = ? *)
Definition delete_user (uid : option string) : statement := fun d =>
  Some (with_users (List.filter (fun u => negb (sql_eq (Some (u_id u)) uid))) d).

(** SELECT openai_api_key, email_settings, automation_settings,
    notification_settings FROM settings WHERE user_id = ? *)
Definition select_settings (uid : option string) (d : database) : list settings_row :=
  List.filter (fun s => sql_eq (s_user_id s) uid) (settings d).

(** INSERT OR REPLACE INTO settings (...): the row holding the same
    primary key, if any, is deleted and the new row is added. *)
Definition replace_settings (row : settings_row) : statement := fun d =>
  Some (with_settings
          (fun rows => List.filter (fun s => negb (sql_eq (s_user_id s) (s_user_id row))) rows
                       ++ [row]) d).

(** SELECT id, name, skills, experience, summary, target_positions
    FROM profiles WHERE user_id = ? *)
Definition select_profiles (uid : option string) (d : database) : list profile_row :=
  List.filter (fun p => sql_eq (p_user_id p) uid) (profiles d).

Definition with_jobs (f : list job_row -> list job_row) (d : database) : database :=
  mkDatabase (users d) (profiles d) (f (jobs d)) (applications d) (settings d).

(** INSERT OR REPLACE INTO jobs (id, title, company, location, description,
    url, salary_range, posted_date, match_score, source) *)
Definition replace_job (row : job_row) : statement := fun d =>
  Some (with_jobs
          (fun rows => List.filter (fun j => negb (String.eqb (j_id j) (j_id row))) rows
                       ++ [row]) d).

(** INSERT OR REPLACE INTO profiles (id, user_id, name, skills, experience,
    summary, target_positions, resume_path) *)
Definition replace_profile (row : profile_row) : statement := fun d =>
  Some (with_profiles
          (fun rows => List.filter (fun p => negb (String.eqb (p_id p) (p_id row))) rows
                       ++ [row]) d).

(** DELETE FROM profiles WHERE id = ? AND user_id = ? *)
Definition delete_profile_row (pid : string) (uid : option string) : statement := fun d =>
  Some (with_profiles
          (List.filter (fun p => negb (String.eqb (p_id p) pid && sql_eq (p_user_id p) uid))) d).

(** The one row of SELECT COUNT over applications WHERE user_id = ? *)
Definition count_applications (uid : option string) (d : database) : list nat :=
  [length (List.filter (fun a => sql_eq (a_user_id a) uid) (applications d))].

(** ... WHERE user_id = ? AND status = 'pending' *)
Definition count_pending (uid : option string) (d : database) : list nat :=
  [length (List.filter (fun a => sql_eq (a_user_id a) uid && String.eqb (a_status a) "pending")
             (applications d))].

(** ... WHERE user_id = ? AND response_received = 1 *)
Definition count_responses (uid : option string) (d : database) : list nat :=
  [length (List.filter (fun a => sql_eq (a_user_id a) uid && a_response_received a)
             (applications d))].

(** The one row of SELECT COUNT over profiles WHERE user_id = ? *)
Definition count_profiles (uid : option string) (d : database) : list nat :=
  [length (List.filter (fun p => sql_eq (p_user_id p) uid) (profiles d))].

End DatabaseManager.

(** ** The program's surroundings *)

(** One call of [client.chat.completions.create]. *)
Record chat_request : Type := mkChatRequest {
  req_model : string;
  req_prompt : string;
  req_max_tokens : nat;
  req_temperature : Q
}.

(** What the call gives back: an exception, or a response whose [choices]
    carry a message content each ([None] for a message without text). *)
Inductive chat_reply : Type :=
| ApiError (message : string)
| Completion (choices : list (option string)).

(** The service behind an [openai.OpenAI] client: its reply to the n-th
    call of an operation may depend on n and on the request. *)
Definition chat_client : Type := nat -> chat_request -> chat_reply.

(** An [AIAssistant] object: [client] is [None] when [openai.OpenAI(...)]
    raised in [__init__]. *)
Record assistant : Type := mkAssistant {
  api_key : string;
  client : option chat_client
}.

(** The keys of [st.session_state] the operations read. *)
Record session_state : Type := mkSession {
  user_id : option string;
  ai_assistant : option assistant
}.

(** One SMTP exchange of [send_email_notification]. *)
Record mail : Type := mkMail {
  mail_server : json;
  mail_from : option json;
  mail_password : option json;
  mail_to : string;
  mail_subject : string;
  mail_body : string
}.

(** The dictionaries built by [get_user_profiles], [get_user_applications]
    and [get_user_settings], and the document of [export_user_data]. *)
Record profile_dict : Type := mkProfileDict {
  pd_id : string;
  pd_name : string;
  pd_skills : string;
  pd_experience : string;
  pd_summary : string;
  pd_target_positions : string
}.

Record application_dict : Type := mkApplicationDict {
  ad_id : string;
  ad_status : string;
  ad_applied_date : timestamp;
  ad_cover_letter : option string;
  ad_notes : option string;
  ad_response_received : bool;
  ad_job_title : string;
  ad_company : string;
  ad_profile_name : string
}.

(** A settings dictionary has at most the four keys below; [None] is an
    absent key. *)
Record settings_dict : Type := mkSettingsDict {
  openai_api_key : option string;
  email_settings : option jdict;
  automation_settings : option jdict;
  notification_settings : option jdict
}.

Record export_document : Type := mkExport {
  ex_profiles : list profile_dict;
  ex_applications : list application_dict;
  ex_settings : settings_dict;
  ex_exported_at : timestamp
}.

(** What the program shows through streamlit. *)
Inductive st_event : Type :=
| StError (message : string)
| StSuccess (message : string)
| StWarning (message : string)
| StDownload (document : export_document).

Record world : Type := mkWorld {
  db : database;
  db_faults : list bool;
  smtp : mail -> option string;
  outbox : list mail;
  session : session_state;
  shown : list st_event
}.

(** ** A state monad over the world *)

Definition App (A : Type) : Type := world -> A * world.

#[global] Instance App_ret : MRet App := fun A a w => (a, w).
#[global] Instance App_bind : MBind App := fun A B k m w =>
  let (a, w') := m w in k a w'.

Definition get_db : App database := fun w => (db w, w).
Definition put_db (d : database) : App unit := fun w =>
  (tt, mkWorld d (db_faults w) (smtp w) (outbox w) (session w) (shown w)).
Definition get_session : App session_state := fun w => (session w, w).
Definition put_session (s : session_state) : App unit := fun w =>
  (tt, mkWorld (db w) (db_faults w) (smtp w) (outbox w) s (shown w)).
Definition show (e : st_event) : App unit := fun w =>
  (tt, mkWorld (db w) (db_faults w) (smtp w) (outbox w) (session w) (shown w ++ [e])).

(** The next call into sqlite3 raises when the head of the fault plan says
    so; an empty plan means no further fault. *)
Definition sqlite_raises : App bool := fun w =>
  (hd false (db_faults w),
   mkWorld (db w) (tl (db_faults w)) (smtp w) (outbox w) (session w) (shown w)).

(** The SMTP exchange: [None] when the mail went out, [Some e] when any of
    connect, starttls, login or send raised [e]. *)
Definition smtp_send (m : mail) : App (option string) := fun w =>
  match smtp w m with
  | Some e => (Some e, w)
  | None => (None, mkWorld (db w) (db_faults w) (smtp w) (outbox w ++ [m]) (session w) (shown w))
  end.

(** [DatabaseManager.execute_query], with [fetch=False]: [True] after the
    commit, [False] when anything raised. *)
Definition execute_query (stmt : DatabaseManager.statement) : App bool :=
  raised ← sqlite_raises;
  if (raised : bool) then mret false
  else
    d ← get_db;
    match stmt d with
    | Some d' => put_db d';; mret true
    | None => mret false
    end.

(** [DatabaseManager.execute_query], with [fetch=True]: the rows, or
    [None] when anything raised. *)
Definition execute_query_fetch {A : Type} (query : database -> list A) : App (option (list A)) :=
  raised ← sqlite_raises;
  if (raised : bool) then mret None
  else d ← get_db; mret (Some (query d)).

(** ** AuthManager *)

Module AuthManager.
Section Hashing.

(** [hashlib.sha256(data).hexdigest()] *)
Variable sha256_hexdigest : string -> string.

Definition hash_password (password : string) : string :=
  sha256_hexdigest password.

(** [new_id] is the value of [str(uuid.uuid4())]. *)
Definition register_user (new_id username password email : string) : App bool :=
  let password_hash := hash_password password in
  execute_query
    (DatabaseManager.insert_user (mkUser new_id username password_hash (Some email))).

Definition authenticate_user (username password : string) : App (option string) :=
  let password_hash := hash_password password in
  result ← execute_query_fetch (DatabaseManager.select_user_id username password_hash);
  mret (match result with
        | Some (id :: _) => Some id
        | _ => None
        end).

End Hashing.
End AuthManager.

(** ** Python floats *)

Module PyFloat.

(** A [float] is an IEEE 754 binary64 number: 53 bits of mantissa, and
    results rounded to the nearest number, ties to even. *)
Definition float : Type := SpecFloat.spec_float.

(** [float(n)] for an [int] n *)
Definition of_int (n : Z) : float := SpecFloat.binary_normalize 53 1024 n 0 false.

(** The float a decimal literal with the value n/d denotes: the float
    nearest to it. *)
Definition literal (n d : Z) : float := SpecFloat.SFdiv 53 1024 (of_int n) (of_int d).

Definition mul (x y : float) : float := SpecFloat.SFmul 53 1024 x y.
Definition sub (x y : float) : float := SpecFloat.SFsub 53 1024 x y.

(** The number a finite float stands for. *)
Definition value (x : float) : Q :=
  match x with
  | SpecFloat.S754_finite negative m e =>
      let magnitude :=
        match e with
        | Zneg p => Zpos m # Pos.pow 2 p
        | _ => inject_Z (Zpos m * 2 ^ e)
        end in
      if negative then Qopp magnitude else magnitude
  | _ => 0%Q
  end.

End PyFloat.

(** ** JobScraper *)

Module JobScraper.

(** [timedelta(days=n)], timestamps counting seconds. *)
Definition days (n : Z) : Z := 86400 * n.

(** The decimal text of a number inside an f-string. *)
Definition decimal (n : nat) : string := pretty n.

(** [range(n)] for an [int] n: empty when n is not positive. *)
Definition range (n : Z) : list nat := seq 0 (Z.to_nat n).

(** [ids i] and [clock i] are the values of [str(uuid.uuid4())] and
    [datetime.now()] in the round [i] of the loop.  Nothing in the loop
    raises, so the handler is never entered.  The match score is the
    float [0.8 - (i * 0.1)], kept by its exact value. *)
Definition search_indeed_jobs (ids : nat -> string) (clock : nat -> timestamp)
    (keywords location : string) (limit : Z) : list Job :=
  map (fun i =>
         mkJob (ids i)
           ("Sample " +:+ keywords +:+ " Position " +:+ decimal (i + 1))
           ("Company " +:+ decimal (i + 1))
           location
           ("Sample job description for " +:+ keywords
              +:+ " position requiring relevant skills and experience.")
           ("https://example.com/job/" +:+ decimal (i + 1))
           "$50,000 - $80,000"
           (clock i - days (Z.of_nat i))
           (PyFloat.value
              (PyFloat.sub (PyFloat.literal 8 10)
                 (PyFloat.mul (PyFloat.of_int (Z.of_nat i)) (PyFloat.literal 1 10))))
           "indeed")
      (range (Z.min limit 5)).

Definition search_linkedin_jobs (ids : nat -> string) (clock : nat -> timestamp)
    (keywords location : string) (limit : Z) : list Job :=
  map (fun i =>
         mkJob (ids i)
           ("LinkedIn " +:+ keywords +:+ " Role " +:+ decimal (i + 1))
           ("LinkedIn Company " +:+ decimal (i + 1))
           location
           ("LinkedIn job posting for " +:+ keywords
              +:+ " with comprehensive benefits and growth opportunities.")
           ("https://linkedin.com/jobs/view/" +:+ decimal (i + 1000))
           "$60,000 - $90,000"
           (clock i - days (Z.of_nat i + 1))
           (PyFloat.value
              (PyFloat.sub (PyFloat.literal 9 10)
                 (PyFloat.mul (PyFloat.of_int (Z.of_nat i)) (PyFloat.literal 8 100))))
           "linkedin")
      (range (Z.min limit 5)).

End JobScraper.

(** ** AIAssistant *)

Module AIAssistant.

(** [response.choices[0].message.content.strip()]: [None] when the call,
    the indexing or the [strip] of a missing content raises. *)
Definition first_choice_text (reply : chat_reply) : option string :=
  match reply with
  | Completion (Some text :: _) => Some (Py.strip text)
  | _ => None
  end.

Definition _fallback_cover_letter (job : Job) (profile : JobProfile) : string :=
  Py.lines
    [ "Dear Hiring Manager,";
      "";
      "I am writing to express my strong interest in the " +:+ job_title job
        +:+ " position at " +:+ job_company job
        +:+ ". With my background in " +:+ profile_experience profile
        +:+ " and expertise in " +:+ Py.join ", " (firstn 3 (profile_skills profile))
        +:+ ", I am excited about the opportunity to contribute to your team.";
      "";
      profile_summary profile;
      "";
      "I am particularly drawn to this role because it aligns perfectly with my career goals and allows me to leverage my skills in a meaningful way. I would welcome the opportunity to discuss how my experience can benefit your organization.";
      "";
      "Thank you for your consideration.";
      "";
      "Sincerely,";
      "[Your Name]" ].

Definition cover_letter_prompt (job : Job) (profile : JobProfile) : string :=
  Py.lines
    [ "";
      "            Write a professional cover letter for the following job application:";
      "            ";
      "            Job Title: " +:+ job_title job;
      "            Company: " +:+ job_company job;
      "            Job Description: " +:+ Py.slice_to 500 (job_description job) +:+ "...";
      "            ";
      "            Candidate Profile:";
      "            Name: Professional Candidate";
      "            Skills: " +:+ Py.join ", " (profile_skills profile);
      "            Experience: " +:+ profile_experience profile;
      "            Summary: " +:+ profile_summary profile;
      "            ";
      "            Make it personalized, professional, and highlight relevant skills.";
      "            Keep it under 300 words.";
      "            " ].

(** Every exception of the body is caught and answered by the template. *)
Definition generate_cover_letter (self : assistant) (job : Job) (profile : JobProfile)
    : string :=
  match client self with
  | None => _fallback_cover_letter job profile
  | Some chat =>
      let request :=
        mkChatRequest "gpt-3.5-turbo" (cover_letter_prompt job profile) 500 (7 # 10) in
      match first_choice_text (chat 0%nat request) with
      | Some text => text
      | None => _fallback_cover_letter job profile
      end
  end.

Definition qa_prompt (question : string) (job : Job) (profile : JobProfile) : string :=
  Py.lines
    [ "";
      "                Answer this job application question professionally:";
      "                Question: " +:+ question;
      "                ";
      "                Context:";
      "                Job: " +:+ job_title job +:+ " at " +:+ job_company job;
      "                Your background: " +:+ profile_summary profile;
      "                Your skills: " +:+ Py.join ", " (profile_skills profile);
      "                ";
      "                Provide a concise, professional answer (2-3 sentences).";
      "                " ].

(** The [for] loop of [generate_qa_answers], from the call numbered [n]
    on: the dictionary as the loop leaves it, whether the loop was left
    by an exception, and the requests sent to the service so far, in the
    order of the calls. *)
Fixpoint qa_loop (chat : chat_client) (job : Job) (profile : JobProfile) (n : nat)
    (questions : list string) (answers : gmap string string) (sent : list chat_request)
    : gmap string string * bool * list chat_request :=
  match questions with
  | [] => (answers, false, sent)
  | question :: rest =>
      let request := mkChatRequest "gpt-3.5-turbo" (qa_prompt question job profile) 200 (7 # 10) in
      match first_choice_text (chat n request) with
      | Some text =>
          qa_loop chat job profile (S n) rest (<[question := text]> answers) (sent ++ [request])
      | None => (answers, true, sent ++ [request])
      end
  end.

(** The [try] encloses the whole loop; the handler only logs, and the
    dictionary filled so far is returned. *)
Definition generate_qa_answers (self : assistant) (questions : list string)
    (job : Job) (profile : JobProfile) : gmap string string :=
  match client self with
  | None => ∅
  | Some chat => fst (fst (qa_loop chat job profile 0 questions ∅ []))
  end.

(** The requests [generate_qa_answers] sends to the service on the way. *)
Definition qa_requests (self : assistant) (questions : list string)
    (job : Job) (profile : JobProfile) : list chat_request :=
  match client self with
  | None => []
  | Some chat => snd (qa_loop chat job profile 0 questions ∅ [])
  end.

Definition match_score_prompt (job : Job) (profile : JobProfile) : string :=
  Py.lines
    [ "";
      "            Rate the job match on a scale of 0.0 to 1.0 based on how well the candidate fits the job:";
      "            ";
      "            Job: " +:+ job_title job +:+ " at " +:+ job_company job;
      "            Job Description: " +:+ Py.slice_to 300 (job_description job) +:+ "...";
      "            ";
      "            Candidate:";
      "            Skills: " +:+ Py.join ", " (profile_skills profile);
      "            Experience: " +:+ profile_experience profile;
      "            Target Positions: " +:+ Py.join ", " (profile_target_positions profile);
      "            ";
      "            Return only a decimal number between 0.0 and 1.0.";
      "            " ].

(** The longest run of digits [s] starts with (a greedy [\d+] or [\d*]). *)
Fixpoint leading_digits (s : string) : string :=
  match s with
  | EmptyString => EmptyString
  | String c rest => if Py.is_digit c then String c (leading_digits rest) else EmptyString
  end.

(** What follows that run. *)
Fixpoint after_digits (s : string) : string :=
  match s with
  | EmptyString => EmptyString
  | String c rest => if Py.is_digit c then after_digits rest else s
  end.

(** The match of [0?\.\d+|[01]] that starts at the first character of [s]:
    the first alternative is tried first, with and then without the
    optional 0; the second alternative is one character 0 or 1. *)
Definition match_at_start (s : string) : option string :=
  match s with
  | String "0" (String "." rest) =>
      match leading_digits rest with
      | EmptyString => Some "0"
      | ds => Some ("0." +:+ ds)
      end
  | String "." rest =>
      match leading_digits rest with
      | EmptyString => None
      | ds => Some ("." +:+ ds)
      end
  | String "0" _ => Some "0"
  | String "1" _ => Some "1"
  | _ => None
  end.

(** [re.findall(r'0?\.\d+|[01]', s)[0]]: the leftmost match, [None] for
    the IndexError of an empty result. *)
Fixpoint first_match (s : string) : option string :=
  match match_at_start s with
  | Some m => Some m
  | None =>
      match s with
      | EmptyString => None
      | String _ rest => first_match rest
      end
  end.

(** The number a run of digits denotes, read after the digits [acc]. *)
Fixpoint digits_value (acc : Z) (s : string) : Z :=
  match s with
  | EmptyString => acc
  | String c rest => digits_value (10 * acc + (Z.of_nat (nat_of_ascii c) - 48)) rest
  end.

(** [float(s)] on an unsigned decimal numeral (digits, then possibly a
    point and digits, with a digit somewhere), as the number it denotes;
    [None] stands for ValueError.  The rounding to a double is not
    modelled: it is monotone and keeps 0 and 1. *)
Definition float_of (s : string) : option Q :=
  let whole := leading_digits s in
  match Py.truthy_str whole, after_digits s with
  | true, EmptyString => Some (digits_value 0 whole # 1)
  | has_whole, String "." fraction =>
      let frac := leading_digits fraction in
      if String.eqb frac fraction && (has_whole || Py.truthy_str frac)
      then Some (digits_value 0 (whole +:+ frac) # Z.to_pos (10 ^ Z.of_nat (String.length frac)))
      else None
  | _, _ => None
  end.

(** Every exception of the body (the call, a missing content, no match,
    a numeral [float] rejects) is answered by 0.5. *)
Definition calculate_job_match_score (self : assistant) (job : Job) (profile : JobProfile)
    : Q :=
  match client self with
  | None => 1 # 2
  | Some chat =>
      let request :=
        mkChatRequest "gpt-3.5-turbo" (match_score_prompt job profile) 50 (3 # 10) in
      match first_choice_text (chat 0%nat request) with
      | Some score_text =>
          match first_match score_text with
          | Some numeral =>
              match float_of numeral with
              | Some score => score
              | None => 1 # 2
              end
          | None => 1 # 2
          end
      | None => 1 # 2
      end
  end.

End AIAssistant.

(** ** NotificationManager *)

Module NotificationManager.

(** Any exception of the exchange is caught and shown as a warning. *)
Definition send_email_notification (email_settings : jdict)
    (subject body to_email : string) : App unit :=
  let message :=
    mkMail (default (JStr "smtp.gmail.com") (dict_get "smtp_server" email_settings))
           (dict_get "from_email" email_settings)
           (dict_get "password" email_settings)
           to_email subject body in
  outcome ← smtp_send message;
  match outcome with
  | None => mret tt
  | Some e => show (StWarning ("Email notification failed: " +:+ e))
  end.

End NotificationManager.

(** ** JobAutomationApp *)

Module JobAutomationApp.

(** The empty dictionary. *)
Definition no_settings : settings_dict := mkSettingsDict None None None None.

(** [current.update(new)] *)
Definition dict_update (current new : settings_dict) : settings_dict :=
  mkSettingsDict
    (match openai_api_key new with Some v => Some v | None => openai_api_key current end)
    (match email_settings new with Some v => Some v | None => email_settings current end)
    (match automation_settings new with Some v => Some v | None => automation_settings current end)
    (match notification_settings new with
     | Some v => Some v
     | None => notification_settings current
     end).

Definition get_user_profiles : App (list profile_dict) :=
  s ← get_session;
  result ← execute_query_fetch (DatabaseManager.select_profiles (user_id s));
  mret (match result with
        | Some rows =>
            map (fun row => mkProfileDict (p_id row) (p_name row) (p_skills row)
                              (p_experience row) (p_summary row) (p_target_positions row))
                rows
        | None => []
        end).

(** ORDER BY applied_date DESC *)
Definition later_first (x y : application_dict) : Prop :=
  (ad_applied_date y <= ad_applied_date x)%Z.

#[global] Instance later_first_dec : RelDecision later_first :=
  fun x y => Z_le_dec (ad_applied_date y) (ad_applied_date x).

(** SELECT ... FROM applications a JOIN jobs j ON a.job_id = j.id
    JOIN profiles p ON a.profile_id = p.id WHERE a.user_id = ?
    ORDER BY a.applied_date DESC.  Rows with equal dates come in the
    order the merge sort leaves them. *)
Definition select_applications (uid : option string) (d : database) : list application_dict :=
  merge_sort later_first
    (a ← List.filter (fun a => DatabaseManager.sql_eq (a_user_id a) uid) (applications d);
     j ← List.filter (fun j => String.eqb (a_job_id a) (j_id j)) (jobs d);
     p ← List.filter (fun p => String.eqb (a_profile_id a) (p_id p)) (profiles d);
     [mkApplicationDict (a_id a) (a_status a) (a_applied_date a) (a_cover_letter a)
        (a_notes a) (a_response_received a) (j_title j) (j_company j) (p_name p)]).

Definition get_user_applications : App (list application_dict) :=
  s ← get_session;
  result ← execute_query_fetch (select_applications (user_id s));
  mret (default [] result).

Definition get_user_settings : App settings_dict :=
  s ← get_session;
  result ← execute_query_fetch (DatabaseManager.select_settings (user_id s));
  mret (match result with
        | Some (row :: _) =>
            mkSettingsDict (Some (default "" (s_openai_api_key row)))
                           (Some (default [] (s_email_settings row)))
                           (Some (default [] (s_automation_settings row)))
                           (Some (default [] (s_notification_settings row)))
        | _ => no_settings
        end).

Definition save_user_settings (new_settings : settings_dict) : App bool :=
  current_settings ← get_user_settings;
  let current_settings := dict_update current_settings new_settings in
  s ← get_session;
  execute_query
    (DatabaseManager.replace_settings
       (mkSettings (user_id s)
          (Some (default "" (openai_api_key current_settings)))
          (Some (default [] (email_settings current_settings)))
          (Some (default [] (automation_settings current_settings)))
          (Some (default [] (notification_settings current_settings))))).

Definition get_user_email : App (option string) :=
  s ← get_session;
  result ← execute_query_fetch (DatabaseManager.select_user_email (user_id s));
  mret (match result with
        | Some (Some email :: _) => if Py.truthy_str email then Some email else None
        | _ => None
        end).

(** The [JobProfile] object built from the selected dictionary; [created]
    is the reading of [datetime.now()]. *)
Definition profile_of (profile_data : profile_dict) (created : timestamp) : JobProfile :=
  mkJobProfile (pd_id profile_data) (pd_name profile_data)
    (if Py.truthy_str (pd_skills profile_data)
     then Py.split_on "," (pd_skills profile_data) else [])
    (pd_experience profile_data) (pd_summary profile_data)
    (if Py.truthy_str (pd_target_positions profile_data)
     then Py.split_on "," (pd_target_positions profile_data) else [])
    created.

(** The block "Send notification if enabled" of [apply_to_job], entered
    after the success message. *)
Definition notify_submitted (job : Job) : App unit :=
  user_settings ← get_user_settings;
  let email_settings := default [] (email_settings user_settings) in
  if from_option truthy false (dict_get "enabled" email_settings) then
    user_email ← get_user_email;
    match user_email with
    | Some address =>
        NotificationManager.send_email_notification email_settings
          ("Job Application Submitted - " +:+ job_title job)
          ("Your application for " +:+ job_title job +:+ " at " +:+ job_company job
             +:+ " has been submitted successfully.")
          address
    | None => mret tt
    end
  else mret tt.

(** [app_id] is the value of [str(uuid.uuid4())]; [created] and [applied]
    are the two readings of [datetime.now()].  [generate_cover_letter]
    returns for every input, so the handler around its call is never
    entered. *)
Definition apply_to_job (job : Job) (selected_profile_name : string)
    (profile_list : list profile_dict) (app_id : string) (created applied : timestamp)
    : App unit :=
  match List.find (fun p => String.eqb (pd_name p) selected_profile_name) profile_list with
  | None => show (StError "Profile not found")
  | Some profile_data =>
      let profile := profile_of profile_data created in
      s ← get_session;
      let cover_letter :=
        match ai_assistant s with
        | Some assistant => AIAssistant.generate_cover_letter assistant job profile
        | None => ""
        end in
      success ← execute_query
        (DatabaseManager.insert_application app_id (job_id job) (pd_id profile_data)
           (user_id s) "applied" applied cover_letter);
      if (success : bool) then
        show (StSuccess ("Successfully applied to " +:+ job_title job +:+ " at "
                           +:+ job_company job +:+ "!"));;
        notify_submitted job
      else show (StError "Failed to submit application")
  end.

Definition update_application_status (app_id status notes : string) : App bool :=
  s ← get_session;
  execute_query (DatabaseManager.update_application status notes app_id (user_id s)).

(** The Update button of [show_applications_page]: the result of the
    update is not looked at. *)
Definition update_button (app_id new_status notes : string) : App unit :=
  _ ← update_application_status app_id new_status notes;
  show (StSuccess "Application updated!").

(** [now] is the reading of [datetime.now()]; the download button carries
    the serialised [export_data]. *)
Definition export_user_data (now : timestamp) : App unit :=
  profile_list ← get_user_profiles;
  application_list ← get_user_applications;
  user_settings ← get_user_settings;
  let export_data :=
    mkExport profile_list application_list
      (mkSettingsDict None (email_settings user_settings)
         (automation_settings user_settings) (notification_settings user_settings))
      now in
  show (StDownload export_data).

(** The four results of [execute_query] are not looked at; afterwards
    every key of the session is deleted. *)
Definition delete_user_account : App unit :=
  s ← get_session;
  _ ← execute_query (DatabaseManager.delete_applications_of (user_id s));
  _ ← execute_query (DatabaseManager.delete_profiles_of (user_id s));
  _ ← execute_query (DatabaseManager.delete_settings_of (user_id s));
  _ ← execute_query (DatabaseManager.delete_user (user_id s));
  put_session (mkSession None None).

(** *** Further operations *)

Definition delete_profile (profile_id : string) : App bool :=
  s ← get_session;
  execute_query (DatabaseManager.delete_profile_row profile_id (user_id s)).

(** The dictionary [stats] of [get_user_statistics]. *)
Record statistics : Type := mkStatistics {
  total_applications : nat;
  pending_applications : nat;
  response_rate : Q;
  active_profiles : nat
}.

(** [result[0][0] if result else 0] *)
Definition count_or_zero (result : option (list nat)) : nat :=
  match result with
  | Some (n :: _) => n
  | _ => 0
  end.

Definition get_user_statistics : App statistics :=
  s ← get_session;
  result ← execute_query_fetch (DatabaseManager.count_applications (user_id s));
  let total := count_or_zero result in
  result ← execute_query_fetch (DatabaseManager.count_pending (user_id s));
  let pending := count_or_zero result in
  result ← execute_query_fetch (DatabaseManager.count_responses (user_id s));
  let responses := count_or_zero result in
  let rate :=
    if Nat.ltb 0 total
    then (inject_Z (Z.of_nat responses) / inject_Z (Z.of_nat total) * 100)%Q
    else 0%Q in
  result ← execute_query_fetch (DatabaseManager.count_profiles (user_id s));
  mret (mkStatistics total pending rate (count_or_zero result)).

(** The dictionary of [get_analytics_data]. *)
Record analytics : Type := mkAnalytics {
  an_applications : list application_dict;
  an_total_applications : nat;
  an_response_rate : Q
}.

Definition get_analytics_data : App analytics :=
  listed ← get_user_applications;
  mret (mkAnalytics listed (length listed)
          (match listed with
           | [] => 0%Q
           | _ =>
               (inject_Z (Z.of_nat (length (List.filter ad_response_received listed)))
                / inject_Z (Z.of_nat (length listed)) * 100)%Q
           end)).

(** A dictionary of [get_recent_applications]. *)
Record recent_dict : Type := mkRecentDict {
  rd_applied_date : timestamp;
  rd_job_title : string;
  rd_company : string;
  rd_status : string
}.

Definition recent_first (x y : recent_dict) : Prop :=
  (rd_applied_date y <= rd_applied_date x)%Z.

#[global] Instance recent_first_dec : RelDecision recent_first :=
  fun x y => Z_le_dec (rd_applied_date y) (rd_applied_date x).

(** SELECT a.applied_date, j.title, j.company, a.status FROM applications a
    JOIN jobs j ON a.job_id = j.id WHERE a.user_id = ?
    ORDER BY a.applied_date DESC LIMIT ?.  A negative LIMIT is no limit. *)
Definition select_recent (uid : option string) (limit : Z) (d : database) : list recent_dict :=
  let rows :=
    merge_sort recent_first
      (a ← List.filter (fun a => DatabaseManager.sql_eq (a_user_id a) uid) (applications d);
       j ← List.filter (fun j => String.eqb (a_job_id a) (j_id j)) (jobs d);
       [mkRecentDict (a_applied_date a) (j_title j) (j_company j) (a_status a)]) in
  if (limit <? 0)%Z then rows else firstn (Z.to_nat limit) rows.

Definition get_recent_applications (limit : Z) : App (list recent_dict) :=
  s ← get_session;
  result ← execute_query_fetch (select_recent (user_id s) limit);
  mret (default [] result).

(** *** The handlers of the pages *)

(** The options of the selectbox "Update Status" of
    [show_applications_page]. *)
Definition status_options : list string :=
  ["pending"; "applied"; "interview"; "rejected"; "accepted"].

(** [options.index(value)]; [None] stands for the ValueError. *)
Fixpoint index (value : string) (options : list string) : option nat :=
  match options with
  | [] => None
  | option :: rest =>
      if String.eqb option value then Some 0%nat
      else match index value rest with
           | Some i => Some (S i)
           | None => None
           end
  end.

(** The Login button of [show_auth_page]; [st.rerun()] only redraws. *)
Definition login_button (sha256_hexdigest : string -> string) (username password : string)
    : App unit :=
  found ← AuthManager.authenticate_user sha256_hexdigest username password;
  match found with
  | Some id =>
      if Py.truthy_str id then
        s ← get_session;
        put_session (mkSession (Some id) (ai_assistant s));;
        show (StSuccess "Login successful!")
      else show (StError "Invalid credentials")
  | None => show (StError "Invalid credentials")
  end.

(** The Register button of [show_auth_page]. *)
Definition register_button (sha256_hexdigest : string -> string)
    (new_id new_username new_email new_password confirm_password : string) : App unit :=
  if negb (String.eqb new_password confirm_password) then
    show (StError "Passwords don't match")
  else if Nat.ltb (String.length new_password) 6 then
    show (StError "Password must be at least 6 characters")
  else
    registered ← AuthManager.register_user sha256_hexdigest new_id new_username
                   new_password new_email;
    if (registered : bool) then show (StSuccess "Registration successful! Please login.")
    else show (StError "Registration failed. Username might already exist.").

(** The Logout button of [show_main_app]. *)
Definition logout_button : App unit :=
  s ← get_session;
  put_session (mkSession None (ai_assistant s)).

(** An uploaded file, and the files on disk by path.  A disk that is not
    [writable] raises on [open(..., "wb")]. *)
Record upload : Type := mkUpload {
  up_name : string;
  up_content : string
}.

Record disk : Type := mkDisk {
  files : gmap string string;
  writable : bool
}.

(** [f"{user_id}"] *)
Definition format_user (uid : option string) : string :=
  match uid with
  | Some u => u
  | None => "None"
  end.

(** The submit block of [show_profile_form]; [new_id] is the value of
    [str(uuid.uuid4())].  The result is the disk afterwards, [None] when
    writing the resume raised: that exception leaves the handler, and the
    store is not reached. *)
Definition save_profile (submitted : bool) (profile_data : option profile_dict)
    (name experience skills summary target_positions : string)
    (resume_file : option upload) (new_id : string) (d : disk) : App (option disk) :=
  if submitted && Py.truthy_str name && Py.truthy_str skills then
    let profile_id :=
      match profile_data with
      | None => new_id
      | Some data => pd_id data
      end in
    s ← get_session;
    let resume_path :=
      match resume_file with
      | Some file =>
          Some ("resumes/" +:+ format_user (user_id s) +:+ "_" +:+ profile_id +:+ "_"
                  +:+ up_name file)
      | None => None
      end in
    let written :=
      match resume_file, resume_path with
      | Some file, Some path =>
          if writable d
          then Some (mkDisk (<[path := up_content file]> (files d)) (writable d))
          else None
      | _, _ => Some d
      end in
    match written with
    | None => mret None
    | Some d' =>
        success ← execute_query
          (DatabaseManager.replace_profile
             (mkProfile profile_id (user_id s) name skills experience summary
                target_positions resume_path));
        (if (success : bool) then show (StSuccess "Profile saved successfully!")
         else show (StError "Failed to save profile"));;
        mret (Some d')
    end
  else mret (Some d).

Definition job_row_of (job : Job) : job_row :=
  mkJobRow (job_id job) (job_title job) (job_company job) (job_location job)
    (job_description job) (job_url job) (job_salary_range job) (job_posted_date job)
    (job_match_score job) (job_source job).

(** The loop "Save jobs to database"; the results are not looked at. *)
Fixpoint save_jobs (found : list Job) : App unit :=
  match found with
  | [] => mret tt
  | job :: rest =>
      _ ← execute_query (DatabaseManager.replace_job (job_row_of job));
      save_jobs rest
  end.

(** The search block of [show_job_search_page].  The result is the list
    assigned to [st.session_state.search_results], [None] when the block
    is not entered.  [ids] and [clock] number the values of [uuid4()] and
    [now()] over both searches. *)
Definition search_jobs (search_submitted : bool) (keywords location : string)
    (job_sources : list string) (max_results : Z)
    (ids : nat -> string) (clock : nat -> timestamp) : App (option (list Job)) :=
  if search_submitted && Py.truthy_str keywords then
    let indeed_jobs :=
      if existsb (String.eqb "Indeed") job_sources
      then JobScraper.search_indeed_jobs ids clock keywords location (max_results / 2)
      else [] in
    let linkedin_jobs :=
      if existsb (String.eqb "LinkedIn") job_sources
      then JobScraper.search_linkedin_jobs
             (fun i => ids (length indeed_jobs + i)) (fun i => clock (length indeed_jobs + i))
             keywords location (max_results / 2)
      else [] in
    let found := indeed_jobs ++ linkedin_jobs in
    save_jobs found;;
    show (StSuccess ("Found " +:+ JobScraper.decimal (length found) +:+ " jobs!"));;
    mret (Some found)
  else mret None.

End JobAutomationApp.

(** ** Vocabulary of the properties *)

(** The value an operation returns and the world it leaves. *)
Definition result {A : Type} (m : App A) (w : world) : A := fst (m w).
Definition after {A : Type} (m : App A) (w : world) : world := snd (m w).

(** None of the next [n] calls of [execute_query] raises inside sqlite3. *)
Definition calm (n : nat) (w : world) : Prop :=
  forallb negb (firstn n (db_faults w)) = true.

(** The same world with another SMTP service. *)
Definition with_smtp (service : mail -> option string) (w : world) : world :=
  mkWorld (db w) (db_faults w) service (outbox w) (session w) (shown w).

(** What the user is told about the outcome: everything shown except warnings. *)
Definition is_warning (e : st_event) : bool :=
  match e with StWarning _ => true | _ => false end.
Definition verdicts (w : world) : list st_event :=
  List.filter (fun e => negb (is_warning e)) (shown w).

(** An operation that leaves the store, the session and the verdicts as
    they were. *)
Definition quiet {A : Type} (m : App A) : Prop :=
  forall w,
    db (after m w) = db w /\ session (after m w) = session w
    /\ verdicts (after m w) = verdicts w.

(** Two worlds that agree on the store, its fault plan, the session and
    the verdicts: they may differ in the SMTP service, the mails sent and
    the warnings shown. *)
Definition alike (w1 w2 : world) : Prop :=
  db w1 = db w2 /\ db_faults w1 = db_faults w2 /\ session w1 = session w2
  /\ verdicts w1 = verdicts w2.

(** An operation whose result and world do not depend, up to [alike], on
    what [alike] ignores. *)
Definition blind {A : Type} (m : App A) : Prop :=
  forall w1 w2, alike w1 w2 -> result m w1 = result m w2 /\ alike (after m w1) (after m w2).

(** The generation service cannot be used: there is no client, or every
    call raises. *)
Definition unavailable (a : assistant) : Prop :=
  match client a with
  | None => True
  | Some chat => forall n request, exists e, chat n request = ApiError e
  end.

(** How many of the leading [questions] get an answer, the calls being
    numbered from [n]. *)
Fixpoint answered_prefix (chat : chat_client) (job : Job) (profile : JobProfile) (n : nat)
    (questions : list string) : nat :=
  match questions with
  | [] => 0
  | question :: rest =>
      let request :=
        mkChatRequest "gpt-3.5-turbo" (AIAssistant.qa_prompt question job profile) 200 (7 # 10) in
      match AIAssistant.first_choice_text (chat n request) with
      | Some _ => S (answered_prefix chat job profile (S n) rest)
      | None => 0
      end
  end.

(** A key of a merged dictionary: the new entry when there is one, the
    earlier entry otherwise. *)
Definition merged {X : Type} (new before now : option X) : Prop :=
  match new with
  | Some v => now = Some v
  | None => now = before
  end.

(** The numerals the pattern of [calculate_job_match_score] can match. *)
Inductive numeral : string -> Prop :=
| numeral_zero : numeral "0"
| numeral_one : numeral "1"
| numeral_fraction ds :
    AIAssistant.leading_digits ds = ds -> ds <> "" -> numeral ("." +:+ ds)
| numeral_zero_fraction ds :
    AIAssistant.leading_digits ds = ds -> ds <> "" -> numeral ("0." +:+ ds).

(** ** Sample data *)

Module Sample.

Definition job : Job :=
  mkJob "job-1" "Backend Engineer" "Acme" "Remote" "Build services" "https://example.com/job/1"
    "$50,000 - $80,000" 1700000000 (4 # 5) "manual".

Definition profile_data : profile_dict :=
  mkProfileDict "profile-1" "Main" "Python,SQL" "five years of backend work"
    "I build reliable services." "Backend Engineer".

Definition profile : JobProfile := JobAutomationApp.profile_of profile_data 1700000100.

Definition alice : user_row := mkUser "user-alice" "alice" "hash-a" (Some "alice@example.com").
Definition bob : user_row := mkUser "user-bob" "bob" "hash-b" (Some "bob@example.com").

Definition alice_settings : settings_row :=
  mkSettings (Some "user-alice") (Some "sk-secret")
    (Some [("from_email", JStr "alice@example.com"); ("password", JStr "hunter2");
           ("smtp_server", JStr "smtp.example.com"); ("enabled", JBool true)])
    (Some [("auto_apply", JBool false); ("min_match_score", JFloat (7 # 10));
           ("daily_limit", JInt 10)])
    None.

Definition bob_application : application_row :=
  mkApplication "app-bob" "job-1" "profile-bob" (Some "user-bob") "applied" 1700000050
    (Some "Dear Hiring Manager") None false None.

Definition alice_application : application_row :=
  mkApplication "app-alice" "job-1" "profile-1" (Some "user-alice") "applied" 1700000060
    (Some "") None false (Some "first round").

Definition store : database :=
  mkDatabase [alice; bob]
    [mkProfile "profile-1" (Some "user-alice") "Main" "Python,SQL" "five years of backend work"
       "I build reliable services." "Backend Engineer" None;
     mkProfile "profile-bob" (Some "user-bob") "Bob" "Go" "two years" "I ship." "" None]
    [mkJobRow "job-1" "Backend Engineer" "Acme" "Remote" "Build services"
       "https://example.com/job/1" "$50,000 - $80,000" 1700000000 (4 # 5) "manual"]
    [bob_application; alice_application]
    [alice_settings].

(** Alice is logged in, no assistant was set up, the store works and the
    SMTP server refuses the login. *)
Definition world_of_alice : world :=
  mkWorld store [] (fun _ => Some "(535, b'5.7.8 Username and Password not accepted')") []
    (mkSession (Some "user-alice") None) [].

(** The same, after "Test AI Connection" with a key for which
    [openai.OpenAI] raised: the assistant has no client. *)
Definition world_with_assistant : world :=
  mkWorld store [] (fun _ => None) []
    (mkSession (Some "user-alice") (Some (mkAssistant "sk-secret" None))) [].

(** What "Save Email Settings" passes to [save_user_settings]. *)
Definition new_email_settings : settings_dict :=
  mkSettingsDict None
    (Some [("from_email", JStr "alice@example.org"); ("password", JStr "correct horse");
           ("smtp_server", JStr "smtp.example.org"); ("enabled", JBool false)])
    None None.

(** A stand-in for SHA-256 in examples. *)
Definition digest (data : string) : string := "digest:" +:+ data.

(** A service that fails on its first call and answers every later one. *)
Definition flaky_chat : chat_client := fun n _ =>
  match n with
  | O => ApiError "Connection error."
  | S _ => Completion [Some "I enjoy this kind of work."]
  end.

(** A service that rates every job 2.0. *)
Definition overrating_chat : chat_client := fun _ _ => Completion [Some "2.0"].

End Sample.

(** ** Proof automation *)

(** Unfolds the primitive operations of the monad. *)
Ltac run_app :=
  unfold result, after, execute_query, execute_query_fetch, get_session, get_db, put_db,
    put_session, show, sqlite_raises, smtp_send;
  unfold mbind, App_bind, mret, App_ret; simpl.

(** * Properties *)

Import JobAutomationApp.

(** ** Lists and SQL comparisons *)

Lemma filter_none {A : Type} (f : A -> bool) (l : list A) :
  existsb f l = false -> List.filter f l = [].
Proof.
  induction l as [|x l IH]; simpl; [done|].
  intros H. apply orb_false_iff in H as [Hx Hl]. rewrite Hx. auto.
Qed.

Lemma filter_complement {A : Type} (f : A -> bool) (l : list A) :
  List.filter f (List.filter (fun x => negb (f x)) l) = [].
Proof.
  induction l as [|x l IH]; [reflexivity|]. simpl.
  destruct (f x) eqn:E; simpl; [exact IH | now rewrite E].
Qed.

Lemma sql_eq_spec (column : option string) (u : string) :
  DatabaseManager.sql_eq column (Some u) = true <-> column = Some u.
Proof.
  destruct column as [c|]; simpl; [| split; discriminate].
  rewrite String.eqb_eq. split; congruence.
Qed.

Lemma not_owned_spec (column : option string) (u : string) :
  negb (DatabaseManager.sql_eq column (Some u)) = true <-> column <> Some u.
Proof.
  rewrite negb_true_iff, <- not_true_iff_false. now rewrite sql_eq_spec.
Qed.

(** ** Running a sequence *)

Lemma after_bind {A B : Type} (m : App A) (k : A -> App B) (w : world) :
  after (m ≫= k) w = after (k (result m w)) (after m w).
Proof. unfold after, result, mbind, App_bind. destruct (m w); reflexivity. Qed.

Lemma result_bind {A B : Type} (m : App A) (k : A -> App B) (w : world) :
  result (m ≫= k) w = result (k (result m w)) (after m w).
Proof. unfold after, result, mbind, App_bind. destruct (m w); reflexivity. Qed.

Lemma verdicts_told (w w' : world) (e : st_event) :
  shown w' = shown w ++ [e] -> is_warning e = false -> verdicts w' = verdicts w ++ [e].
Proof. unfold verdicts. intros -> He. rewrite List.filter_app. simpl. now rewrite He. Qed.

(** ** execute_query *)

Lemma execute_query_run (stmt : DatabaseManager.statement) (w : world) :
  execute_query stmt w =
    if hd false (db_faults w) then (false, after sqlite_raises w)
    else match stmt (db w) with
         | Some d' => (true, after (put_db d') (after sqlite_raises w))
         | None => (false, after sqlite_raises w)
         end.
Proof.
  unfold after, execute_query, get_db, put_db, sqlite_raises.
  unfold mbind, App_bind, mret, App_ret. cbn [fst snd].
  destruct (hd false (db_faults w)); [reflexivity|]. cbn [db].
  destruct (stmt (db w)); reflexivity.
Qed.

Lemma execute_query_cases (stmt : DatabaseManager.statement) (w : world) :
  (result (execute_query stmt) w = true
   /\ exists d', hd false (db_faults w) = false /\ stmt (db w) = Some d'
        /\ after (execute_query stmt) w = after (put_db d') (after sqlite_raises w))
  \/ (result (execute_query stmt) w = false
      /\ after (execute_query stmt) w = after sqlite_raises w).
Proof.
  pose proof (execute_query_run stmt w) as Hrun.
  destruct (hd false (db_faults w)).
  - right. unfold result, after at 1. now rewrite Hrun.
  - destruct (stmt (db w)) as [d'|].
    + left. unfold result, after at 1. rewrite Hrun. split; [reflexivity|].
      exists d'. repeat split.
    + right. unfold result, after at 1. now rewrite Hrun.
Qed.

Lemma execute_query_calm (stmt : DatabaseManager.statement) (w : world) (d' : database) :
  hd false (db_faults w) = false -> stmt (db w) = Some d' ->
  execute_query stmt w = (true, after (put_db d') (after sqlite_raises w)).
Proof. intros Hf Hs. now rewrite execute_query_run, Hf, Hs. Qed.

Lemma execute_query_total (f : database -> database) (w : world) :
  hd false (db_faults w) = false ->
  execute_query (fun d => Some (f d)) w =
    (true, after (put_db (f (db w))) (after sqlite_raises w)).
Proof. intros Hf. now apply execute_query_calm. Qed.

Lemma after_execute_query_total (f : database -> database) (w : world) :
  hd false (db_faults w) = false ->
  after (execute_query (fun d => Some (f d))) w =
    after (put_db (f (db w))) (after sqlite_raises w).
Proof. intros Hf. unfold after at 1. now rewrite (execute_query_total _ _ Hf). Qed.

Lemma fetch_calm {A : Type} (query : database -> list A) (w : world) :
  hd false (db_faults w) = false ->
  execute_query_fetch query w = (Some (query (db w)), after sqlite_raises w).
Proof.
  intros Hf. unfold after, execute_query_fetch, get_db, sqlite_raises.
  unfold mbind, App_bind, mret, App_ret. cbn [fst snd]. now rewrite Hf.
Qed.

(** ** Calm stores *)

Lemma calm_S (n : nat) (w : world) :
  calm (S n) w -> hd false (db_faults w) = false /\ calm n (after sqlite_raises w).
Proof.
  unfold calm, after, sqlite_raises. simpl.
  destruct (db_faults w) as [|f plan]; simpl.
  - intros _. split; [reflexivity|]. now destruct n.
  - intros H. apply andb_true_iff in H as [Hf Hp]. split; [now destruct f | exact Hp].
Qed.

Lemma calm_pred (n : nat) (w : world) : calm (S n) w -> calm n w.
Proof.
  unfold calm. revert n. induction (db_faults w) as [|f plan IH]; intros n.
  - now destruct n.
  - destruct n as [|n]; [reflexivity|]. cbn [firstn forallb].
    intros H. apply andb_true_iff in H as [Hf Hp]. rewrite Hf. cbn [andb]. now apply IH.
Qed.

(** ** Quiet operations *)

Create HintDb quiet discriminated.

Lemma quiet_ret {A : Type} (a : A) : quiet (mret a).
Proof. intros w. repeat split. Qed.

Lemma quiet_bind {A B : Type} (m : App A) (k : A -> App B) :
  quiet m -> (forall a, quiet (k a)) -> quiet (m ≫= k).
Proof.
  intros Hm Hk w. rewrite after_bind.
  destruct (Hk (result m w) (after m w)) as (-> & -> & ->). apply Hm.
Qed.

Lemma quiet_get_session : quiet get_session.
Proof. intros w. repeat split. Qed.

Lemma quiet_fetch {A : Type} (query : database -> list A) : quiet (execute_query_fetch query).
Proof. intros w. run_app. destruct (hd false (db_faults w)); repeat split. Qed.

Lemma quiet_send_email_notification (es : jdict) (subject body to : string) :
  quiet (NotificationManager.send_email_notification es subject body to).
Proof.
  intros w. unfold NotificationManager.send_email_notification, verdicts. run_app.
  destruct (smtp w _); simpl; repeat split.
  rewrite List.filter_app. simpl. apply app_nil_r.
Qed.

#[global] Hint Resolve quiet_ret quiet_get_session quiet_fetch
  quiet_send_email_notification : quiet.

Lemma quiet_get_user_settings : quiet get_user_settings.
Proof.
  unfold get_user_settings.
  apply quiet_bind; [auto with quiet | intros s].
  apply quiet_bind; [auto with quiet | intros rows]. auto with quiet.
Qed.

Lemma quiet_get_user_email : quiet get_user_email.
Proof.
  unfold get_user_email.
  apply quiet_bind; [auto with quiet | intros s].
  apply quiet_bind; [auto with quiet | intros rows]. auto with quiet.
Qed.

Lemma quiet_notify_submitted (job : Job) : quiet (notify_submitted job).
Proof.
  unfold notify_submitted.
  apply quiet_bind; [apply quiet_get_user_settings | intros us].
  destruct (from_option truthy false _); [| apply quiet_ret].
  apply quiet_bind; [apply quiet_get_user_email | intros [address|]]; auto with quiet.
Qed.

(** ** Operations that do not look at the SMTP service *)

Create HintDb blind discriminated.

Lemma blind_ret {A : Type} (a : A) : blind (mret a).
Proof. intros w1 w2 H. split; [reflexivity | exact H]. Qed.

Lemma blind_bind {A B : Type} (m : App A) (k : A -> App B) :
  blind m -> (forall a, blind (k a)) -> blind (m ≫= k).
Proof.
  intros Hm Hk w1 w2 H. rewrite !after_bind, !result_bind.
  destruct (Hm w1 w2 H) as [-> H']. now apply Hk.
Qed.

Lemma blind_get_session : blind get_session.
Proof.
  intros w1 w2 H. split; [| exact H]. unfold result, get_session. simpl. apply H.
Qed.

Lemma blind_show (e : st_event) : blind (show e).
Proof.
  intros w1 w2 (Hd & Hf & Hs & Hv). split; [reflexivity|].
  unfold alike, verdicts in *. run_app. rewrite !List.filter_app, Hv. repeat split; assumption.
Qed.

Lemma blind_fetch {A : Type} (query : database -> list A) : blind (execute_query_fetch query).
Proof.
  intros w1 w2 (Hd & Hf & Hs & Hv). unfold alike, verdicts in *. run_app.
  rewrite Hf, Hd.
  destruct (hd false (db_faults w2)); simpl; rewrite ?Hf; repeat split; assumption.
Qed.

Lemma blind_execute_query (stmt : DatabaseManager.statement) : blind (execute_query stmt).
Proof.
  intros w1 w2 (Hd & Hf & Hs & Hv). unfold alike, verdicts in *. run_app.
  rewrite Hf, Hd.
  destruct (hd false (db_faults w2)); simpl; rewrite ?Hf; [repeat split; assumption|].
  destruct (stmt (db w2)); simpl; rewrite ?Hf; repeat split; assumption.
Qed.

Lemma blind_send_email_notification (es : jdict) (subject body to : string) :
  blind (NotificationManager.send_email_notification es subject body to).
Proof.
  intros w1 w2 H. split; [now destruct (result _ w1), (result _ w2)|].
  destruct (quiet_send_email_notification es subject body to w1) as (Hd1 & Hs1 & Hv1).
  destruct (quiet_send_email_notification es subject body to w2) as (Hd2 & Hs2 & Hv2).
  destruct H as (Hd & Hf & Hs & Hv). unfold alike.
  rewrite Hd1, Hd2, Hs1, Hs2, Hv1, Hv2. repeat split; try assumption.
  unfold NotificationManager.send_email_notification. run_app.
  destruct (smtp w1 _), (smtp w2 _); simpl; assumption.
Qed.

#[global] Hint Resolve blind_ret blind_get_session blind_show blind_fetch
  blind_execute_query blind_send_email_notification : blind.

Lemma blind_get_user_settings : blind get_user_settings.
Proof.
  unfold get_user_settings.
  apply blind_bind; [auto with blind | intros s].
  apply blind_bind; [auto with blind | intros rows]. auto with blind.
Qed.

Lemma blind_get_user_email : blind get_user_email.
Proof.
  unfold get_user_email.
  apply blind_bind; [auto with blind | intros s].
  apply blind_bind; [auto with blind | intros rows]. auto with blind.
Qed.

Lemma blind_notify_submitted (job : Job) : blind (notify_submitted job).
Proof.
  unfold notify_submitted.
  apply blind_bind; [apply blind_get_user_settings | intros us].
  destruct (from_option truthy false _); [| apply blind_ret].
  apply blind_bind; [apply blind_get_user_email | intros [address|]]; auto with blind.
Qed.

Lemma blind_apply_to_job (job : Job) (name : string) (plist : list profile_dict)
    (app_id : string) (created applied : timestamp) :
  blind (apply_to_job job name plist app_id created applied).
Proof.
  unfold apply_to_job. destruct (List.find _ plist) as [pd|]; [| apply blind_show].
  apply blind_bind; [apply blind_get_session | intros s].
  apply blind_bind; [apply blind_execute_query | intros [|]]; [| apply blind_show].
  apply blind_bind; [apply blind_show | intros _]. apply blind_notify_submitted.
Qed.

(** ** Applying to a job *)

(** C1.  For every job, every selected profile name and profile list,
    every fresh identifier and every fault plan of the store,
    [apply_to_job] either adds exactly one row to [applications], with
    status "applied" and a cover letter that is not NULL, and tells the
    user of the success; or leaves [applications] as it was and tells the
    user of the failure. *)
Theorem apply_to_job_all_or_nothing (job : Job) (name : string) (plist : list profile_dict)
    (app_id : string) (created applied : timestamp) (w : world) :
  (exists pid text,
      applications (db (after (apply_to_job job name plist app_id created applied) w)) =
        applications (db w)
          ++ [mkApplication app_id (job_id job) pid (user_id (session w)) "applied" applied
                (Some text) None false None]
      /\ exists told,
           verdicts (after (apply_to_job job name plist app_id created applied) w) =
             verdicts w ++ [StSuccess told])
  \/ (applications (db (after (apply_to_job job name plist app_id created applied) w)) =
        applications (db w)
      /\ exists told,
           verdicts (after (apply_to_job job name plist app_id created applied) w) =
             verdicts w ++ [StError told]).
Proof.
  unfold apply_to_job.
  destruct (List.find _ plist) as [pd|].
  - rewrite after_bind. cbn [result get_session fst after snd].
    rewrite after_bind.
    match goal with |- context [execute_query ?s] =>
      destruct (execute_query_cases s w) as [(-> & d' & Hf & Hs & ->) | (-> & ->)] end.
    + left. rewrite after_bind.
      match goal with |- context [after (notify_submitted job) ?w1] =>
        destruct (quiet_notify_submitted job w1) as (-> & _ & ->) end.
      unfold DatabaseManager.insert_application in Hs.
      destruct (existsb _ _); [discriminate|]. injection Hs as <-.
      do 2 eexists. split; [reflexivity|].
      eexists. now apply verdicts_told.
    + right. split; [reflexivity|]. eexists. now apply verdicts_told.
  - right. split; [reflexivity|]. eexists. now apply verdicts_told.
Qed.

(** C7.  Whatever the SMTP service does with the notification, the store
    [apply_to_job] leaves (so every field of the application it wrote) and
    the outcome it reports are those of a run whose notification is
    delivered: a failing notification only adds a warning. *)
Theorem notification_failure_changes_nothing (job : Job) (name : string)
    (plist : list profile_dict) (app_id : string) (created applied : timestamp)
    (w : world) (failing : mail -> option string) :
  db (after (apply_to_job job name plist app_id created applied) (with_smtp failing w)) =
    db (after (apply_to_job job name plist app_id created applied)
          (with_smtp (fun _ => None) w))
  /\ verdicts (after (apply_to_job job name plist app_id created applied)
                 (with_smtp failing w)) =
       verdicts (after (apply_to_job job name plist app_id created applied)
                   (with_smtp (fun _ => None) w)).
Proof.
  destruct (blind_apply_to_job job name plist app_id created applied
              (with_smtp failing w) (with_smtp (fun _ => None) w)) as (_ & Hd & _ & _ & Hv).
  - repeat split.
  - split; assumption.
Qed.

(** ** Accounts *)

(** C10.  When [register_user] succeeds, [authenticate_user] with the same
    name and password on the store it leaves returns the identifier that
    was registered, provided the SELECT itself does not raise. *)
Theorem register_then_authenticate (sha256_hexdigest : string -> string)
    (new_id username password email : string) (w : world) :
  result (AuthManager.register_user sha256_hexdigest new_id username password email) w = true ->
  calm 1 (after (AuthManager.register_user sha256_hexdigest new_id username password email) w) ->
  result (AuthManager.authenticate_user sha256_hexdigest username password)
    (after (AuthManager.register_user sha256_hexdigest new_id username password email) w)
  = Some new_id.
Proof.
  unfold AuthManager.register_user, AuthManager.authenticate_user.
  intros Hreg Hcalm.
  match type of Hreg with context [execute_query ?s] =>
    destruct (execute_query_cases s w) as [(_ & d' & Hf & Hs & Hw) | (Hr & _)] end;
    [| congruence].
  rewrite Hw in *. clear Hw Hreg.
  apply calm_S in Hcalm as [Hcalm _].
  rewrite result_bind. unfold result at 2. rewrite (fetch_calm _ _ Hcalm). cbn [fst].
  unfold DatabaseManager.insert_user in Hs. cbn [u_id u_username] in Hs.
  destruct (existsb _ (users (db w))) eqn:Hex; [discriminate|]. injection Hs as <-.
  unfold DatabaseManager.select_user_id.
  cbn [after put_db snd db users DatabaseManager.with_users sqlite_raises].
  rewrite List.filter_app. cbn [List.filter u_username u_password_hash].
  rewrite !String.eqb_refl. cbn [andb].
  rewrite filter_none; [reflexivity|].
  clear - Hex. induction (users (db w)) as [|u us IH]; [reflexivity|].
  simpl in *. apply orb_false_iff in Hex as [Hu Hus]. apply orb_false_iff in Hu as [_ Hu].
  rewrite Hu. simpl. auto.
Qed.

(** An instance: Carol registers in the sample world and logs in. *)
Lemma register_then_authenticate_witness :
  result (AuthManager.authenticate_user Sample.digest "carol" "s3cret!")
    (after (AuthManager.register_user Sample.digest "user-carol" "carol" "s3cret!"
              "carol@example.com") Sample.world_of_alice)
  = Some "user-carol".
Proof.
  apply (register_then_authenticate Sample.digest "user-carol" "carol" "s3cret!"
           "carol@example.com" Sample.world_of_alice); reflexivity.
Defined.

(** C9.  Deleting the account of the logged-in user removes exactly the
    rows of [applications], [profiles] and [settings] that carry that user
    id and leaves the [jobs] table as it was, when the three DELETE
    statements are executed by the store. *)
Theorem delete_user_account_clears_user (uid : string) (w : world) :
  user_id (session w) = Some uid ->
  calm 3 w ->
  (forall a, In a (applications (db (after delete_user_account w)))
             <-> In a (applications (db w)) /\ a_user_id a <> Some uid)
  /\ (forall p, In p (profiles (db (after delete_user_account w)))
                <-> In p (profiles (db w)) /\ p_user_id p <> Some uid)
  /\ (forall s, In s (settings (db (after delete_user_account w)))
                <-> In s (settings (db w)) /\ s_user_id s <> Some uid)
  /\ jobs (db (after delete_user_account w)) = jobs (db w).
Proof.
  intros Hu Hcalm. unfold delete_user_account.
  unfold DatabaseManager.delete_applications_of, DatabaseManager.delete_profiles_of,
    DatabaseManager.delete_settings_of, DatabaseManager.delete_user.
  rewrite after_bind. cbn [result get_session fst]. change (after get_session w) with w.
  rewrite Hu.
  apply calm_S in Hcalm as [Hf1 Hcalm].
  rewrite after_bind, (after_execute_query_total _ _ Hf1).
  set (w1 := after (put_db _) _).
  change (calm 2 w1) in Hcalm. apply calm_S in Hcalm as [Hf2 Hcalm].
  rewrite after_bind, (after_execute_query_total _ _ Hf2).
  set (w2 := after (put_db _) _).
  change (calm 1 w2) in Hcalm. apply calm_S in Hcalm as [Hf3 _].
  rewrite after_bind, (after_execute_query_total _ _ Hf3).
  set (w3 := after (put_db _) _).
  rewrite after_bind.
  match goal with |- context [execute_query ?s] =>
    destruct (execute_query_cases s w3) as [(_ & d' & _ & Hs & ->) | (_ & ->)] end;
    [injection Hs as <- |]; subst w3 w2 w1; cbn;
    (split; [| split; [| split]]); try reflexivity;
    intros; rewrite List.filter_In, not_owned_spec; tauto.
Qed.

(** An instance: Alice deletes her account in the sample world. *)
Lemma delete_user_account_clears_user_witness :
  (forall a, In a (applications (db (after delete_user_account Sample.world_of_alice)))
             <-> In a (applications (db Sample.world_of_alice))
                 /\ a_user_id a <> Some "user-alice")
  /\ (forall p, In p (profiles (db (after delete_user_account Sample.world_of_alice)))
                <-> In p (profiles (db Sample.world_of_alice))
                    /\ p_user_id p <> Some "user-alice")
  /\ (forall s, In s (settings (db (after delete_user_account Sample.world_of_alice)))
                <-> In s (settings (db Sample.world_of_alice))
                    /\ s_user_id s <> Some "user-alice")
  /\ jobs (db (after delete_user_account Sample.world_of_alice))
     = jobs (db Sample.world_of_alice).
Proof.
  apply (delete_user_account_clears_user "user-alice" Sample.world_of_alice); reflexivity.
Defined.

(** ** Settings *)

Lemma get_user_settings_calm (w : world) :
  hd false (db_faults w) = false ->
  get_user_settings w =
    (match DatabaseManager.select_settings (user_id (session w)) (db w) with
     | row :: _ =>
         mkSettingsDict (Some (default "" (s_openai_api_key row)))
                        (Some (default [] (s_email_settings row)))
                        (Some (default [] (s_automation_settings row)))
                        (Some (default [] (s_notification_settings row)))
     | [] => no_settings
     end, after sqlite_raises w).
Proof.
  intros Hf. unfold get_user_settings, get_session.
  unfold mbind at 1. unfold App_bind at 1. unfold mbind, App_bind.
  rewrite (fetch_calm _ _ Hf). reflexivity.
Qed.

Lemma save_user_settings_calm (new : settings_dict) (w : world) :
  calm 2 w ->
  save_user_settings new w =
    (true,
     after (put_db
              (DatabaseManager.with_settings
                 (fun rows =>
                    List.filter
                      (fun s => negb (DatabaseManager.sql_eq (s_user_id s) (user_id (session w))))
                      rows
                    ++ [let current := dict_update (result get_user_settings w) new in
                        mkSettings (user_id (session w))
                          (Some (default "" (openai_api_key current)))
                          (Some (default [] (email_settings current)))
                          (Some (default [] (automation_settings current)))
                          (Some (default [] (notification_settings current)))])
                 (db w)))
       (after sqlite_raises (after sqlite_raises w))).
Proof.
  intros Hcalm. apply calm_S in Hcalm as [Hf1 Hcalm]. apply calm_S in Hcalm as [Hf2 _].
  unfold save_user_settings. unfold mbind at 1. unfold App_bind at 1.
  unfold result. rewrite (get_user_settings_calm _ Hf1). cbn [fst].
  unfold mbind at 1. unfold App_bind at 1. cbn [get_session].
  unfold DatabaseManager.replace_settings.
  rewrite (execute_query_total _ _ Hf2). reflexivity.
Qed.

(** C8.  For a user with a stored settings record, [save_user_settings]
    with a dictionary that names only some of the four categories
    succeeds, and [get_user_settings] afterwards gives the new value for
    each category named and the value it gave before for each category
    left out, when the store executes the three statements involved. *)
Theorem save_user_settings_is_partial_merge (uid : string) (new : settings_dict)
    (w : world) (row : settings_row) (others : list settings_row) :
  user_id (session w) = Some uid ->
  calm 3 w ->
  DatabaseManager.select_settings (Some uid) (db w) = row :: others ->
  result (save_user_settings new) w = true
  /\ merged (openai_api_key new)
       (openai_api_key (result get_user_settings w))
       (openai_api_key (result get_user_settings (after (save_user_settings new) w)))
  /\ merged (email_settings new)
       (email_settings (result get_user_settings w))
       (email_settings (result get_user_settings (after (save_user_settings new) w)))
  /\ merged (automation_settings new)
       (automation_settings (result get_user_settings w))
       (automation_settings (result get_user_settings (after (save_user_settings new) w)))
  /\ merged (notification_settings new)
       (notification_settings (result get_user_settings w))
       (notification_settings (result get_user_settings (after (save_user_settings new) w))).
Proof.
  intros Hu Hcalm Hrow.
  unfold result at 1. unfold after.
  rewrite (save_user_settings_calm new w (calm_pred _ _ Hcalm)). cbn [fst snd].
  split; [reflexivity|].
  apply calm_S in Hcalm as [Hf1 Hcalm]. apply calm_S in Hcalm as [Hf2 Hcalm].
  apply calm_S in Hcalm as [Hf3 _].
  set (w2 := after (put_db _) _).
  assert (Hafter : result get_user_settings w2 =
            let current := dict_update (result get_user_settings w) new in
            mkSettingsDict (Some (default "" (openai_api_key current)))
                           (Some (default [] (email_settings current)))
                           (Some (default [] (automation_settings current)))
                           (Some (default [] (notification_settings current)))).
  { unfold result at 1. rewrite (get_user_settings_calm w2 Hf3). cbn [fst].
    subst w2. cbn [after put_db snd db settings session sqlite_raises].
    unfold DatabaseManager.select_settings, DatabaseManager.with_settings. cbn [settings].
    rewrite List.filter_app, Hu.
    rewrite (filter_complement (fun s => DatabaseManager.sql_eq (s_user_id s) (Some uid))).
    cbn [List.filter app s_user_id]. rewrite (proj2 (sql_eq_spec (Some uid) uid) eq_refl).
    reflexivity. }
  rewrite Hafter. clear Hafter w2.
  unfold result. rewrite (get_user_settings_calm w Hf1), Hu, Hrow. cbn [fst].
  unfold merged, dict_update.
  destruct new as [[k|] [e|] [a|] [n|]]; cbn; repeat split.
Qed.

(** An instance: Alice saves new email settings only. *)
Lemma save_user_settings_is_partial_merge_witness :
  result (save_user_settings Sample.new_email_settings) Sample.world_of_alice = true
  /\ merged (openai_api_key Sample.new_email_settings)
       (openai_api_key (result get_user_settings Sample.world_of_alice))
       (openai_api_key
          (result get_user_settings
             (after (save_user_settings Sample.new_email_settings) Sample.world_of_alice)))
  /\ merged (email_settings Sample.new_email_settings)
       (email_settings (result get_user_settings Sample.world_of_alice))
       (email_settings
          (result get_user_settings
             (after (save_user_settings Sample.new_email_settings) Sample.world_of_alice)))
  /\ merged (automation_settings Sample.new_email_settings)
       (automation_settings (result get_user_settings Sample.world_of_alice))
       (automation_settings
          (result get_user_settings
             (after (save_user_settings Sample.new_email_settings) Sample.world_of_alice)))
  /\ merged (notification_settings Sample.new_email_settings)
       (notification_settings (result get_user_settings Sample.world_of_alice))
       (notification_settings
          (result get_user_settings
             (after (save_user_settings Sample.new_email_settings) Sample.world_of_alice))).
Proof.
  apply (save_user_settings_is_partial_merge "user-alice" Sample.new_email_settings
           Sample.world_of_alice Sample.alice_settings []); reflexivity.
Defined.

(** ** Updating an application *)

Lemma update_application_frame (status notes app_id uid : string)
    (rows : list application_row) :
  Forall2
    (fun before now =>
       now = before
       \/ (a_id before = app_id /\ a_user_id before = Some uid
           /\ now = mkApplication (a_id before) (a_job_id before) (a_profile_id before)
                      (a_user_id before) status (a_applied_date before)
                      (a_cover_letter before) (a_custom_answers before)
                      (a_response_received before) (Some notes)))
    rows
    (map (fun a =>
            if String.eqb (a_id a) app_id && DatabaseManager.sql_eq (a_user_id a) (Some uid)
            then mkApplication (a_id a) (a_job_id a) (a_profile_id a) (a_user_id a)
                   status (a_applied_date a) (a_cover_letter a)
                   (a_custom_answers a) (a_response_received a) (Some notes)
            else a) rows).
Proof.
  induction rows as [|a rows IH]; cbn [map]; constructor; [| exact IH].
  destruct (String.eqb (a_id a) app_id) eqn:Hid; cbn [andb]; [| now left].
  destruct (DatabaseManager.sql_eq (a_user_id a) (Some uid)) eqn:Hown; [| now left].
  right. apply String.eqb_eq in Hid. apply sql_eq_spec in Hown. repeat split; assumption.
Qed.

Lemma Forall2_same {A : Type} (R : A -> A -> Prop) (l : list A) :
  (forall x, R x x) -> Forall2 R l l.
Proof. intros HR. induction l; constructor; auto. Qed.

(** C6, as the code has it.  [update_application_status] writes to the
    [applications] table only, and there it changes only rows whose id
    and owner both match: every other row stays as it was, and a row
    that matches gets the new status and notes when the statement is
    executed.  It shows nothing and returns [True] unless sqlite3 itself
    raised, and the page then shows "Application updated!" in every case.
    When no stored application has the given id together with the calling
    user's id, the store is left as it was: the miss is not reported. *)
Theorem update_status_unresolved_changes_nothing (app_id status notes uid : string)
    (w : world) :
  user_id (session w) = Some uid ->
  users (db (after (update_application_status app_id status notes) w)) = users (db w)
  /\ profiles (db (after (update_application_status app_id status notes) w)) = profiles (db w)
  /\ jobs (db (after (update_application_status app_id status notes) w)) = jobs (db w)
  /\ settings (db (after (update_application_status app_id status notes) w)) = settings (db w)
  /\ Forall2
       (fun before now =>
          now = before
          \/ (a_id before = app_id /\ a_user_id before = Some uid
              /\ now = mkApplication (a_id before) (a_job_id before) (a_profile_id before)
                         (a_user_id before) status (a_applied_date before)
                         (a_cover_letter before) (a_custom_answers before)
                         (a_response_received before) (Some notes)))
       (applications (db w))
       (applications (db (after (update_application_status app_id status notes) w)))
  /\ (result (update_application_status app_id status notes) w = true ->
      forall a, In a (applications (db w)) -> a_id a = app_id -> a_user_id a = Some uid ->
        In (mkApplication (a_id a) (a_job_id a) (a_profile_id a) (a_user_id a) status
              (a_applied_date a) (a_cover_letter a) (a_custom_answers a)
              (a_response_received a) (Some notes))
          (applications (db (after (update_application_status app_id status notes) w))))
  /\ shown (after (update_application_status app_id status notes) w) = shown w
  /\ result (update_application_status app_id status notes) w = negb (hd false (db_faults w))
  /\ shown (after (update_button app_id status notes) w)
     = shown w ++ [StSuccess "Application updated!"]
  /\ ((forall a, In a (applications (db w)) -> a_id a = app_id -> a_user_id a <> Some uid) ->
      db (after (update_application_status app_id status notes) w) = db w).
Proof.
  intros Hu. unfold update_button, update_application_status.
  rewrite !after_bind, !result_bind. cbn [result get_session fst].
  change (after get_session w) with w. rewrite Hu.
  unfold result, after. rewrite execute_query_run.
  unfold DatabaseManager.update_application, DatabaseManager.with_applications.
  destruct (hd false (db_faults w)); cbn.
  - repeat split; try discriminate. apply Forall2_same. now left.
  - repeat split.
    + apply update_application_frame.
    + intros _ a Ha Hid Hown. apply in_map_iff. exists a. split; [| exact Ha].
      rewrite Hid, String.eqb_refl. cbn [andb].
      now rewrite (proj2 (sql_eq_spec _ _) Hown).
    + intros Hforeign. destruct (db w) as [us ps js apps ss]. cbn in *. f_equal.
      induction apps as [|a apps IH]; [reflexivity|]. cbn [map]. rewrite IH.
      * f_equal. destruct (String.eqb (a_id a) app_id) eqn:Hid; [| reflexivity].
        apply String.eqb_eq in Hid.
        destruct (DatabaseManager.sql_eq (a_user_id a) (Some uid)) eqn:Ho; [| reflexivity].
        apply sql_eq_spec in Ho. destruct (Hforeign a (or_introl eq_refl) Hid Ho).
      * intros b Hb. apply Hforeign. now right.
Qed.

(** An instance: Alice names an application of Bob. *)
Lemma update_status_unresolved_changes_nothing_witness :
  db (after (update_application_status "app-bob" "interview" "call back")
        Sample.world_of_alice) = db Sample.world_of_alice
  /\ shown (after (update_application_status "app-bob" "interview" "call back")
              Sample.world_of_alice) = shown Sample.world_of_alice
  /\ result (update_application_status "app-bob" "interview" "call back")
       Sample.world_of_alice = negb (hd false (db_faults Sample.world_of_alice)).
Proof.
  destruct (update_status_unresolved_changes_nothing "app-bob" "interview" "call back"
              "user-alice" Sample.world_of_alice eq_refl)
    as (_ & _ & _ & _ & _ & _ & Hshown & Hresult & _ & Hsame).
  split; [| split; [exact Hshown | exact Hresult]].
  apply Hsame. intros a [<- | [<- | []]]; simpl; intros; discriminate.
Defined.

(** C6, as the specification states it, fails: Alice updates an
    application of Bob; the call returns [True], the page shows
    "Application updated!" and no error, and the store is unchanged. *)
Lemma update_status_foreign_id_reports_success :
  result (update_application_status "app-bob" "interview" "call back") Sample.world_of_alice
    = true
  /\ shown (after (update_button "app-bob" "interview" "call back") Sample.world_of_alice)
     = [StSuccess "Application updated!"]
  /\ db (after (update_button "app-bob" "interview" "call back") Sample.world_of_alice)
     = Sample.store.
Proof. repeat split; reflexivity. Qed.

(** ** The fallback cover letter *)

Lemma prefix_append (n t : string) : String.prefix n (n +:+ t) = true.
Proof.
  induction n as [|c n IH]; simpl; [now destruct t|].
  destruct (ascii_dec c c) as [_|Hc]; [exact IH | congruence].
Qed.

Lemma prefix_append_l (n h t : string) :
  String.prefix n h = true -> String.prefix n (h +:+ t) = true.
Proof.
  revert h. induction n as [|c n IH]; intros h; simpl.
  - intros _. now destruct (h +:+ t).
  - destruct h as [|d h]; simpl; [discriminate|].
    destruct (ascii_dec c d); [apply IH | discriminate].
Qed.

Lemma contains_prefix (n h : string) : String.prefix n h = true -> Py.contains n h = true.
Proof. destruct h; simpl; intros ->; reflexivity. Qed.

Lemma contains_append_r (n p h : string) :
  Py.contains n h = true -> Py.contains n (p +:+ h) = true.
Proof.
  intros H. induction p as [|c p IH]; simpl; [exact H|].
  rewrite IH. apply orb_true_r.
Qed.

Lemma contains_append_l (n h t : string) :
  Py.contains n h = true -> Py.contains n (h +:+ t) = true.
Proof.
  induction h as [|c h IH]; simpl.
  - intros H. apply contains_prefix. now apply (prefix_append_l n "" t).
  - intros H. apply orb_true_iff in H as [H|H].
    + apply (prefix_append_l n (String c h) t) in H. simpl in H. now rewrite H.
    + rewrite (IH H). apply orb_true_r.
Qed.

Lemma contains_middle (n a b : string) : Py.contains n (a +:+ n +:+ b) = true.
Proof. apply contains_append_r, contains_prefix, prefix_append. Qed.

Lemma fallback_mentions_title (job : Job) (profile : JobProfile) :
  Py.contains (job_title job) (AIAssistant._fallback_cover_letter job profile) = true.
Proof.
  unfold AIAssistant._fallback_cover_letter, Py.lines. cbn [String.concat].
  do 4 apply contains_append_r. apply contains_append_l. apply contains_middle.
Qed.

Lemma fallback_mentions_company (job : Job) (profile : JobProfile) :
  Py.contains (job_company job) (AIAssistant._fallback_cover_letter job profile) = true.
Proof.
  unfold AIAssistant._fallback_cover_letter, Py.lines. cbn [String.concat].
  do 4 apply contains_append_r. apply contains_append_l.
  do 2 apply contains_append_r. apply contains_middle.
Qed.

Lemma fallback_mentions_skills (job : Job) (profile : JobProfile) :
  Py.contains (Py.join ", " (firstn 3 (profile_skills profile)))
    (AIAssistant._fallback_cover_letter job profile) = true.
Proof.
  unfold AIAssistant._fallback_cover_letter, Py.lines. cbn [String.concat].
  do 4 apply contains_append_r. apply contains_append_l.
  do 6 apply contains_append_r. apply contains_middle.
Qed.

Lemma generate_cover_letter_unavailable (helper : assistant) (job : Job)
    (profile : JobProfile) :
  unavailable helper ->
  AIAssistant.generate_cover_letter helper job profile =
    AIAssistant._fallback_cover_letter job profile.
Proof.
  unfold unavailable, AIAssistant.generate_cover_letter.
  destruct (client helper) as [chat|]; [| reflexivity].
  intros H. destruct (H 0%nat (mkChatRequest "gpt-3.5-turbo"
    (AIAssistant.cover_letter_prompt job profile) 500 (7 # 10))) as [e ->]. reflexivity.
Qed.

Lemma insert_application_fresh (id jid pid : string) (uid : option string)
    (status : string) (applied : timestamp) (cover : string) (d : database) :
  (forall a, In a (applications d) -> a_id a <> id) ->
  DatabaseManager.insert_application id jid pid uid status applied cover d =
    Some (DatabaseManager.with_applications
            (fun rows => rows ++ [mkApplication id jid pid uid status applied (Some cover)
                                    None false None]) d).
Proof.
  intros Hfresh. unfold DatabaseManager.insert_application.
  destruct (existsb _ (applications d)) eqn:Hex; [| reflexivity].
  apply existsb_exists in Hex as (a & Ha & Heq). apply String.eqb_eq in Heq.
  now destruct (Hfresh a Ha).
Qed.

(** C5, as the code has it.  For a job titled "Backend Engineer" at "Acme"
    and a selected profile with skills "Python,SQL": when the session
    holds an assistant whose generation service is unavailable (no client,
    or every call raises), the application identifier is fresh and the
    INSERT is executed, [apply_to_job] adds an application with status
    "applied" whose cover letter is the fallback template, which contains
    "Backend Engineer", "Acme" and "Python, SQL". *)
Theorem apply_with_unavailable_service_uses_template (job : Job) (name : string)
    (plist : list profile_dict) (pd : profile_dict) (app_id : string)
    (created applied : timestamp) (helper : assistant) (w : world) :
  job_title job = "Backend Engineer" ->
  job_company job = "Acme" ->
  pd_skills pd = "Python,SQL" ->
  List.find (fun p => String.eqb (pd_name p) name) plist = Some pd ->
  ai_assistant (session w) = Some helper ->
  unavailable helper ->
  calm 1 w ->
  (forall a, In a (applications (db w)) -> a_id a <> app_id) ->
  exists text,
    applications (db (after (apply_to_job job name plist app_id created applied) w)) =
      applications (db w)
        ++ [mkApplication app_id (job_id job) (pd_id pd) (user_id (session w)) "applied"
              applied (Some text) None false None]
    /\ text = AIAssistant._fallback_cover_letter job (profile_of pd created)
    /\ Py.contains "Backend Engineer" text = true
    /\ Py.contains "Acme" text = true
    /\ Py.contains "Python, SQL" text = true.
Proof.
  intros Ht Hc Hsk Hfind Hai Hun Hcalm Hfresh.
  exists (AIAssistant._fallback_cover_letter job (profile_of pd created)).
  split; [| split; [reflexivity | split; [| split]]].
  - unfold apply_to_job. rewrite Hfind.
    rewrite after_bind. cbn [result get_session fst]. change (after get_session w) with w.
    rewrite Hai, (generate_cover_letter_unavailable _ _ _ Hun).
    apply calm_S in Hcalm as [Hf _].
    rewrite after_bind. unfold result at 1. unfold after at 2.
    rewrite (execute_query_calm _ _ _ Hf (insert_application_fresh _ _ _ _ _ _ _ _ Hfresh)).
    cbn [fst snd]. rewrite after_bind.
    match goal with |- context [after (notify_submitted job) ?w1] =>
      destruct (quiet_notify_submitted job w1) as (-> & _ & _) end.
    reflexivity.
  - rewrite <- Ht. apply fallback_mentions_title.
  - rewrite <- Hc. apply fallback_mentions_company.
  - replace "Python, SQL"
      with (Py.join ", " (firstn 3 (profile_skills (profile_of pd created)))).
    + apply fallback_mentions_skills.
    + unfold profile_of. cbn [profile_skills]. rewrite Hsk. reflexivity.
Qed.

(** An instance: the assistant of the session has no client. *)
Lemma apply_with_unavailable_service_uses_template_witness :
  exists text,
    applications
      (db (after (apply_to_job Sample.job "Main" [Sample.profile_data] "app-new"
                    1700000100 1700000101) Sample.world_with_assistant)) =
      applications (db Sample.world_with_assistant)
        ++ [mkApplication "app-new" (job_id Sample.job) (pd_id Sample.profile_data)
              (user_id (session Sample.world_with_assistant)) "applied" 1700000101
              (Some text) None false None]
    /\ text = AIAssistant._fallback_cover_letter Sample.job
                (profile_of Sample.profile_data 1700000100)
    /\ Py.contains "Backend Engineer" text = true
    /\ Py.contains "Acme" text = true
    /\ Py.contains "Python, SQL" text = true.
Proof.
  apply (apply_with_unavailable_service_uses_template Sample.job "Main"
           [Sample.profile_data] Sample.profile_data "app-new" 1700000100 1700000101
           (mkAssistant "sk-secret" None) Sample.world_with_assistant);
    try reflexivity; try exact I.
  intros a [<- | [<- | []]]; discriminate.
Defined.

(** C5, as the specification states it, fails: with no assistant in the
    session (none was ever set up) the generation collaborator is
    unavailable, and the application is stored with the empty cover
    letter, which contains neither "Backend Engineer" nor "Acme". *)
Lemma apply_without_assistant_stores_empty_letter :
  ai_assistant (session Sample.world_of_alice) = None
  /\ applications
       (db (after (apply_to_job Sample.job "Main" [Sample.profile_data] "app-new"
                     1700000100 1700000101) Sample.world_of_alice))
     = applications Sample.store
         ++ [mkApplication "app-new" "job-1" "profile-1" (Some "user-alice") "applied"
               1700000101 (Some "") None false None]
  /\ Py.contains "Backend Engineer" "" = false
  /\ Py.contains "Acme" "" = false.
Proof. repeat split; reflexivity. Qed.

(** ** Answers to application questions *)

Lemma qa_loop_dom (chat : chat_client) (job : Job) (profile : JobProfile)
    (questions : list string) :
  forall (n : nat) (answers : gmap string string) (sent : list chat_request),
    dom (fst (fst (AIAssistant.qa_loop chat job profile n questions answers sent))) =
      dom answers ∪ list_to_set (take (answered_prefix chat job profile n questions) questions).
Proof.
  induction questions as [|q rest IH]; intros n answers sent;
    cbn [AIAssistant.qa_loop answered_prefix].
  - cbn. now rewrite (right_id_L ∅ (∪)).
  - destruct (AIAssistant.first_choice_text _) as [text|].
    + rewrite IH, dom_insert_L. cbn [take list_to_set foldr].
      now rewrite (assoc_L (∪)), (comm_L (∪) (dom answers)).
    + cbn. now rewrite (right_id_L ∅ (∪)).
Qed.

Lemma take_subseteq (k : nat) (l : list string) :
  (list_to_set (take k l) : gset string) ⊆ list_to_set l.
Proof.
  intros x Hx. apply elem_of_list_to_set in Hx. apply elem_of_list_to_set.
  rewrite <- (take_drop k l). apply elem_of_app. now left.
Qed.

(** The requests sent: one for each question up to and including the
    first whose call fails. *)
Lemma qa_loop_sent (chat : chat_client) (job : Job) (profile : JobProfile)
    (questions : list string) :
  forall (n : nat) (answers : gmap string string) (sent : list chat_request),
    snd (AIAssistant.qa_loop chat job profile n questions answers sent) =
      sent ++ map (fun q => mkChatRequest "gpt-3.5-turbo" (AIAssistant.qa_prompt q job profile)
                              200 (7 # 10))
                (take (S (answered_prefix chat job profile n questions)) questions).
Proof.
  induction questions as [|q rest IH]; intros n answers sent;
    cbn [AIAssistant.qa_loop answered_prefix].
  - cbn. now rewrite app_nil_r.
  - destruct (AIAssistant.first_choice_text _) as [text|].
    + rewrite IH, <- app_assoc. reflexivity.
    + destruct rest; reflexivity.
Qed.

(** A question that is not among the answered ones keeps its entry. *)
Lemma qa_loop_untouched (chat : chat_client) (job : Job) (profile : JobProfile)
    (q : string) (questions : list string) :
  forall (n : nat) (answers : gmap string string) (sent : list chat_request),
    (forall j, (j < answered_prefix chat job profile n questions)%nat ->
               questions !! j <> Some q) ->
    fst (fst (AIAssistant.qa_loop chat job profile n questions answers sent)) !! q
      = answers !! q.
Proof.
  induction questions as [|q0 rest IH]; intros n answers sent Hnot;
    cbn [AIAssistant.qa_loop answered_prefix] in *; [reflexivity|].
  destruct (AIAssistant.first_choice_text _) as [text|]; [| reflexivity].
  rewrite IH.
  - apply lookup_insert_ne. intros ->. apply (Hnot 0%nat); [lia | reflexivity].
  - intros j Hj. apply (Hnot (S j)). lia.
Qed.

(** Every entry of the result is the reply to the call made for its
    question. *)
Lemma qa_loop_sound (chat : chat_client) (job : Job) (profile : JobProfile)
    (q text : string) (questions : list string) :
  forall (n : nat) (answers : gmap string string) (sent : list chat_request),
    fst (fst (AIAssistant.qa_loop chat job profile n questions answers sent)) !! q
      = Some text ->
    answers !! q = Some text
    \/ exists i, (i < answered_prefix chat job profile n questions)%nat
                 /\ questions !! i = Some q
                 /\ AIAssistant.first_choice_text
                      (chat (n + i)%nat
                         (mkChatRequest "gpt-3.5-turbo" (AIAssistant.qa_prompt q job profile)
                            200 (7 # 10))) = Some text.
Proof.
  induction questions as [|q0 rest IH]; intros n answers sent Hq;
    cbn [AIAssistant.qa_loop answered_prefix] in *; [now left|].
  destruct (AIAssistant.first_choice_text _) as [reply|] eqn:Hreply; [| now left].
  apply IH in Hq as [Hq | (i & Hi & Hqi & Hanswer)].
  - destruct (decide (q0 = q)) as [-> | Hne].
    + rewrite lookup_insert_eq in Hq. injection Hq as ->.
      right. exists 0%nat. rewrite Nat.add_0_r. repeat split; [lia | exact Hreply].
    + rewrite lookup_insert_ne in Hq by exact Hne. now left.
  - right. exists (S i). rewrite Nat.add_succ_r. repeat split; [lia | exact Hqi | exact Hanswer].
Qed.

(** The last answered call for a question gives its entry. *)
Lemma qa_loop_complete (chat : chat_client) (job : Job) (profile : JobProfile)
    (q : string) (questions : list string) :
  forall (n i : nat) (answers : gmap string string) (sent : list chat_request),
    (i < answered_prefix chat job profile n questions)%nat ->
    questions !! i = Some q ->
    (forall j, (i < j < answered_prefix chat job profile n questions)%nat ->
               questions !! j <> Some q) ->
    fst (fst (AIAssistant.qa_loop chat job profile n questions answers sent)) !! q
      = AIAssistant.first_choice_text
          (chat (n + i)%nat
             (mkChatRequest "gpt-3.5-turbo" (AIAssistant.qa_prompt q job profile) 200 (7 # 10))).
Proof.
  induction questions as [|q0 rest IH]; intros n i answers sent Hi Hq Hlast;
    cbn [AIAssistant.qa_loop answered_prefix] in *; [lia|].
  destruct (AIAssistant.first_choice_text (chat n _)) as [reply|] eqn:Hreply; [| lia].
  destruct i as [|i].
  - injection Hq as ->. rewrite Nat.add_0_r, Hreply, qa_loop_untouched.
    + apply lookup_insert_eq.
    + intros j Hj. apply (Hlast (S j)). lia.
  - rewrite Nat.add_succ_r. apply (IH (S n) i); [lia | exact Hq |].
    intros j Hj. apply (Hlast (S j)). lia.
Qed.

(** C4, as the code has it.  [generate_qa_answers] returns, for every list
    of questions, a dictionary whose keys are among the questions; it is
    empty when the service is unavailable.  The questions are answered in
    order up to the first failing call: the keys are exactly the
    questions before it, every entry is the reply the service gave to the
    call for its question (the last such call, when a question is
    repeated), and the requests sent are those for the questions up to
    and including the failing one, so no later question is asked. *)
Theorem generate_qa_answers_answers_a_prefix (helper : assistant) (questions : list string)
    (job : Job) (profile : JobProfile) :
  dom (AIAssistant.generate_qa_answers helper questions job profile) ⊆ list_to_set questions
  /\ (unavailable helper ->
      AIAssistant.generate_qa_answers helper questions job profile = ∅)
  /\ (forall chat, client helper = Some chat ->
      dom (AIAssistant.generate_qa_answers helper questions job profile) =
        list_to_set (take (answered_prefix chat job profile 0 questions) questions)
      /\ AIAssistant.qa_requests helper questions job profile =
           map (fun q => mkChatRequest "gpt-3.5-turbo" (AIAssistant.qa_prompt q job profile)
                           200 (7 # 10))
             (take (S (answered_prefix chat job profile 0 questions)) questions)
      /\ (forall q text,
            AIAssistant.generate_qa_answers helper questions job profile !! q = Some text ->
            exists i, (i < answered_prefix chat job profile 0 questions)%nat
                      /\ questions !! i = Some q
                      /\ AIAssistant.first_choice_text
                           (chat i (mkChatRequest "gpt-3.5-turbo"
                                      (AIAssistant.qa_prompt q job profile) 200 (7 # 10)))
                         = Some text)
      /\ (forall i q,
            (i < answered_prefix chat job profile 0 questions)%nat ->
            questions !! i = Some q ->
            (forall j, (i < j < answered_prefix chat job profile 0 questions)%nat ->
                       questions !! j <> Some q) ->
            AIAssistant.generate_qa_answers helper questions job profile !! q
              = AIAssistant.first_choice_text
                  (chat i (mkChatRequest "gpt-3.5-turbo"
                             (AIAssistant.qa_prompt q job profile) 200 (7 # 10))))).
Proof.
  unfold AIAssistant.generate_qa_answers, AIAssistant.qa_requests, unavailable.
  destruct (client helper) as [chat|].
  - split; [| split].
    + rewrite qa_loop_dom, dom_empty_L, (left_id_L ∅ (∪)). apply take_subseteq.
    + intros Hdown. destruct questions as [|q rest]; [reflexivity|].
      cbn [AIAssistant.qa_loop].
      destruct (Hdown 0%nat (mkChatRequest "gpt-3.5-turbo"
        (AIAssistant.qa_prompt q job profile) 200 (7 # 10))) as [e ->]. reflexivity.
    + intros chat' [= <-]. split; [| split; [| split]].
      * rewrite qa_loop_dom, dom_empty_L. apply (left_id_L ∅ (∪)).
      * apply qa_loop_sent.
      * intros q text Hq. apply qa_loop_sound in Hq as [Hq | Hq]; [| exact Hq].
        rewrite lookup_empty in Hq. discriminate.
      * intros i q Hi Hq Hlast. now apply (qa_loop_complete chat job profile q questions 0 i).
  - split; [| split].
    + rewrite dom_empty_L. apply empty_subseteq.
    + reflexivity.
    + discriminate.
Qed.

(** C4, as the specification states it, fails: the service raises on the
    call for the first question and would answer the call for the second,
    yet the second question gets no answer. *)
Lemma one_failure_blocks_later_questions :
  AIAssistant.generate_qa_answers (mkAssistant "sk-secret" (Some Sample.flaky_chat))
    ["Why do you want this job?"; "When can you start?"] Sample.job Sample.profile
    !! "When can you start?" = None
  /\ AIAssistant.first_choice_text
       (Sample.flaky_chat 1
          (mkChatRequest "gpt-3.5-turbo"
             (AIAssistant.qa_prompt "When can you start?" Sample.job Sample.profile)
             200 (7 # 10)))
     = Some "I enjoy this kind of work.".
Proof. split; reflexivity. Qed.

(** ** The match score *)

Lemma leading_digits_idem (s : string) :
  AIAssistant.leading_digits (AIAssistant.leading_digits s) = AIAssistant.leading_digits s.
Proof.
  induction s as [|c s IH]; [reflexivity|]. cbn [AIAssistant.leading_digits].
  destruct (Py.is_digit c) eqn:Hc; [| reflexivity].
  cbn [AIAssistant.leading_digits]. now rewrite Hc, IH.
Qed.

Lemma is_digit_value (c : ascii) :
  Py.is_digit c = true -> (0 <= Z.of_nat (nat_of_ascii c) - 48 <= 9)%Z.
Proof.
  unfold Py.is_digit. intros H. apply andb_true_iff in H as [H1 H2].
  apply Nat.leb_le in H1, H2. lia.
Qed.

Lemma digits_value_bounds (ds : string) :
  AIAssistant.leading_digits ds = ds ->
  forall acc, (0 <= acc)%Z ->
    (acc * 10 ^ Z.of_nat (String.length ds) <= AIAssistant.digits_value acc ds
     < (acc + 1) * 10 ^ Z.of_nat (String.length ds))%Z.
Proof.
  induction ds as [|c r IH]; intros Hds acc Hacc.
  - cbn. lia.
  - cbn [AIAssistant.leading_digits] in Hds. destruct (Py.is_digit c) eqn:Hc; [| discriminate].
    injection Hds as Hr. pose proof (is_digit_value c Hc) as Hd.
    cbn [AIAssistant.digits_value String.length].
    specialize (IH Hr (10 * acc + (Z.of_nat (nat_of_ascii c) - 48))%Z ltac:(lia)).
    rewrite Nat2Z.inj_succ, Z.pow_succ_r by lia.
    set (p := (10 ^ Z.of_nat (String.length r))%Z) in *.
    assert (0 < p)%Z by (apply Z.pow_pos_nonneg; lia).
    nia.
Qed.

Lemma match_at_start_numeral (s m : string) :
  AIAssistant.match_at_start s = Some m -> numeral m.
Proof.
  unfold AIAssistant.match_at_start.
  destruct s as [|c s]; [discriminate|].
  destruct (ascii_dec c "0") as [-> | H0].
  - destruct s as [|d s]; [intros [= <-]; constructor|].
    destruct (ascii_dec d ".") as [-> | Hd].
    + destruct (AIAssistant.leading_digits s) as [|e ds] eqn:E; intros [= <-]; [constructor|].
      apply numeral_zero_fraction; [| discriminate].
      rewrite <- E. apply leading_digits_idem.
    + destruct d as [[] [] [] [] [] [] [] []]; try (intros [= <-]; constructor).
      now destruct Hd.
  - destruct (ascii_dec c ".") as [-> | Hp].
    + destruct (AIAssistant.leading_digits s) as [|e ds] eqn:E; [discriminate|]. intros [= <-].
      apply numeral_fraction; [| discriminate].
      rewrite <- E. apply leading_digits_idem.
    + destruct (ascii_dec c "1") as [-> | H1]; [intros [= <-]; constructor|].
      destruct c as [[] [] [] [] [] [] [] []]; try discriminate;
        try (now destruct H0); try (now destruct Hp); now destruct H1.
Qed.

Lemma first_match_numeral (s m : string) : AIAssistant.first_match s = Some m -> numeral m.
Proof.
  induction s as [|c s IH]; cbn [AIAssistant.first_match].
  - destruct (AIAssistant.match_at_start "") eqn:E; [| discriminate].
    intros [= <-]. now apply (match_at_start_numeral "").
  - destruct (AIAssistant.match_at_start (String c s)) eqn:E; [| exact IH].
    intros [= <-]. now apply (match_at_start_numeral (String c s)).
Qed.

Lemma fraction_in_unit_interval (ds : string) :
  AIAssistant.leading_digits ds = ds ->
  (0 <= AIAssistant.digits_value 0 ds # Z.to_pos (10 ^ Z.of_nat (String.length ds)) <= 1)%Q.
Proof.
  intros Hds. pose proof (digits_value_bounds ds Hds 0%Z ltac:(lia)) as Hb.
  assert (0 < 10 ^ Z.of_nat (String.length ds))%Z by (apply Z.pow_pos_nonneg; lia).
  unfold Qle. cbn [Qnum Qden]. rewrite Z2Pos.id by assumption. lia.
Qed.

Lemma float_of_fraction (whole ds : string) :
  AIAssistant.leading_digits ds = ds -> ds <> "" ->
  (whole = "" \/ whole = "0") ->
  AIAssistant.float_of (whole +:+ "." +:+ ds) =
    Some (AIAssistant.digits_value 0 ds # Z.to_pos (10 ^ Z.of_nat (String.length ds))).
Proof.
  intros Hds Hne Hwhole. unfold AIAssistant.float_of.
  assert (Hl : AIAssistant.leading_digits (whole +:+ "." +:+ ds) = whole)
    by (destruct Hwhole as [-> | ->]; reflexivity).
  assert (Ha : AIAssistant.after_digits (whole +:+ "." +:+ ds) = String "." ds)
    by (destruct Hwhole as [-> | ->]; reflexivity).
  rewrite Hl, Ha, Hds, String.eqb_refl.
  assert (Ht : Py.truthy_str ds = true) by (destruct ds; [now destruct Hne | reflexivity]).
  rewrite Ht, orb_true_r. cbn [andb].
  destruct Hwhole as [-> | ->]; reflexivity.
Qed.

Lemma float_of_numeral (m : string) :
  numeral m -> exists q, AIAssistant.float_of m = Some q /\ (0 <= q <= 1)%Q.
Proof.
  intros [| | ds Hds Hne | ds Hds Hne].
  - exists (0 # 1). split; [reflexivity | split; discriminate].
  - exists (1 # 1). split; [reflexivity | split; discriminate].
  - eexists. split; [| exact (fraction_in_unit_interval ds Hds)].
    apply (float_of_fraction "" ds Hds Hne). now left.
  - eexists. split; [| exact (fraction_in_unit_interval ds Hds)].
    apply (float_of_fraction "0" ds Hds Hne). now right.
Qed.

(** The score is a number between 0 and 1 for every assistant, job and
    profile, whatever the service replies. *)
Theorem match_score_in_unit_interval (helper : assistant) (job : Job) (profile : JobProfile) :
  (0 <= AIAssistant.calculate_job_match_score helper job profile <= 1)%Q.
Proof.
  unfold AIAssistant.calculate_job_match_score.
  assert (Hhalf : (0 <= 1 # 2 <= 1)%Q) by (split; discriminate).
  destruct (client helper) as [chat|]; [| exact Hhalf].
  destruct (AIAssistant.first_choice_text _) as [score_text|]; [| exact Hhalf].
  destruct (AIAssistant.first_match score_text) as [m|] eqn:E; [| exact Hhalf].
  destruct (float_of_numeral m (first_match_numeral _ _ E)) as (q & -> & Hq). exact Hq.
Qed.

(** C2 at the failing input.  The service answers "2.0", which is no
    number between 0 and 1; the pattern matches the ".0" inside it and the
    score is 0, not the default 0.5. *)
Theorem match_score_of_out_of_range_reply (job : Job) (profile : JobProfile) :
  (AIAssistant.calculate_job_match_score
     (mkAssistant "sk-secret" (Some Sample.overrating_chat)) job profile == 0)%Q
  /\ ~ (AIAssistant.calculate_job_match_score
          (mkAssistant "sk-secret" (Some Sample.overrating_chat)) job profile == 1 # 2)%Q.
Proof. split; [reflexivity | discriminate]. Qed.

(** ** Exporting user data *)

Lemma get_user_profiles_shown (w : world) : shown (after get_user_profiles w) = shown w.
Proof. unfold get_user_profiles. run_app. now destruct (hd false (db_faults w)). Qed.

Lemma get_user_applications_shown (w : world) :
  shown (after get_user_applications w) = shown w.
Proof. unfold get_user_applications. run_app. now destruct (hd false (db_faults w)). Qed.

Lemma get_user_settings_shown (w : world) : shown (after get_user_settings w) = shown w.
Proof. unfold get_user_settings. run_app. now destruct (hd false (db_faults w)). Qed.

(** The exported document never has the key [openai_api_key] among its
    settings. *)
Theorem export_omits_api_key (now : timestamp) (w : world) :
  exists doc,
    shown (after (export_user_data now) w) = shown w ++ [StDownload doc]
    /\ openai_api_key (ex_settings doc) = None.
Proof.
  unfold export_user_data. eexists. rewrite !after_bind. split.
  - cbn [after show snd shown].
    rewrite get_user_settings_shown, get_user_applications_shown, get_user_profiles_shown.
    reflexivity.
  - reflexivity.
Qed.

(** C3 at the failing input.  Alice has saved email settings with the
    password "hunter2"; the document she exports has no AI key, and its
    email settings still carry the password. *)
Theorem export_carries_email_password :
  exists doc es,
    shown (after (export_user_data 1700000200) Sample.world_of_alice) = [StDownload doc]
    /\ openai_api_key (ex_settings doc) = None
    /\ email_settings (ex_settings doc) = Some es
    /\ dict_get "password" es = Some (JStr "hunter2").
Proof. do 2 eexists. repeat split; reflexivity. Qed.

(** ** Repeating an update *)

Lemma update_application_idempotent (status notes app_id : string) (uid : option string)
    (d d1 d2 : database) :
  DatabaseManager.update_application status notes app_id uid d = Some d1 ->
  DatabaseManager.update_application status notes app_id uid d1 = Some d2 ->
  d2 = d1.
Proof.
  unfold DatabaseManager.update_application, DatabaseManager.with_applications.
  intros [= <-] [= <-]. cbn. f_equal. rewrite List.map_map.
  apply List.map_ext. intros a.
  destruct (String.eqb (a_id a) app_id && DatabaseManager.sql_eq (a_user_id a) uid) eqn:E;
    cbn; now rewrite E.
Qed.

Lemma execute_query_world (stmt : DatabaseManager.statement) (w : world) :
  db (after (execute_query stmt) w) =
    (if hd false (db_faults w) then db w else default (db w) (stmt (db w)))
  /\ db_faults (after (execute_query stmt) w) = tl (db_faults w)
  /\ session (after (execute_query stmt) w) = session w.
Proof.
  unfold after at 1 2 3. rewrite execute_query_run.
  destruct (hd false (db_faults w)); [repeat split|].
  destruct (stmt (db w)); repeat split.
Qed.

(** Two consecutive calls of [update_application_status] with the same
    arguments leave the store the first call left, when the store
    executes both statements. *)
Theorem update_status_twice (app_id status notes : string) (w : world) :
  calm 2 w ->
  db (after (update_application_status app_id status notes)
        (after (update_application_status app_id status notes) w)) =
    db (after (update_application_status app_id status notes) w).
Proof.
  intros Hcalm. apply calm_S in Hcalm as [Hf1 Hcalm]. apply calm_S in Hcalm as [Hf2 _].
  unfold update_application_status.
  rewrite !after_bind. cbn [result get_session fst].
  change (after get_session w) with w.
  set (stmt := DatabaseManager.update_application status notes app_id (user_id (session w))).
  destruct (execute_query_world stmt w) as (Hd & Hp & Hs).
  set (w1 := after (execute_query stmt) w) in *.
  change (after get_session w1) with w1. rewrite Hs. fold stmt.
  destruct (execute_query_world stmt w1) as (Hd' & _ & _).
  rewrite Hd'. rewrite Hp. change (tl (db_faults w)) with (db_faults (after sqlite_raises w)).
  rewrite Hf2, Hd, Hf1.
  destruct (stmt (db w)) as [d1|] eqn:E1; [| discriminate E1]. cbn [default from_option id].
  destruct (stmt d1) as [d2|] eqn:E2; [| discriminate E2]. cbn [default from_option id].
  apply (update_application_idempotent _ _ _ _ _ _ _ E1 E2).
Qed.

(** An instance: Alice sets her application to "interview" twice. *)
Lemma update_status_twice_witness :
  db (after (update_application_status "app-alice" "interview" "")
        (after (update_application_status "app-alice" "interview" "")
           Sample.world_of_alice)) =
    db (after (update_application_status "app-alice" "interview" "") Sample.world_of_alice).
Proof.
  apply (update_status_twice "app-alice" "interview" "" Sample.world_of_alice). reflexivity.
Defined.

(** * Further properties of the code *)



(** ** The scraper *)

Lemma range_small (n : Z) (i : nat) : In i (JobScraper.range (Z.min n 5)) -> (i < 5)%nat.
Proof. unfold JobScraper.range. rewrite in_seq. lia. Qed.

(** A search of either board returns [min(limit, 5)] jobs, none for a
    limit that is not positive; each carries the name of its board and a
    match score between the floats 0.4 and 0.8 for Indeed, 0.58 and 0.9
    for LinkedIn, so a score in the unit interval. *)
Theorem search_results_are_bounded (ids : nat -> string) (clock : nat -> timestamp)
    (keywords location : string) (limit : Z) :
  length (JobScraper.search_indeed_jobs ids clock keywords location limit)
    = Z.to_nat (Z.min limit 5)
  /\ length (JobScraper.search_linkedin_jobs ids clock keywords location limit)
     = Z.to_nat (Z.min limit 5)
  /\ (forall job, In job (JobScraper.search_indeed_jobs ids clock keywords location limit) ->
        job_source job = "indeed"
        /\ (PyFloat.value (PyFloat.literal 4 10) <= job_match_score job
             <= PyFloat.value (PyFloat.literal 8 10))%Q
        /\ (0 <= job_match_score job <= 1)%Q)
  /\ (forall job, In job (JobScraper.search_linkedin_jobs ids clock keywords location limit) ->
        job_source job = "linkedin"
        /\ (PyFloat.value (PyFloat.literal 58 100) <= job_match_score job
             <= PyFloat.value (PyFloat.literal 9 10))%Q
        /\ (0 <= job_match_score job <= 1)%Q).
Proof.
  unfold JobScraper.search_indeed_jobs, JobScraper.search_linkedin_jobs.
  rewrite !length_map. unfold JobScraper.range at 1 2. rewrite !length_seq.
  split; [reflexivity|]. split; [reflexivity|].
  split; intros job Hin; apply in_map_iff in Hin as (i & <- & Hi); apply range_small in Hi;
    cbn [job_source job_match_score]; (split; [reflexivity|]);
    do 5 (destruct i as [|i]; [vm_compute; repeat split; discriminate|]); lia.
Qed.

(** ** The pages for logging in and registering *)

Lemma select_user_id_sound (username hash id : string) (rest : list string) (d : database) :
  DatabaseManager.select_user_id username hash d = id :: rest ->
  exists u, In u (users d) /\ u_id u = id /\ u_username u = username
            /\ u_password_hash u = hash.
Proof.
  unfold DatabaseManager.select_user_id. intros H.
  assert (Hin : In id (map u_id (List.filter
            (fun u => String.eqb (u_username u) username
                      && String.eqb (u_password_hash u) hash) (users d))))
    by (rewrite H; now left).
  apply in_map_iff in Hin as (u & Hid & Hu). apply List.filter_In in Hu as [Hu Hm].
  apply andb_true_iff in Hm as [Hn Hh]. apply String.eqb_eq in Hn, Hh.
  exists u. auto.
Qed.

Lemma authenticate_user_sound (sha : string -> string) (username password id : string)
    (w : world) :
  result (AuthManager.authenticate_user sha username password) w = Some id ->
  exists u, In u (users (db w)) /\ u_id u = id /\ u_username u = username
            /\ u_password_hash u = sha password.
Proof.
  unfold AuthManager.authenticate_user, AuthManager.hash_password.
  rewrite result_bind. unfold result at 2. unfold execute_query_fetch, sqlite_raises, get_db.
  unfold mbind, App_bind, mret, App_ret. cbn [fst snd result].
  destruct (hd false (db_faults w)); cbn [fst]; [discriminate|]. cbn [db].
  destruct (DatabaseManager.select_user_id _ _ _) as [|id' rest] eqn:E; [discriminate|].
  intros [= <-]. now apply (select_user_id_sound _ _ _ _ _ E).
Qed.

Lemma authenticate_user_after (sha : string -> string) (username password : string) (w : world) :
  after (AuthManager.authenticate_user sha username password) w = after sqlite_raises w.
Proof.
  unfold AuthManager.authenticate_user. run_app. now destruct (hd false (db_faults w)).
Qed.

(** The Login button never writes to the store.  It either leaves the
    session as it was and shows "Invalid credentials", or logs in a user
    whose stored row carries the given name and the hash of the given
    password. *)
Theorem login_button_sound (sha : string -> string) (username password : string) (w : world) :
  db (after (login_button sha username password) w) = db w
  /\ ((session (after (login_button sha username password) w) = session w
       /\ shown (after (login_button sha username password) w)
          = shown w ++ [StError "Invalid credentials"])
      \/ (exists u, In u (users (db w)) /\ u_username u = username
                    /\ u_password_hash u = sha password
                    /\ session (after (login_button sha username password) w)
                       = mkSession (Some (u_id u)) (ai_assistant (session w))
                    /\ shown (after (login_button sha username password) w)
                       = shown w ++ [StSuccess "Login successful!"])).
Proof.
  unfold login_button. rewrite !after_bind, authenticate_user_after.
  destruct (result (AuthManager.authenticate_user sha username password) w) as [id|] eqn:E.
  - destruct (Py.truthy_str id).
    + split; [reflexivity|]. right.
      destruct (authenticate_user_sound _ _ _ _ _ E) as (u & Hin & <- & Hn & Hh).
      exists u. repeat split; assumption.
    + split; [reflexivity|]. left. split; reflexivity.
  - split; [reflexivity|]. left. split; reflexivity.
Qed.

(** The Register button writes at most one row, into [users] only: when
    the two passwords differ or the password has fewer than six
    characters nothing is stored, and a row that is stored carries the
    hash of the password, never the password. *)
Theorem register_button_guards (sha : string -> string)
    (new_id new_username new_email new_password confirm_password : string) (w : world) :
  profiles (db (after (register_button sha new_id new_username new_email new_password
                         confirm_password) w)) = profiles (db w)
  /\ jobs (db (after (register_button sha new_id new_username new_email new_password
                        confirm_password) w)) = jobs (db w)
  /\ applications (db (after (register_button sha new_id new_username new_email new_password
                                confirm_password) w)) = applications (db w)
  /\ settings (db (after (register_button sha new_id new_username new_email new_password
                            confirm_password) w)) = settings (db w)
  /\ (users (db (after (register_button sha new_id new_username new_email new_password
                          confirm_password) w)) = users (db w)
      \/ (new_password = confirm_password
          /\ (6 <= String.length new_password)%nat
          /\ users (db (after (register_button sha new_id new_username new_email new_password
                                 confirm_password) w))
             = users (db w) ++ [mkUser new_id new_username (sha new_password) (Some new_email)])).
Proof.
  unfold register_button.
  destruct (String.eqb new_password confirm_password) eqn:Heq; cbn [negb];
    [| repeat split; now left].
  apply String.eqb_eq in Heq.
  destruct (Nat.ltb (String.length new_password) 6) eqn:Hlen; [repeat split; now left|].
  apply Nat.ltb_ge in Hlen.
  rewrite !after_bind. unfold AuthManager.register_user, AuthManager.hash_password.
  match goal with |- context [execute_query ?s] =>
    destruct (execute_query_cases s w) as [(-> & d' & Hf & Hs & ->) | (-> & ->)] end.
  - unfold DatabaseManager.insert_user in Hs.
    destruct (existsb _ _); [discriminate|]. injection Hs as <-.
    repeat split. right. repeat split; assumption.
  - repeat split. now left.
Qed.

(** [register_user] with a username that some stored user already has
    returns [False] and leaves the store as it was. *)
Theorem register_existing_username_fails (sha : string -> string)
    (new_id username password email : string) (u : user_row) (w : world) :
  In u (users (db w)) ->
  u_username u = username ->
  result (AuthManager.register_user sha new_id username password email) w = false
  /\ db (after (AuthManager.register_user sha new_id username password email) w) = db w.
Proof.
  intros Hin Hname. unfold AuthManager.register_user.
  match goal with |- context [execute_query ?s] =>
    destruct (execute_query_cases s w) as [(_ & d' & Hf & Hs & _) | (-> & ->)] end;
    [| split; reflexivity].
  unfold DatabaseManager.insert_user in Hs.
  destruct (existsb _ (users (db w))) eqn:Hex; [discriminate|].
  assert (Hex' : existsb (fun u0 => String.eqb (u_id u0) new_id
                           || String.eqb (u_username u0) username) (users (db w)) = true).
  { apply existsb_exists. exists u. split; [assumption|].
    rewrite Hname, String.eqb_refl. apply orb_true_r. }
  cbn [u_id u_username] in Hex. congruence.
Qed.

(** An instance: a second registration under the name of Alice. *)
Lemma register_existing_username_fails_witness :
  result (AuthManager.register_user Sample.digest "user-new" "alice" "another" "") 
    Sample.world_of_alice = false
  /\ db (after (AuthManager.register_user Sample.digest "user-new" "alice" "another" "")
           Sample.world_of_alice) = db Sample.world_of_alice.
Proof.
  apply (register_existing_username_fails Sample.digest "user-new" "alice" "another" ""
           Sample.alice Sample.world_of_alice); [now left | reflexivity].
Defined.

(** ** Deleting the account, logging out *)

Lemma execute_query_total_world (f : database -> database) (w : world) :
  hd false (db_faults w) = false ->
  db (after (execute_query (fun d => Some (f d))) w) = f (db w)
  /\ db_faults (after (execute_query (fun d => Some (f d))) w) = tl (db_faults w)
  /\ session (after (execute_query (fun d => Some (f d))) w) = session w.
Proof. intros Hf. rewrite (after_execute_query_total _ _ Hf). repeat split. Qed.

Lemma delete_user_account_users (uid : string) (w : world) :
  user_id (session w) = Some uid ->
  calm 4 w ->
  users (db (after delete_user_account w))
    = List.filter (fun u => negb (DatabaseManager.sql_eq (Some (u_id u)) (Some uid)))
        (users (db w))
  /\ db_faults (after delete_user_account w) = tl (tl (tl (tl (db_faults w))))
  /\ session (after delete_user_account w) = mkSession None None.
Proof.
  intros Hu Hcalm. unfold delete_user_account.
  unfold DatabaseManager.delete_applications_of, DatabaseManager.delete_profiles_of,
    DatabaseManager.delete_settings_of, DatabaseManager.delete_user.
  rewrite after_bind. cbn [result get_session fst]. change (after get_session w) with w.
  rewrite Hu.
  apply calm_S in Hcalm as [Hf1 Hcalm].
  rewrite after_bind, (after_execute_query_total _ _ Hf1).
  set (w1 := after (put_db _) _).
  change (calm 3 w1) in Hcalm. apply calm_S in Hcalm as [Hf2 Hcalm].
  rewrite after_bind, (after_execute_query_total _ _ Hf2).
  set (w2 := after (put_db _) _).
  change (calm 2 w2) in Hcalm. apply calm_S in Hcalm as [Hf3 Hcalm].
  rewrite after_bind, (after_execute_query_total _ _ Hf3).
  set (w3 := after (put_db _) _).
  change (calm 1 w3) in Hcalm. apply calm_S in Hcalm as [Hf4 _].
  rewrite after_bind, (after_execute_query_total _ _ Hf4).
  repeat split.
Qed.

(** After [delete_user_account], with the four DELETE statements
    executed, no name and password log in as the deleted user, and the
    session holds no user. *)
Theorem deleted_account_cannot_log_in (sha : string -> string) (uid username password : string)
    (w : world) :
  user_id (session w) = Some uid ->
  calm 4 w ->
  result (AuthManager.authenticate_user sha username password) (after delete_user_account w)
    <> Some uid
  /\ user_id (session (after delete_user_account w)) = None.
Proof.
  intros Hu Hcalm. destruct (delete_user_account_users uid w Hu Hcalm) as (Hus & _ & Hs).
  split; [| now rewrite Hs].
  intros Hlogin. apply authenticate_user_sound in Hlogin as (u & Hin & Hid & _).
  rewrite Hus in Hin. apply List.filter_In in Hin as [_ Hne].
  apply negb_true_iff in Hne. cbn in Hne. rewrite Hid, String.eqb_refl in Hne. discriminate.
Qed.

(** An instance: Alice deletes her account. *)
Lemma deleted_account_cannot_log_in_witness :
  result (AuthManager.authenticate_user Sample.digest "alice" "wonderland")
    (after delete_user_account Sample.world_of_alice) <> Some "user-alice"
  /\ user_id (session (after delete_user_account Sample.world_of_alice)) = None.
Proof.
  apply (deleted_account_cannot_log_in Sample.digest "user-alice" "alice" "wonderland"
           Sample.world_of_alice); reflexivity.
Defined.

Lemma select_none_for_null {A : Type} (column : A -> option string) (rows : list A) :
  List.filter (fun r => DatabaseManager.sql_eq (column r) None) rows = [].
Proof.
  induction rows as [|r rows IH]; [reflexivity|]. cbn.
  destruct (column r); exact IH.
Qed.

Lemma fetch_result {A : Type} (query : database -> list A) (w : world) :
  result (execute_query_fetch query) w =
    if hd false (db_faults w) then None else Some (query (db w)).
Proof. run_app. now destruct (hd false (db_faults w)). Qed.

Lemma sees_nothing (w : world) :
  user_id (session w) = None ->
  result get_user_profiles w = []
  /\ result get_user_applications w = []
  /\ result get_user_settings w = no_settings
  /\ result get_user_email w = None.
Proof.
  intros Hu.
  unfold get_user_profiles, get_user_applications, get_user_settings, get_user_email.
  rewrite !result_bind. cbn [result get_session fst]. change (after get_session w) with w.
  rewrite Hu, !fetch_result. unfold result, mret, App_ret. cbn [fst].
  unfold DatabaseManager.select_profiles, select_applications,
    DatabaseManager.select_settings, DatabaseManager.select_user_email.
  rewrite (select_none_for_null p_user_id), (select_none_for_null a_user_id),
    (select_none_for_null s_user_id), (select_none_for_null (fun u => Some (u_id u))).
  destruct (hd false (db_faults w)); repeat split.
Qed.

(** After the Logout button the session user is [None], which no stored
    row matches: the listings of profiles and applications are empty, the
    settings are the empty dictionary and there is no address. *)
Theorem logged_out_sees_nothing (w : world) :
  result get_user_profiles (after logout_button w) = []
  /\ result get_user_applications (after logout_button w) = []
  /\ result get_user_settings (after logout_button w) = no_settings
  /\ result get_user_email (after logout_button w) = None.
Proof. apply sees_nothing. reflexivity. Qed.

(** ** Profiles *)

Lemma get_user_profiles_calm (w : world) :
  hd false (db_faults w) = false ->
  result get_user_profiles w =
    map (fun row => mkProfileDict (p_id row) (p_name row) (p_skills row)
                      (p_experience row) (p_summary row) (p_target_positions row))
      (DatabaseManager.select_profiles (user_id (session w)) (db w)).
Proof.
  intros Hf. unfold get_user_profiles.
  rewrite !result_bind. cbn [result get_session fst]. change (after get_session w) with w.
  rewrite fetch_result, Hf. reflexivity.
Qed.

(** [delete_profile] removes nothing but profiles, and of these only rows
    that carry both the given id and the id of the session user; every
    other table is left as it was, and once the statement is executed the
    listing of profiles no longer shows the id. *)
Theorem delete_profile_removes_only_own (profile_id uid : string) (w : world) :
  user_id (session w) = Some uid ->
  (forall p, In p (profiles (db (after (delete_profile profile_id) w))) ->
             In p (profiles (db w)))
  /\ (forall p, In p (profiles (db w)) ->
                p_id p <> profile_id \/ p_user_id p <> Some uid ->
                In p (profiles (db (after (delete_profile profile_id) w))))
  /\ users (db (after (delete_profile profile_id) w)) = users (db w)
  /\ jobs (db (after (delete_profile profile_id) w)) = jobs (db w)
  /\ applications (db (after (delete_profile profile_id) w)) = applications (db w)
  /\ settings (db (after (delete_profile profile_id) w)) = settings (db w)
  /\ (calm 2 w ->
      forall listed, In listed (result get_user_profiles (after (delete_profile profile_id) w)) ->
                     pd_id listed <> profile_id).
Proof.
  intros Hu. unfold delete_profile. rewrite !after_bind.
  cbn [result get_session fst]. change (after get_session w) with w. rewrite Hu.
  destruct (execute_query_world
              (DatabaseManager.delete_profile_row profile_id (Some uid)) w) as (Hd & Hp & Hs).
  set (w' := after (execute_query _) w) in *.
  assert (Hkeep : forall p, In p (profiles (db w)) ->
            p_id p <> profile_id \/ p_user_id p <> Some uid ->
            negb (String.eqb (p_id p) profile_id
                  && DatabaseManager.sql_eq (p_user_id p) (Some uid)) = true).
  { intros p _ Hne. apply negb_true_iff, andb_false_iff.
    destruct Hne as [Hne | Hne]; [left | right].
    - now apply String.eqb_neq.
    - apply not_true_iff_false. now rewrite sql_eq_spec. }
  rewrite Hd. unfold DatabaseManager.delete_profile_row.
  destruct (hd false (db_faults w)) eqn:Hf; cbn.
  - repeat split; auto.
    intros Hcalm. apply calm_S in Hcalm as [Hf' _]. congruence.
  - repeat split; auto.
    + intros p Hp'. now apply List.filter_In in Hp' as [Hp' _].
    + intros p Hin Hne. apply List.filter_In. auto.
    + intros Hcalm listed Hl. apply calm_S in Hcalm as [_ Hcalm].
      apply calm_S in Hcalm as [Hf2 _].
      assert (Hf2' : hd false (db_faults w') = false) by (rewrite Hp; exact Hf2).
      rewrite (get_user_profiles_calm w' Hf2'), Hs, Hu, Hd in Hl.
      apply in_map_iff in Hl as (row & <- & Hrow). cbn [pd_id].
      unfold DatabaseManager.select_profiles, DatabaseManager.delete_profile_row in Hrow.
      cbn in Hrow. apply List.filter_In in Hrow as [Hrow Hown].
      apply List.filter_In in Hrow as [_ Hrow].
      apply negb_true_iff in Hrow. rewrite Hown, andb_true_r in Hrow.
      now apply String.eqb_neq.
Qed.

(** An instance: Alice deletes her profile. *)
Lemma delete_profile_removes_only_own_witness :
  (forall p, In p (profiles (db (after (delete_profile "profile-1") Sample.world_of_alice))) ->
             In p (profiles (db Sample.world_of_alice)))
  /\ (forall p, In p (profiles (db Sample.world_of_alice)) ->
                p_id p <> "profile-1" \/ p_user_id p <> Some "user-alice" ->
                In p (profiles (db (after (delete_profile "profile-1")
                                      Sample.world_of_alice))))
  /\ users (db (after (delete_profile "profile-1") Sample.world_of_alice))
     = users (db Sample.world_of_alice)
  /\ jobs (db (after (delete_profile "profile-1") Sample.world_of_alice))
     = jobs (db Sample.world_of_alice)
  /\ applications (db (after (delete_profile "profile-1") Sample.world_of_alice))
     = applications (db Sample.world_of_alice)
  /\ settings (db (after (delete_profile "profile-1") Sample.world_of_alice))
     = settings (db Sample.world_of_alice)
  /\ (calm 2 Sample.world_of_alice ->
      forall listed,
        In listed (result get_user_profiles
                     (after (delete_profile "profile-1") Sample.world_of_alice)) ->
        pd_id listed <> "profile-1").
Proof.
  apply (delete_profile_removes_only_own "profile-1" "user-alice" Sample.world_of_alice).
  reflexivity.
Defined.

(** The profile form stores nothing and writes no file when it was not
    submitted, when the name or the skills are empty, or when the resume
    cannot be written: in the last case the error leaves the handler
    before the store is reached. *)
Theorem save_profile_guards (submitted : bool) (profile_data : option profile_dict)
    (name experience skills summary target_positions : string)
    (resume_file : option upload) (new_id : string) (d : disk) (w : world) :
  submitted = false \/ name = "" \/ skills = ""
  \/ (resume_file <> None /\ writable d = false) ->
  after (save_profile submitted profile_data name experience skills summary
           target_positions resume_file new_id d) w = w
  /\ (forall d', result (save_profile submitted profile_data name experience skills summary
                           target_positions resume_file new_id d) w = Some d' -> d' = d).
Proof.
  intros H. unfold save_profile.
  destruct (submitted && Py.truthy_str name && Py.truthy_str skills) eqn:Hguard.
  - apply andb_true_iff in Hguard as [Hguard Hk]. apply andb_true_iff in Hguard as [Hs Hn].
    destruct H as [-> | [-> | [-> | [Hfile Hw]]]]; try discriminate.
    destruct resume_file as [file|]; [| now destruct Hfile].
    rewrite after_bind, result_bind. cbn [result get_session fst].
    change (after get_session w) with w. rewrite Hw.
    split; [reflexivity | discriminate].
  - split; [reflexivity|]. now intros d' [= <-].
Qed.

(** An instance: a resume that cannot be written. *)
Lemma save_profile_guards_witness :
  after (save_profile true None "Second" "two years" "Go" "I ship." ""
           (Some (mkUpload "cv.pdf" "%PDF-1.7")) "profile-2" (mkDisk ∅ false))
    Sample.world_of_alice = Sample.world_of_alice
  /\ (forall d', result (save_profile true None "Second" "two years" "Go" "I ship." ""
                           (Some (mkUpload "cv.pdf" "%PDF-1.7")) "profile-2" (mkDisk ∅ false))
                   Sample.world_of_alice = Some d' -> d' = mkDisk ∅ false).
Proof.
  apply (save_profile_guards true None "Second" "two years" "Go" "I ship." ""
           (Some (mkUpload "cv.pdf" "%PDF-1.7")) "profile-2" (mkDisk ∅ false)
           Sample.world_of_alice).
  right. right. right. split; [discriminate | reflexivity].
Defined.

(** A submitted form with a name and skills, on a writable disk and a
    store that executes the statements, stores the profile so that
    [get_user_profiles] lists it with the fields entered; an uploaded
    resume is written under resumes/, named by user, profile and file
    name. *)
Theorem saved_profile_is_listed (name experience skills summary target_positions : string)
    (resume_file : option upload) (new_id uid : string) (d : disk) (w : world) :
  name <> "" ->
  skills <> "" ->
  user_id (session w) = Some uid ->
  writable d = true ->
  calm 2 w ->
  In (mkProfileDict new_id name skills experience summary target_positions)
    (result get_user_profiles
       (after (save_profile true None name experience skills summary target_positions
                 resume_file new_id d) w))
  /\ (forall file, resume_file = Some file ->
        exists d',
          result (save_profile true None name experience skills summary target_positions
                    resume_file new_id d) w = Some d'
          /\ files d' !! ("resumes/" +:+ uid +:+ "_" +:+ new_id +:+ "_" +:+ up_name file)
             = Some (up_content file)).
Proof.
  intros Hname Hskills Hu Hw Hcalm. unfold save_profile.
  assert (Hn : Py.truthy_str name = true) by (destruct name; [now destruct Hname | reflexivity]).
  assert (Hk : Py.truthy_str skills = true)
    by (destruct skills; [now destruct Hskills | reflexivity]).
  rewrite Hn, Hk. cbn [andb].
  apply calm_S in Hcalm as [Hf1 Hcalm]. apply calm_S in Hcalm as [Hf2 _].
  rewrite after_bind, result_bind. cbn [result get_session fst].
  change (after get_session w) with w. rewrite Hu. cbn [format_user].
  unfold DatabaseManager.replace_profile.
  assert (Hlisted : forall resume_path (d' : disk),
    In (mkProfileDict new_id name skills experience summary target_positions)
      (result get_user_profiles
         (after (execute_query
                   (fun d0 => Some (DatabaseManager.with_profiles
                      (fun rows => List.filter
                         (fun p => negb (String.eqb (p_id p)
                            (p_id (mkProfile new_id (Some uid) name skills experience summary
                                     target_positions resume_path)))) rows
                         ++ [mkProfile new_id (Some uid) name skills experience summary
                               target_positions resume_path]) d0))
                 ≫= (fun success : bool =>
                       (if success then show (StSuccess "Profile saved successfully!")
                        else show (StError "Failed to save profile"));;
                       mret (Some d'))) w))).
  { intros resume_path d'. rewrite after_bind. unfold result at 2.
    rewrite (execute_query_total _ _ Hf1), (after_execute_query_total _ _ Hf1). cbn [fst].
    rewrite after_bind.
    set (w1 := after (put_db _) _).
    assert (Hf : hd false (db_faults (after (mret (Some d'))
                 (after (show (StSuccess "Profile saved successfully!")) w1))) = false)
      by exact Hf2.
    rewrite (get_user_profiles_calm _ Hf).
    apply in_map_iff. eexists. split; [| apply List.filter_In; split].
    2: { subst w1. cbn. apply in_or_app. right. now left. }
    + reflexivity.
    + cbn. rewrite Hu. cbn. apply String.eqb_refl. }
  destruct resume_file as [file|]; rewrite ?Hw.
  - split; [apply Hlisted|]. intros file' [= <-]. eexists. split.
    + rewrite result_bind, result_bind. reflexivity.
    + cbn [files]. apply lookup_insert_eq.
  - split; [apply Hlisted | discriminate].
Qed.

(** An instance: Alice saves a second profile with a resume. *)
Lemma saved_profile_is_listed_witness :
  In (mkProfileDict "profile-2" "Second" "Go,Rust" "two years" "I ship." "SRE")
    (result get_user_profiles
       (after (save_profile true None "Second" "two years" "Go,Rust" "I ship." "SRE"
                 (Some (mkUpload "cv.pdf" "%PDF-1.7")) "profile-2" (mkDisk ∅ true))
          Sample.world_of_alice))
  /\ (forall file, Some (mkUpload "cv.pdf" "%PDF-1.7") = Some file ->
        exists d',
          result (save_profile true None "Second" "two years" "Go,Rust" "I ship." "SRE"
                    (Some (mkUpload "cv.pdf" "%PDF-1.7")) "profile-2" (mkDisk ∅ true))
            Sample.world_of_alice = Some d'
          /\ files d' !! ("resumes/" +:+ "user-alice" +:+ "_" +:+ "profile-2" +:+ "_"
                            +:+ up_name file)
             = Some (up_content file)).
Proof.
  apply (saved_profile_is_listed "Second" "two years" "Go,Rust" "I ship." "SRE"
           (Some (mkUpload "cv.pdf" "%PDF-1.7")) "profile-2" "user-alice" (mkDisk ∅ true)
           Sample.world_of_alice); try reflexivity; discriminate.
Defined.

(** ** Statistics *)

Lemma percentage_bounds (part whole : nat) :
  (part <= whole)%nat -> (0 < whole)%nat ->
  (0 <= inject_Z (Z.of_nat part) / inject_Z (Z.of_nat whole) * 100 <= 100)%Q.
Proof.
  intros Hle Hpos.
  assert (Hw : (0 < inject_Z (Z.of_nat whole))%Q).
  { unfold Qlt, inject_Z. cbn. lia. }
  assert (Hp : (0 <= inject_Z (Z.of_nat part))%Q).
  { unfold Qle, inject_Z. cbn. lia. }
  assert (Hpw : (inject_Z (Z.of_nat part) <= inject_Z (Z.of_nat whole))%Q).
  { unfold Qle, inject_Z. cbn. lia. }
  split.
  - apply Qmult_le_0_compat; [| discriminate].
    apply Qle_shift_div_l; [exact Hw|]. now rewrite Qmult_0_l.
  - apply Qle_trans with (1 * 100)%Q; [| discriminate].
    apply Qmult_le_compat_r; [| discriminate].
    apply Qle_shift_div_r; [exact Hw|]. now rewrite Qmult_1_l.
Qed.

Lemma filter_and_length {A : Type} (f g : A -> bool) (l : list A) :
  (length (List.filter (fun x => f x && g x) l) <= length (List.filter f l))%nat.
Proof.
  induction l as [|x l IH]; [reflexivity|]. cbn.
  destruct (f x), (g x); cbn; lia.
Qed.

Lemma get_user_applications_length_responses (listed : list application_dict) :
  (length (List.filter ad_response_received listed) <= length listed)%nat.
Proof.
  induction listed as [|x l IH]; cbn; [lia|]. destruct (ad_response_received x); cbn; lia.
Qed.

Lemma get_analytics_data_result (w : world) :
  result get_analytics_data w =
    let listed := result get_user_applications w in
    mkAnalytics listed (length listed)
      (match listed with
       | [] => 0%Q
       | _ =>
           (inject_Z (Z.of_nat (length (List.filter ad_response_received listed)))
            / inject_Z (Z.of_nat (length listed)) * 100)%Q
       end).
Proof. unfold get_analytics_data. now rewrite result_bind. Qed.

Lemma statistics_rate_bounds (w : world) :
  (0 <= response_rate (result get_user_statistics w) <= 100)%Q.
Proof.
  unfold get_user_statistics.
  rewrite !result_bind. cbn [result get_session fst]. change (after get_session w) with w.
  unfold result at 1. cbn [mret App_ret fst response_rate].
  rewrite !fetch_result.
  destruct (quiet_fetch (DatabaseManager.count_applications (user_id (session w))) w)
    as (Hd1 & _ & _).
  set (w1 := after (execute_query_fetch _) w) in *.
  destruct (quiet_fetch (DatabaseManager.count_pending (user_id (session w))) w1)
    as (Hd2 & _ & _).
  set (w2 := after (execute_query_fetch _) w1) in *.
  rewrite Hd2, Hd1.
  destruct (hd false (db_faults w)); [split; discriminate|].
  cbn [count_or_zero DatabaseManager.count_applications].
  set (total := length _).
  destruct (Nat.ltb 0 total) eqn:Hpos; [| split; discriminate].
  apply Nat.ltb_lt in Hpos. apply percentage_bounds; [| exact Hpos].
  destruct (hd false (db_faults w2)); cbn; [lia|]. apply filter_and_length.
Qed.

(** The response rates of the dashboard and of the analytics page lie
    between 0 and 100 for every store and every fault plan: a count that
    could not be read is taken as 0, and nothing is divided by 0. *)
Theorem response_rates_are_percentages (w : world) :
  (0 <= response_rate (result get_user_statistics w) <= 100)%Q
  /\ (0 <= an_response_rate (result get_analytics_data w) <= 100)%Q.
Proof.
  split; [apply statistics_rate_bounds|].
  rewrite get_analytics_data_result. cbn zeta. cbn [an_response_rate].
  destruct (result get_user_applications w) as [|x l] eqn:E; [split; discriminate|].
  apply percentage_bounds; [apply get_user_applications_length_responses | cbn; lia].
Qed.

(** ** Listing applications *)

Lemma select_applications_in (uid : option string) (d : database) (listed : application_dict) :
  In listed (select_applications uid d) <->
  exists a j p,
    In a (applications d) /\ DatabaseManager.sql_eq (a_user_id a) uid = true
    /\ In j (jobs d) /\ a_job_id a = j_id j
    /\ In p (profiles d) /\ a_profile_id a = p_id p
    /\ listed = mkApplicationDict (a_id a) (a_status a) (a_applied_date a) (a_cover_letter a)
                  (a_notes a) (a_response_received a) (j_title j) (j_company j) (p_name p).
Proof.
  unfold select_applications.
  rewrite <- list_elem_of_In, merge_sort_Permutation, list_elem_of_bind.
  split.
  - intros (a & Hl & Ha). apply list_elem_of_bind in Hl as (j & Hl & Hj).
    apply list_elem_of_bind in Hl as (p & Hl & Hp).
    apply list_elem_of_singleton in Hl.
    apply list_elem_of_In, List.filter_In in Ha as [Ha Hown].
    apply list_elem_of_In, List.filter_In in Hj as [Hj Hjid].
    apply list_elem_of_In, List.filter_In in Hp as [Hp Hpid].
    apply String.eqb_eq in Hjid, Hpid.
    exists a, j, p. repeat split; assumption.
  - intros (a & j & p & Ha & Hown & Hj & Hjid & Hp & Hpid & ->).
    exists a. split.
    + apply list_elem_of_bind. exists j. split.
      * apply list_elem_of_bind. exists p. split; [apply list_elem_of_singleton; reflexivity|].
        apply list_elem_of_In, List.filter_In. split; [assumption | now apply String.eqb_eq].
      * apply list_elem_of_In, List.filter_In. split; [assumption | now apply String.eqb_eq].
    + apply list_elem_of_In, List.filter_In. split; assumption.
Qed.

Lemma get_user_applications_result (w : world) :
  result get_user_applications w =
    if hd false (db_faults w) then []
    else select_applications (user_id (session w)) (db w).
Proof.
  unfold get_user_applications.
  rewrite !result_bind. cbn [result get_session fst]. change (after get_session w) with w.
  rewrite fetch_result. now destruct (hd false (db_faults w)).
Qed.

Lemma calm_tl (n : nat) (w w' : world) :
  calm (S n) w -> db_faults w' = tl (db_faults w) -> calm n w'.
Proof.
  intros Hc Hw. apply calm_S in Hc as [_ Hc]. unfold calm in *. now rewrite Hw.
Qed.

Lemma calm_same (n : nat) (w w' : world) :
  calm n w -> db_faults w' = db_faults w -> calm n w'.
Proof. unfold calm. now intros Hc ->. Qed.

Lemma fetch_faults {A : Type} (query : database -> list A) (w : world) :
  db_faults (after (execute_query_fetch query) w) = tl (db_faults w).
Proof. run_app. now destruct (hd false (db_faults w)). Qed.

Lemma get_user_settings_faults (w : world) :
  db_faults (after get_user_settings w) = tl (db_faults w).
Proof. unfold get_user_settings. rewrite !after_bind. apply fetch_faults. Qed.

Lemma get_user_email_faults (w : world) :
  db_faults (after get_user_email w) = tl (db_faults w).
Proof. unfold get_user_email. rewrite !after_bind. apply fetch_faults. Qed.

Lemma send_email_notification_faults (es : jdict) (subject body to : string) (w : world) :
  db_faults (after (NotificationManager.send_email_notification es subject body to) w)
    = db_faults w.
Proof.
  unfold NotificationManager.send_email_notification. run_app. now destruct (smtp w _).
Qed.

Lemma notify_submitted_calm (job : Job) (n : nat) (w : world) :
  calm (S (S n)) w -> calm n (after (notify_submitted job) w).
Proof.
  intros Hc. unfold notify_submitted. rewrite after_bind.
  pose proof (calm_tl _ _ _ Hc (get_user_settings_faults w)) as Hc1.
  destruct (from_option truthy false _).
  - rewrite after_bind.
    pose proof (calm_tl _ _ _ Hc1 (get_user_email_faults _)) as Hc2.
    destruct (result get_user_email _) as [address|].
    + eapply calm_same; [exact Hc2 | apply send_email_notification_faults].
    + exact Hc2.
  - apply calm_pred. exact Hc1.
Qed.

Lemma apply_to_job_stored (job : Job) (name : string) (plist : list profile_dict)
    (pd : profile_dict) (app_id : string) (created applied : timestamp) (n : nat) (w : world) :
  List.find (fun p => String.eqb (pd_name p) name) plist = Some pd ->
  (forall a, In a (applications (db w)) -> a_id a <> app_id) ->
  calm (S (S (S n))) w ->
  exists text,
    db (after (apply_to_job job name plist app_id created applied) w)
      = DatabaseManager.with_applications
          (fun rows => rows ++ [mkApplication app_id (job_id job) (pd_id pd)
                                  (user_id (session w)) "applied" applied (Some text)
                                  None false None]) (db w)
    /\ session (after (apply_to_job job name plist app_id created applied) w) = session w
    /\ calm n (after (apply_to_job job name plist app_id created applied) w).
Proof.
  intros Hfind Hfresh Hcalm.
  set (text := match ai_assistant (session w) with
               | Some helper => AIAssistant.generate_cover_letter helper job
                                  (profile_of pd created)
               | None => ""
               end).
  pose proof Hcalm as Hc. apply calm_S in Hc as [Hf Hc].
  assert (Hw : exists w1,
            after (apply_to_job job name plist app_id created applied) w
              = after (notify_submitted job) w1
            /\ db w1 = DatabaseManager.with_applications
                  (fun rows => rows ++ [mkApplication app_id (job_id job) (pd_id pd)
                                          (user_id (session w)) "applied" applied (Some text)
                                          None false None]) (db w)
            /\ session w1 = session w
            /\ db_faults w1 = tl (db_faults w)).
  { eexists. split; [| split; [| split]].
    - unfold apply_to_job. rewrite Hfind.
      rewrite after_bind. cbn [result get_session fst]. change (after get_session w) with w.
      rewrite after_bind. unfold result at 1. unfold after at 2.
      rewrite (execute_query_calm _ _ _ Hf (insert_application_fresh _ _ _ _ _ _ _ _ Hfresh)).
      cbn [fst snd]. rewrite after_bind. reflexivity.
    - reflexivity.
    - reflexivity.
    - reflexivity. }
  destruct Hw as (w1 & -> & Hd1 & Hs1 & Hf1).
  exists text.
  destruct (quiet_notify_submitted job w1) as (-> & -> & _).
  repeat split; try assumption.
  apply notify_submitted_calm. eapply calm_tl; [exact Hcalm | exact Hf1].
Qed.

(** After [apply_to_job] for a stored job with a stored profile and a
    fresh application id, [get_user_applications] lists the application
    with status "applied", the title and company of the job and the name
    of the profile. *)
Theorem applied_job_is_listed (job : Job) (name : string) (plist : list profile_dict)
    (pd : profile_dict) (app_id uid : string) (created applied : timestamp)
    (stored_job : job_row) (stored_profile : profile_row) (w : world) :
  user_id (session w) = Some uid ->
  List.find (fun p => String.eqb (pd_name p) name) plist = Some pd ->
  In stored_job (jobs (db w)) -> j_id stored_job = job_id job ->
  In stored_profile (profiles (db w)) -> p_id stored_profile = pd_id pd ->
  (forall a, In a (applications (db w)) -> a_id a <> app_id) ->
  calm 4 w ->
  exists listed,
    In listed (result get_user_applications
                 (after (apply_to_job job name plist app_id created applied) w))
    /\ ad_id listed = app_id
    /\ ad_status listed = "applied"
    /\ ad_job_title listed = j_title stored_job
    /\ ad_company listed = j_company stored_job
    /\ ad_profile_name listed = p_name stored_profile.
Proof.
  intros Hu Hfind Hj Hjid Hp Hpid Hfresh Hcalm.
  destruct (apply_to_job_stored job name plist pd app_id created applied 1 w
              Hfind Hfresh Hcalm) as (text & Hd & Hs & Hc).
  apply calm_S in Hc as [Hf _].
  rewrite get_user_applications_result, Hf, Hs, Hd, !Hu.
  set (row := mkApplication app_id (job_id job) (pd_id pd) (Some uid) "applied" applied
                (Some text) None false None).
  exists (mkApplicationDict (a_id row) (a_status row) (a_applied_date row) (a_cover_letter row)
            (a_notes row) (a_response_received row) (j_title stored_job)
            (j_company stored_job) (p_name stored_profile)).
  split; [| repeat split].
  apply select_applications_in. exists row, stored_job, stored_profile.
  split; [apply in_or_app; right; left; reflexivity|].
  split; [apply sql_eq_spec; reflexivity|].
  split; [exact Hj|]. split; [now rewrite Hjid|].
  split; [exact Hp|]. split; [now rewrite Hpid | reflexivity].
Qed.


(** An instance: Alice applies to the stored job with her profile. *)
Lemma applied_job_is_listed_witness :
  exists listed,
    In listed (result get_user_applications
                 (after (apply_to_job Sample.job "Main" [Sample.profile_data] "app-new"
                           1700000100 1700000200) Sample.world_of_alice))
    /\ ad_id listed = "app-new"
    /\ ad_status listed = "applied"
    /\ ad_job_title listed = "Backend Engineer"
    /\ ad_company listed = "Acme"
    /\ ad_profile_name listed = "Main".
Proof.
  apply (applied_job_is_listed Sample.job "Main" [Sample.profile_data] Sample.profile_data
           "app-new" "user-alice" 1700000100 1700000200
           (mkJobRow "job-1" "Backend Engineer" "Acme" "Remote" "Build services"
              "https://example.com/job/1" "$50,000 - $80,000" 1700000000 (4 # 5) "manual")
           (mkProfile "profile-1" (Some "user-alice") "Main" "Python,SQL"
              "five years of backend work" "I build reliable services." "Backend Engineer" None)
           Sample.world_of_alice); try reflexivity.
  - now left.
  - now left.
  - intros a [<- | [<- | []]]; discriminate.
Defined.

(** ** Searching for jobs *)

Lemma execute_query_rest (stmt : DatabaseManager.statement) (w : world) :
  shown (after (execute_query stmt) w) = shown w
  /\ outbox (after (execute_query stmt) w) = outbox w
  /\ smtp (after (execute_query stmt) w) = smtp w.
Proof.
  unfold after. rewrite execute_query_run.
  destruct (hd false (db_faults w)); [repeat split|].
  destruct (stmt (db w)); repeat split.
Qed.

Lemma calm_le (n m : nat) (w : world) : (n <= m)%nat -> calm m w -> calm n w.
Proof. induction 1 as [|m Hle IH]; [auto|]. intros H. apply IH, calm_pred, H. Qed.

Lemma after_save_jobs_cons (job : Job) (rest : list Job) (w : world) :
  after (save_jobs (job :: rest)) w
  = after (save_jobs rest)
      (after (execute_query (DatabaseManager.replace_job (job_row_of job))) w).
Proof. cbn [save_jobs]. now rewrite after_bind. Qed.

Lemma replace_job_after (job : Job) (w : world) :
  users (db (after (execute_query (DatabaseManager.replace_job (job_row_of job))) w))
    = users (db w)
  /\ profiles (db (after (execute_query (DatabaseManager.replace_job (job_row_of job))) w))
     = profiles (db w)
  /\ applications (db (after (execute_query (DatabaseManager.replace_job (job_row_of job))) w))
     = applications (db w)
  /\ settings (db (after (execute_query (DatabaseManager.replace_job (job_row_of job))) w))
     = settings (db w)
  /\ jobs (db (after (execute_query (DatabaseManager.replace_job (job_row_of job))) w))
     = (if hd false (db_faults w) then jobs (db w)
        else List.filter (fun j => negb (String.eqb (j_id j) (job_id job))) (jobs (db w))
             ++ [job_row_of job]).
Proof.
  destruct (execute_query_world (DatabaseManager.replace_job (job_row_of job)) w)
    as (-> & _ & _).
  destruct (hd false (db_faults w)); repeat split.
Qed.

Lemma save_jobs_frame (found : list Job) (w : world) :
  users (db (after (save_jobs found) w)) = users (db w)
  /\ profiles (db (after (save_jobs found) w)) = profiles (db w)
  /\ applications (db (after (save_jobs found) w)) = applications (db w)
  /\ settings (db (after (save_jobs found) w)) = settings (db w)
  /\ session (after (save_jobs found) w) = session w
  /\ shown (after (save_jobs found) w) = shown w.
Proof.
  revert w. induction found as [|job rest IH]; intros w; [repeat split|].
  rewrite after_save_jobs_cons.
  destruct (IH (after (execute_query (DatabaseManager.replace_job (job_row_of job))) w))
    as (-> & -> & -> & -> & -> & ->).
  destruct (replace_job_after job w) as (-> & -> & -> & -> & _).
  destruct (execute_query_world (DatabaseManager.replace_job (job_row_of job)) w)
    as (_ & _ & ->).
  destruct (execute_query_rest (DatabaseManager.replace_job (job_row_of job)) w)
    as (-> & _ & _).
  repeat split.
Qed.

Lemma save_jobs_origin (found : list Job) (w : world) (j : job_row) :
  In j (jobs (db (after (save_jobs found) w))) ->
  In j (jobs (db w)) \/ exists job, In job found /\ j = job_row_of job.
Proof.
  revert w. induction found as [|job rest IH]; intros w; [now left|].
  rewrite after_save_jobs_cons. intros Hj. apply IH in Hj as [Hj | (job' & Hin & ->)].
  - destruct (replace_job_after job w) as (_ & _ & _ & _ & Hjobs). rewrite Hjobs in Hj.
    destruct (hd false (db_faults w)); [now left|].
    apply in_app_or in Hj as [Hj | [<- | []]].
    + left. now apply List.filter_In in Hj as [Hj _].
    + right. exists job. split; [now left | reflexivity].
  - right. exists job'. split; [now right | reflexivity].
Qed.

Lemma save_jobs_keeps (found : list Job) (w : world) (j : job_row) :
  In j (jobs (db w)) ->
  (forall job, In job found -> job_id job <> j_id j) ->
  In j (jobs (db (after (save_jobs found) w))).
Proof.
  revert w. induction found as [|job rest IH]; intros w Hj Hother; [exact Hj|].
  rewrite after_save_jobs_cons. apply IH; [| intros job' Hin; apply Hother; now right].
  destruct (replace_job_after job w) as (_ & _ & _ & _ & ->).
  destruct (hd false (db_faults w)); [exact Hj|].
  apply in_or_app. left. apply List.filter_In. split; [exact Hj|].
  apply negb_true_iff, String.eqb_neq. intros Heq. apply (Hother job); [now left | now symmetry].
Qed.

Lemma save_jobs_stores (found : list Job) (w : world) (job : Job) :
  List.NoDup (map job_id found) ->
  calm (length found) w ->
  In job found ->
  In (job_row_of job) (jobs (db (after (save_jobs found) w))).
Proof.
  revert w. induction found as [|first rest IH]; intros w Hnd Hcalm Hin; [destruct Hin|].
  rewrite after_save_jobs_cons.
  cbn [map] in Hnd. apply List.NoDup_cons_iff in Hnd as [Hfresh Hnd].
  cbn [length] in Hcalm. pose proof Hcalm as Hc. apply calm_S in Hc as [Hf Hc].
  destruct (execute_query_world (DatabaseManager.replace_job (job_row_of first)) w)
    as (_ & Hfaults & _).
  destruct Hin as [<- | Hin].
  - apply save_jobs_keeps.
    + destruct (replace_job_after first w) as (_ & _ & _ & _ & ->). rewrite Hf.
      apply in_or_app. right. now left.
    + intros job' Hin' Heq. apply Hfresh. cbn [job_row_of j_id] in Heq. rewrite <- Heq.
      now apply in_map.
  - apply IH; [exact Hnd | | exact Hin].
    eapply calm_tl; [exact Hcalm | exact Hfaults].
Qed.

Lemma shifted_seq (k start n : nat) :
  map (fun i => (k + i)%nat) (seq start n) = seq (k + start) n.
Proof.
  revert start. induction n as [|n IH]; intros start; [reflexivity|].
  cbn [seq map]. rewrite IH, Nat.add_succ_r. reflexivity.
Qed.

Lemma search_length (limit : Z) : (Z.to_nat (Z.min limit 5) <= 5)%nat.
Proof. lia. Qed.

(** The jobs a search finds: their number, and their identifiers in the
    order of the calls of [uuid4]. *)
Lemma found_jobs (keywords location : string) (job_sources : list string) (max_results : Z)
    (ids : nat -> string) (clock : nat -> timestamp) (found : list Job) :
  found =
    (if existsb (String.eqb "Indeed") job_sources
     then JobScraper.search_indeed_jobs ids clock keywords location (max_results / 2)
     else [])
    ++ (if existsb (String.eqb "LinkedIn") job_sources
        then JobScraper.search_linkedin_jobs
               (fun i => ids (length
                  (if existsb (String.eqb "Indeed") job_sources
                   then JobScraper.search_indeed_jobs ids clock keywords location
                          (max_results / 2)
                   else []) + i)%nat)
               (fun i => clock (length
                  (if existsb (String.eqb "Indeed") job_sources
                   then JobScraper.search_indeed_jobs ids clock keywords location
                          (max_results / 2)
                   else []) + i)%nat)
               keywords location (max_results / 2)
        else []) ->
  (length found <= 10)%nat
  /\ map job_id found = map ids (seq 0 (length found))
  /\ (forall job, In job found -> job_source job = "indeed" \/ job_source job = "linkedin").
Proof.
  intros ->.
  set (indeed := if existsb (String.eqb "Indeed") job_sources then _ else _).
  set (linkedin := if existsb (String.eqb "LinkedIn") job_sources then _ else _).
  assert (Hi : (length indeed <= 5)%nat /\ map job_id indeed = map ids (seq 0 (length indeed))
               /\ forall job, In job indeed -> job_source job = "indeed").
  { subst indeed. destruct (existsb (String.eqb "Indeed") job_sources);
      [| split; [cbn; lia | split; [reflexivity | intros ? []]]].
    unfold JobScraper.search_indeed_jobs, JobScraper.range.
    rewrite length_map, length_seq, List.map_map.
    split; [apply search_length | split; [reflexivity|]].
    intros job Hin. apply in_map_iff in Hin as (i & <- & _). reflexivity. }
  assert (Hl : (length linkedin <= 5)%nat
               /\ map job_id linkedin
                  = map ids (seq (length indeed) (length linkedin))
               /\ forall job, In job linkedin -> job_source job = "linkedin").
  { subst linkedin. clearbody indeed.
    destruct (existsb (String.eqb "LinkedIn") job_sources);
      [| split; [cbn; lia | split; [reflexivity | intros ? []]]].
    unfold JobScraper.search_linkedin_jobs, JobScraper.range.
    rewrite length_map, length_seq, List.map_map.
    split; [apply search_length | split].
    - cbn [job_id].
      pose proof (shifted_seq (length indeed) 0 (Z.to_nat (Z.min (max_results / 2) 5))) as Hs.
      rewrite Nat.add_0_r in Hs. rewrite <- Hs, List.map_map. reflexivity.
    - intros job Hin. apply in_map_iff in Hin as (i & <- & _). reflexivity. }
  destruct Hi as (Hi & Hii & His), Hl as (Hl & Hli & Hls).
  rewrite length_app, map_app, Hii, Hli, seq_app, map_app.
  split; [lia | split; [reflexivity|]].
  intros job Hin. apply in_app_or in Hin as [Hin | Hin]; auto.
Qed.

(** The search block writes to the [jobs] table only, for every input
    and fault plan.  Without a submit or with empty keywords it is not
    entered: no result list is set and nothing changes, and these are the
    only inputs for which no list is set.  When it is entered it finds at
    most ten jobs, each from one of the two boards, and every row of
    [jobs] afterwards is an earlier row or the row of a found job. *)
Theorem search_jobs_only_adds_jobs (search_submitted : bool) (keywords location : string)
    (job_sources : list string) (max_results : Z) (ids : nat -> string)
    (clock : nat -> timestamp) (w : world) :
  users (db (after (search_jobs search_submitted keywords location job_sources max_results
                      ids clock) w)) = users (db w)
  /\ profiles (db (after (search_jobs search_submitted keywords location job_sources
                            max_results ids clock) w)) = profiles (db w)
  /\ applications (db (after (search_jobs search_submitted keywords location job_sources
                                max_results ids clock) w)) = applications (db w)
  /\ settings (db (after (search_jobs search_submitted keywords location job_sources
                            max_results ids clock) w)) = settings (db w)
  /\ session (after (search_jobs search_submitted keywords location job_sources max_results
                       ids clock) w) = session w
  /\ (search_submitted = false \/ keywords = "" ->
      result (search_jobs search_submitted keywords location job_sources max_results
                ids clock) w = None
      /\ after (search_jobs search_submitted keywords location job_sources max_results
                  ids clock) w = w)
  /\ match result (search_jobs search_submitted keywords location job_sources max_results
                     ids clock) w with
     | None =>
         (search_submitted = false \/ keywords = "")
         /\ after (search_jobs search_submitted keywords location job_sources max_results
                     ids clock) w = w
     | Some found =>
         (length found <= 10)%nat
         /\ (forall job, In job found ->
               job_source job = "indeed" \/ job_source job = "linkedin")
         /\ (forall j, In j (jobs (db (after (search_jobs search_submitted keywords location
                                                job_sources max_results ids clock) w))) ->
               In j (jobs (db w)) \/ exists job, In job found /\ j = job_row_of job)
     end.
Proof.
  unfold search_jobs.
  destruct (search_submitted && Py.truthy_str keywords) eqn:Hguard.
  - rewrite !after_bind, !result_bind.
    match goal with |- context [save_jobs ?f] => set (found := f) end.
    destruct (found_jobs keywords location job_sources max_results ids clock found eq_refl)
      as (Hlen & _ & Hsrc).
    destruct (save_jobs_frame found w) as (Hu & Hp & Ha & Hs & Hse & _).
    cbn [after show mret App_ret snd db session result fst].
    do 5 (split; [assumption|]). split.
    + apply andb_true_iff in Hguard as [-> Hk].
      intros [Hs' | ->]; discriminate.
    + split; [exact Hlen|]. split; [exact Hsrc|].
      intros j Hj. now apply save_jobs_origin.
  - unfold result, after, mret, App_ret. cbn [fst snd]. repeat split.
    apply andb_false_iff in Hguard as [-> | Hk]; [now left | right].
    destruct keywords; [reflexivity | discriminate].
Qed.

(** A submitted search with keywords, identifiers that do not repeat
    and a store that executes the statements stores the row of every job
    it found, and reports their number. *)
Theorem found_jobs_are_stored (keywords location : string) (job_sources : list string)
    (max_results : Z) (ids : nat -> string) (clock : nat -> timestamp) (w : world) :
  keywords <> "" ->
  (forall i j, (i < 10)%nat -> (j < 10)%nat -> ids i = ids j -> i = j) ->
  calm 10 w ->
  exists found,
    result (search_jobs true keywords location job_sources max_results ids clock) w
      = Some found
    /\ (forall job, In job found ->
          In (job_row_of job)
            (jobs (db (after (search_jobs true keywords location job_sources max_results
                                ids clock) w))))
    /\ shown (after (search_jobs true keywords location job_sources max_results ids clock) w)
       = shown w ++ [StSuccess ("Found " +:+ JobScraper.decimal (length found) +:+ " jobs!")].
Proof.
  intros Hk Hinj Hcalm. unfold search_jobs.
  assert (Hguard : Py.truthy_str keywords = true)
    by (destruct keywords; [now destruct Hk | reflexivity]).
  rewrite Hguard. cbn [andb].
  rewrite !after_bind, !result_bind.
  match goal with |- context [save_jobs ?f] => set (found := f) end.
  destruct (found_jobs keywords location job_sources max_results ids clock found eq_refl)
    as (Hlen & Hids & _).
  destruct (save_jobs_frame found w) as (_ & _ & _ & _ & _ & Hshown).
  exists found. cbn [after show mret App_ret snd db shown result fst].
  split; [reflexivity|]. split; [| now rewrite Hshown].
  intros job Hin. apply save_jobs_stores; [| eapply calm_le; eassumption | exact Hin].
  rewrite Hids. apply Finite.Injective_map_NoDup_in; [| apply seq_NoDup].
  intros i j Hi Hj. apply in_seq in Hi, Hj. apply Hinj; lia.
Qed.

(** An instance: a search of both boards in the sample world. *)
Lemma found_jobs_are_stored_witness :
  exists found,
    result (search_jobs true "Python" "Remote" ["Indeed"; "LinkedIn"] 20 JobScraper.decimal
              (fun _ => 1700000000%Z)) Sample.world_of_alice = Some found
    /\ (forall job, In job found ->
          In (job_row_of job)
            (jobs (db (after (search_jobs true "Python" "Remote" ["Indeed"; "LinkedIn"] 20
                                JobScraper.decimal (fun _ => 1700000000%Z))
                         Sample.world_of_alice))))
    /\ shown (after (search_jobs true "Python" "Remote" ["Indeed"; "LinkedIn"] 20
                       JobScraper.decimal (fun _ => 1700000000%Z)) Sample.world_of_alice)
       = shown Sample.world_of_alice
         ++ [StSuccess ("Found " +:+ JobScraper.decimal (length found) +:+ " jobs!")].
Proof.
  apply (found_jobs_are_stored "Python" "Remote" ["Indeed"; "LinkedIn"] 20 JobScraper.decimal
           (fun _ => 1700000000%Z) Sample.world_of_alice).
  - discriminate.
  - intros i j _ _. apply (inj pretty).
  - reflexivity.
Defined.

(** ** A deleted profile and the applications made with it *)

Lemma get_user_statistics_total (w : world) :
  total_applications (result get_user_statistics w) =
    if hd false (db_faults w) then 0%nat
    else length (List.filter (fun a => DatabaseManager.sql_eq (a_user_id a)
                                         (user_id (session w))) (applications (db w))).
Proof.
  unfold get_user_statistics.
  rewrite !result_bind. cbn [result get_session fst]. change (after get_session w) with w.
  unfold result at 1. cbn [mret App_ret fst total_applications].
  rewrite fetch_result. now destruct (hd false (db_faults w)).
Qed.

(** Deleting a profile of one's own leaves its applications in the store:
    [get_user_applications] lists only applications made with other
    profiles, while the dashboard's total still counts every application
    of the user. *)
Theorem deleted_profile_hides_its_applications (profile_id uid : string) (w : world) :
  user_id (session w) = Some uid ->
  (forall p, In p (profiles (db w)) -> p_id p = profile_id -> p_user_id p = Some uid) ->
  calm 2 w ->
  applications (db (after (delete_profile profile_id) w)) = applications (db w)
  /\ (forall listed,
        In listed (result get_user_applications (after (delete_profile profile_id) w)) ->
        exists a, In a (applications (db w)) /\ a_id a = ad_id listed
                  /\ a_profile_id a <> profile_id)
  /\ total_applications (result get_user_statistics (after (delete_profile profile_id) w))
     = length (List.filter (fun a => DatabaseManager.sql_eq (a_user_id a) (Some uid))
                 (applications (db w))).
Proof.
  intros Hu Hown Hcalm. apply calm_S in Hcalm as [Hf1 Hcalm]. apply calm_S in Hcalm as [Hf2 _].
  unfold delete_profile. rewrite !after_bind.
  cbn [result get_session fst]. change (after get_session w) with w. rewrite Hu.
  destruct (execute_query_world
              (DatabaseManager.delete_profile_row profile_id (Some uid)) w) as (Hd & Hp & Hs).
  set (w' := after (execute_query _) w) in *.
  rewrite Hf1 in Hd. cbn [DatabaseManager.delete_profile_row default] in Hd.
  assert (Hf' : hd false (db_faults w') = false) by (rewrite Hp; exact Hf2).
  split; [now rewrite Hd|]. split.
  - intros listed Hl. rewrite get_user_applications_result, Hf' in Hl.
    apply select_applications_in in Hl as (a & j & p & Ha & _ & _ & _ & Hpin & Hpid & ->).
    rewrite Hd in Ha, Hpin. cbn in Ha, Hpin.
    apply List.filter_In in Hpin as [Hpin Hkept].
    exists a. repeat split; [exact Ha|]. intros Heq.
    apply negb_true_iff, andb_false_iff in Hkept.
    assert (Hid : p_id p = profile_id) by congruence.
    destruct Hkept as [Hne | Hne].
    + apply String.eqb_neq in Hne. contradiction.
    + rewrite (proj2 (sql_eq_spec _ _) (Hown p Hpin Hid)) in Hne. discriminate.
  - rewrite get_user_statistics_total, Hf', Hs, Hu, Hd. reflexivity.
Qed.

(** An instance: Alice deletes the profile she applied with. *)
Lemma deleted_profile_hides_its_applications_witness :
  applications (db (after (delete_profile "profile-1") Sample.world_of_alice))
    = applications (db Sample.world_of_alice)
  /\ (forall listed,
        In listed (result get_user_applications
                     (after (delete_profile "profile-1") Sample.world_of_alice)) ->
        exists a, In a (applications (db Sample.world_of_alice)) /\ a_id a = ad_id listed
                  /\ a_profile_id a <> "profile-1")
  /\ total_applications (result get_user_statistics
                           (after (delete_profile "profile-1") Sample.world_of_alice))
     = length (List.filter (fun a => DatabaseManager.sql_eq (a_user_id a) (Some "user-alice"))
                 (applications (db Sample.world_of_alice))).
Proof.
  apply (deleted_profile_hides_its_applications "profile-1" "user-alice"
           Sample.world_of_alice).
  - reflexivity.
  - intros p [<- | [<- | []]]; cbn; intros; [reflexivity | discriminate].
  - reflexivity.
Defined.

(** ** An updated application in the listing *)

(** After [update_application_status] on an application of the session
    user whose job and profile are stored, [get_user_applications] lists
    it with the new status and the new notes, the other fields being
    those stored. *)
Theorem updated_status_is_listed (app_id status notes uid : string) (a : application_row)
    (j : job_row) (p : profile_row) (w : world) :
  user_id (session w) = Some uid ->
  In a (applications (db w)) -> a_id a = app_id -> a_user_id a = Some uid ->
  In j (jobs (db w)) -> a_job_id a = j_id j ->
  In p (profiles (db w)) -> a_profile_id a = p_id p ->
  calm 2 w ->
  In (mkApplicationDict app_id status (a_applied_date a) (a_cover_letter a) (Some notes)
        (a_response_received a) (j_title j) (j_company j) (p_name p))
    (result get_user_applications (after (update_application_status app_id status notes) w)).
Proof.
  intros Hu Ha Hid Hown Hj Hjid Hp Hpid Hcalm.
  apply calm_S in Hcalm as [Hf1 Hcalm]. apply calm_S in Hcalm as [Hf2 _].
  unfold update_application_status. rewrite !after_bind.
  cbn [result get_session fst]. change (after get_session w) with w. rewrite Hu.
  destruct (execute_query_world
              (DatabaseManager.update_application status notes app_id (Some uid)) w)
    as (Hd & Hfaults & Hs).
  set (w' := after (execute_query _) w) in *.
  rewrite Hf1 in Hd. cbn [DatabaseManager.update_application default] in Hd.
  assert (Hf' : hd false (db_faults w') = false) by (rewrite Hfaults; exact Hf2).
  rewrite get_user_applications_result, Hf', Hs, Hu, Hd.
  apply select_applications_in.
  exists (mkApplication (a_id a) (a_job_id a) (a_profile_id a) (a_user_id a) status
            (a_applied_date a) (a_cover_letter a) (a_custom_answers a)
            (a_response_received a) (Some notes)), j, p.
  split.
  { cbn. apply in_map_iff. exists a. split; [| exact Ha].
    rewrite Hid, String.eqb_refl, (proj2 (sql_eq_spec _ _) Hown). reflexivity. }
  cbn. rewrite Hid. repeat split; try assumption. now apply sql_eq_spec.
Qed.

(** An instance: Alice moves her application to "interview". *)
Lemma updated_status_is_listed_witness :
  In (mkApplicationDict "app-alice" "interview" (a_applied_date Sample.alice_application)
        (a_cover_letter Sample.alice_application) (Some "call on Monday")
        (a_response_received Sample.alice_application) "Backend Engineer" "Acme" "Main")
    (result get_user_applications
       (after (update_application_status "app-alice" "interview" "call on Monday")
          Sample.world_of_alice)).
Proof.
  apply (updated_status_is_listed "app-alice" "interview" "call on Monday" "user-alice"
           Sample.alice_application
           (mkJobRow "job-1" "Backend Engineer" "Acme" "Remote" "Build services"
              "https://example.com/job/1" "$50,000 - $80,000" 1700000000 (4 # 5) "manual")
           (mkProfile "profile-1" (Some "user-alice") "Main" "Python,SQL"
              "five years of backend work" "I build reliable services." "Backend Engineer" None)
           Sample.world_of_alice); try reflexivity.
  - right. now left.
  - now left.
  - now left.
Defined.

(** ** Settings of other users, and the first save *)

Lemma filter_filter_implied {A : Type} (f g : A -> bool) (l : list A) :
  (forall x, f x = true -> g x = true) ->
  List.filter f (List.filter g l) = List.filter f l.
Proof.
  intros Himp. induction l as [|x l IH]; [reflexivity|]. cbn.
  destruct (g x) eqn:Hg; cbn; [now rewrite IH|].
  destruct (f x) eqn:Hf; [| exact IH]. apply Himp in Hf. congruence.
Qed.

(** [save_user_settings] leaves the settings rows of every other user,
    and the other four tables, as they were, whatever the store does. *)
Theorem save_user_settings_keeps_other_users (new : settings_dict) (other : string)
    (w : world) :
  user_id (session w) <> Some other ->
  DatabaseManager.select_settings (Some other) (db (after (save_user_settings new) w))
    = DatabaseManager.select_settings (Some other) (db w)
  /\ users (db (after (save_user_settings new) w)) = users (db w)
  /\ profiles (db (after (save_user_settings new) w)) = profiles (db w)
  /\ jobs (db (after (save_user_settings new) w)) = jobs (db w)
  /\ applications (db (after (save_user_settings new) w)) = applications (db w).
Proof.
  intros Hother. unfold save_user_settings. rewrite !after_bind.
  destruct (quiet_get_user_settings w) as (Hd & Hs & _).
  set (w1 := after get_user_settings w) in *.
  cbn [result get_session fst]. change (after get_session w1) with w1.
  match goal with |- context [execute_query ?s] =>
    destruct (execute_query_world s w1) as (-> & _ & _) end.
  destruct (hd false (db_faults w1)); [rewrite Hd; repeat split|].
  cbn [DatabaseManager.replace_settings default s_user_id].
  rewrite Hs, Hd. unfold DatabaseManager.select_settings, DatabaseManager.with_settings.
  cbn [settings users profiles jobs applications]. repeat split.
  unfold id. cbn [settings]. rewrite List.filter_app. cbn [List.filter s_user_id].
  assert (Hnew : DatabaseManager.sql_eq (user_id (session w)) (Some other) = false).
  { apply not_true_iff_false. now rewrite sql_eq_spec. }
  rewrite Hnew, app_nil_r. apply filter_filter_implied.
  intros s Hmine. apply sql_eq_spec in Hmine. rewrite Hmine.
  apply negb_true_iff, not_true_iff_false. intros Heq.
  destruct (user_id (session w)) as [uid|]; [| discriminate].
  apply String.eqb_eq in Heq. congruence.
Qed.

(** An instance: Bob saves email settings; the record of Alice stays. *)
Lemma save_user_settings_keeps_other_users_witness :
  DatabaseManager.select_settings (Some "user-alice")
    (db (after (save_user_settings Sample.new_email_settings)
           (mkWorld Sample.store [] (fun _ => None) [] (mkSession (Some "user-bob") None) [])))
    = DatabaseManager.select_settings (Some "user-alice") Sample.store
  /\ users (db (after (save_user_settings Sample.new_email_settings)
                  (mkWorld Sample.store [] (fun _ => None) []
                     (mkSession (Some "user-bob") None) []))) = users Sample.store
  /\ profiles (db (after (save_user_settings Sample.new_email_settings)
                     (mkWorld Sample.store [] (fun _ => None) []
                        (mkSession (Some "user-bob") None) []))) = profiles Sample.store
  /\ jobs (db (after (save_user_settings Sample.new_email_settings)
                 (mkWorld Sample.store [] (fun _ => None) []
                    (mkSession (Some "user-bob") None) []))) = jobs Sample.store
  /\ applications (db (after (save_user_settings Sample.new_email_settings)
                         (mkWorld Sample.store [] (fun _ => None) []
                            (mkSession (Some "user-bob") None) [])))
     = applications Sample.store.
Proof.
  apply (save_user_settings_keeps_other_users Sample.new_email_settings "user-alice"
           (mkWorld Sample.store [] (fun _ => None) [] (mkSession (Some "user-bob") None) [])).
  discriminate.
Defined.

(** For a user without a settings record, [get_user_settings] is the
    empty dictionary; the first [save_user_settings] creates the record,
    and afterwards every category is present: those named hold the new
    value, the others the empty string or the empty dictionary. *)
Theorem first_save_fills_defaults (uid : string) (new : settings_dict) (w : world) :
  user_id (session w) = Some uid ->
  DatabaseManager.select_settings (Some uid) (db w) = [] ->
  calm 3 w ->
  result get_user_settings w = no_settings
  /\ result (save_user_settings new) w = true
  /\ result get_user_settings (after (save_user_settings new) w)
     = mkSettingsDict (Some (default "" (openai_api_key new)))
         (Some (default [] (email_settings new)))
         (Some (default [] (automation_settings new)))
         (Some (default [] (notification_settings new))).
Proof.
  intros Hu Hnone Hcalm.
  pose proof (save_user_settings_calm new w (calm_pred _ _ Hcalm)) as Hsave.
  apply calm_S in Hcalm as [Hf1 Hcalm]. apply calm_S in Hcalm as [Hf2 Hcalm].
  apply calm_S in Hcalm as [Hf3 _].
  assert (Hbefore : result get_user_settings w = no_settings).
  { unfold result. now rewrite (get_user_settings_calm w Hf1), Hu, Hnone. }
  split; [exact Hbefore|].
  unfold result at 1. unfold after. rewrite Hsave. cbn [fst snd]. split; [reflexivity|].
  set (w2 := after (put_db _) _).
  unfold result at 1. rewrite (get_user_settings_calm w2 Hf3). cbn [fst].
  subst w2. cbn [after put_db snd db settings session sqlite_raises].
  unfold DatabaseManager.select_settings, DatabaseManager.with_settings. cbn [settings].
  rewrite List.filter_app, Hu.
  rewrite (filter_complement (fun s => DatabaseManager.sql_eq (s_user_id s) (Some uid))).
  cbn [List.filter app s_user_id]. rewrite (proj2 (sql_eq_spec (Some uid) uid) eq_refl).
  rewrite Hbefore. unfold dict_update, no_settings.
  destruct new as [[k|] [e|] [a|] [n|]]; reflexivity.
Qed.

(** An instance: the first save of Bob names the email settings only. *)
Lemma first_save_fills_defaults_witness :
  result get_user_settings
    (mkWorld Sample.store [] (fun _ => None) [] (mkSession (Some "user-bob") None) [])
    = no_settings
  /\ result (save_user_settings Sample.new_email_settings)
       (mkWorld Sample.store [] (fun _ => None) [] (mkSession (Some "user-bob") None) [])
     = true
  /\ result get_user_settings
       (after (save_user_settings Sample.new_email_settings)
          (mkWorld Sample.store [] (fun _ => None) [] (mkSession (Some "user-bob") None) []))
     = mkSettingsDict (Some (default "" (openai_api_key Sample.new_email_settings)))
         (Some (default [] (email_settings Sample.new_email_settings)))
         (Some (default [] (automation_settings Sample.new_email_settings)))
         (Some (default [] (notification_settings Sample.new_email_settings))).
Proof.
  apply (first_save_fills_defaults "user-bob" Sample.new_email_settings
           (mkWorld Sample.store [] (fun _ => None) [] (mkSession (Some "user-bob") None) []));
    reflexivity.
Defined.

(** ** Notifications *)

Lemma fetch_after {A : Type} (query : database -> list A) (w : world) :
  after (execute_query_fetch query) w = after sqlite_raises w.
Proof. run_app. now destruct (hd false (db_faults w)). Qed.

Lemma get_user_settings_after (w : world) :
  after get_user_settings w = after sqlite_raises w.
Proof.
  unfold get_user_settings. rewrite !after_bind.
  cbn [result get_session fst]. change (after get_session w) with w.
  rewrite fetch_after. reflexivity.
Qed.

Lemma get_user_email_after (w : world) :
  after get_user_email w = after sqlite_raises w.
Proof.
  unfold get_user_email. rewrite !after_bind.
  cbn [result get_session fst]. change (after get_session w) with w.
  rewrite fetch_after. reflexivity.
Qed.

Lemma map_head {A B : Type} (f : A -> B) (l : list A) (y : B) (rest : list B) :
  map f l = y :: rest -> exists x, In x l /\ f x = y.
Proof.
  destruct l as [|x l]; [discriminate|]. intros [= <- _].
  exists x. split; [now left | reflexivity].
Qed.

Lemma get_user_email_sound (w : world) (address : string) :
  result get_user_email w = Some address ->
  exists u, In u (users (db w)) /\ user_id (session w) = Some (u_id u)
            /\ u_email u = Some address.
Proof.
  unfold get_user_email. rewrite !result_bind.
  cbn [result get_session fst]. change (after get_session w) with w.
  rewrite fetch_result. unfold result, mret, App_ret. cbn [fst].
  destruct (hd false (db_faults w)); [discriminate|].
  destruct (DatabaseManager.select_user_email _ _) as [|[email|] rest] eqn:E;
    [discriminate | | discriminate].
  destruct (Py.truthy_str email); [| discriminate]. intros [= <-].
  apply map_head in E as (u & Hin & Hemail).
  apply List.filter_In in Hin as [Hin Hown].
  exists u. repeat split; [exact Hin | | exact Hemail].
  destruct (user_id (session w)) as [uid|]; [| discriminate].
  cbn in Hown. apply String.eqb_eq in Hown. now subst.
Qed.

Lemma send_email_notification_outbox (es : jdict) (subject body to : string) (w : world) :
  outbox (after (NotificationManager.send_email_notification es subject body to) w) = outbox w
  \/ exists m,
       outbox (after (NotificationManager.send_email_notification es subject body to) w)
         = outbox w ++ [m]
       /\ mail_subject m = subject /\ mail_to m = to.
Proof.
  unfold NotificationManager.send_email_notification. run_app.
  destruct (smtp w _); cbn; [now left|]. right. eexists. repeat split.
Qed.

Lemma notify_submitted_outbox (job : Job) (w : world) :
  outbox (after (notify_submitted job) w) = outbox w
  \/ exists m,
       outbox (after (notify_submitted job) w) = outbox w ++ [m]
       /\ mail_subject m = "Job Application Submitted - " +:+ job_title job
       /\ exists u, In u (users (db w)) /\ user_id (session w) = Some (u_id u)
                    /\ u_email u = Some (mail_to m).
Proof.
  unfold notify_submitted. rewrite after_bind, get_user_settings_after.
  destruct (from_option truthy false _); [| now left].
  rewrite after_bind, get_user_email_after.
  destruct (result get_user_email (after sqlite_raises w)) as [address|] eqn:E; [| now left].
  apply get_user_email_sound in E as (u & Hin & Hu & Hemail).
  match goal with |- context [NotificationManager.send_email_notification ?es ?s ?b ?t] =>
    destruct (send_email_notification_outbox es s b t
                (after sqlite_raises (after sqlite_raises w)))
      as [-> | (m & -> & Hsubj & Hto)] end; [now left|].
  right. exists m. split; [reflexivity|]. split; [exact Hsubj|].
  exists u. rewrite Hto. repeat split; assumption.
Qed.

Lemma apply_to_job_run (job : Job) (name : string) (plist : list profile_dict)
    (app_id : string) (created applied : timestamp) (w : world) :
  (db (after (apply_to_job job name plist app_id created applied) w) = db w
   /\ outbox (after (apply_to_job job name plist app_id created applied) w) = outbox w)
  \/ exists pd text w1,
       db w1 = DatabaseManager.with_applications
                 (fun rows => rows ++ [mkApplication app_id (job_id job) (pd_id pd)
                                         (user_id (session w)) "applied" applied (Some text)
                                         None false None]) (db w)
       /\ session w1 = session w
       /\ outbox w1 = outbox w
       /\ after (apply_to_job job name plist app_id created applied) w
          = after (notify_submitted job) w1.
Proof.
  unfold apply_to_job. destruct (List.find _ plist) as [pd|]; [| left; split; reflexivity].
  rewrite after_bind. cbn [result get_session fst]. change (after get_session w) with w.
  rewrite after_bind.
  match goal with |- context [execute_query ?s] =>
    destruct (execute_query_cases s w) as [(-> & d' & Hf & Hs & ->) | (-> & ->)] end;
    [| left; split; reflexivity].
  right. rewrite after_bind.
  unfold DatabaseManager.insert_application in Hs.
  destruct (existsb _ _); [discriminate|]. injection Hs as <-.
  eexists pd, _, _. split; [| split; [| split; [| reflexivity]]]; reflexivity.
Qed.

(** [apply_to_job] sends at most one mail, and only after the application
    row was stored: the mail names the job in its subject and goes to the
    address stored for the session user. *)
Theorem notification_only_for_stored_application (job : Job) (name : string)
    (plist : list profile_dict) (app_id : string) (created applied : timestamp) (w : world) :
  outbox (after (apply_to_job job name plist app_id created applied) w) = outbox w
  \/ exists m row u,
       outbox (after (apply_to_job job name plist app_id created applied) w)
         = outbox w ++ [m]
       /\ mail_subject m = "Job Application Submitted - " +:+ job_title job
       /\ applications (db (after (apply_to_job job name plist app_id created applied) w))
          = applications (db w) ++ [row]
       /\ a_id row = app_id
       /\ In u (users (db w)) /\ user_id (session w) = Some (u_id u)
       /\ u_email u = Some (mail_to m).
Proof.
  destruct (apply_to_job_run job name plist app_id created applied w)
    as [[_ Ho] | (pd & text & w1 & Hd & Hs & Ho & ->)]; [now left|].
  destruct (quiet_notify_submitted job w1) as (Hdb & _ & _).
  destruct (notify_submitted_outbox job w1) as [Hsame | (m & Hm & Hsubj & u & Hin & Hu & He)].
  - left. now rewrite Hsame.
  - right. eexists m, _, u. rewrite Hm, Ho, Hdb, Hd.
    cbn [DatabaseManager.with_applications applications].
    split; [reflexivity|]. split; [exact Hsubj|]. split; [reflexivity|].
    split; [reflexivity|]. rewrite Hd in Hin. cbn in Hin. rewrite Hs in Hu. auto.
Qed.

(** ** Listings and the session user *)

Lemma sql_eq_eq (column param : option string) :
  DatabaseManager.sql_eq column param = true -> column = param /\ param <> None.
Proof.
  destruct column as [c|], param as [p|]; cbn; try discriminate.
  intros H. apply String.eqb_eq in H. now subst.
Qed.

(** Every profile and every application that a listing shows stems from
    a stored row whose [user_id] is that of the session, and nothing is
    shown without a session user. *)
Theorem listings_show_only_own_rows (w : world) :
  (forall listed, In listed (result get_user_profiles w) ->
     exists p, In p (profiles (db w)) /\ p_id p = pd_id listed
               /\ p_user_id p = user_id (session w) /\ user_id (session w) <> None)
  /\ (forall listed, In listed (result get_user_applications w) ->
        exists a, In a (applications (db w)) /\ a_id a = ad_id listed
                  /\ a_user_id a = user_id (session w) /\ user_id (session w) <> None).
Proof.
  split; intros listed Hl.
  - unfold get_user_profiles in Hl. rewrite !result_bind in Hl.
    cbn [result get_session fst] in Hl. change (after get_session w) with w in Hl.
    rewrite fetch_result in Hl. unfold result, mret, App_ret in Hl. cbn [fst] in Hl.
    destruct (hd false (db_faults w)); [destruct Hl|].
    apply in_map_iff in Hl as (p & <- & Hp). apply List.filter_In in Hp as [Hp Hown].
    apply sql_eq_eq in Hown as [Hown Hsome]. exists p. auto.
  - rewrite get_user_applications_result in Hl.
    destruct (hd false (db_faults w)); [destruct Hl|].
    apply select_applications_in in Hl as (a & j & p & Ha & Hown & _ & _ & _ & _ & ->).
    apply sql_eq_eq in Hown as [Hown Hsome]. exists a. auto.
Qed.

(** ** Other accounts after a deletion *)

Lemma filter_comm {A : Type} (f g : A -> bool) (l : list A) :
  List.filter f (List.filter g l) = List.filter g (List.filter f l).
Proof.
  induction l as [|x l IH]; [reflexivity|]. cbn.
  destruct (f x) eqn:Hf, (g x) eqn:Hg; cbn; rewrite ?Hf, ?Hg, IH; reflexivity.
Qed.

(** Deleting an account does not lock out anybody else: a name and
    password that logged in as another user before still do afterwards. *)
Theorem delete_account_keeps_other_logins (sha : string -> string)
    (uid other username password : string) (w : world) :
  user_id (session w) = Some uid ->
  calm 5 w ->
  result (AuthManager.authenticate_user sha username password) w = Some other ->
  other <> uid ->
  result (AuthManager.authenticate_user sha username password) (after delete_user_account w)
    = Some other.
Proof.
  intros Hu Hcalm Hlogin Hother.
  destruct (delete_user_account_users uid w Hu (calm_pred _ _ Hcalm)) as (Hus & Hfaults & _).
  do 4 (apply calm_S in Hcalm as [_ Hcalm]). apply calm_S in Hcalm as [Hf5 _].
  assert (Hf : hd false (db_faults (after delete_user_account w)) = false).
  { rewrite Hfaults. exact Hf5. }
  revert Hlogin. unfold AuthManager.authenticate_user, AuthManager.hash_password.
  rewrite !result_bind, !fetch_result, Hf. unfold result, mret, App_ret. cbn [fst].
  destruct (hd false (db_faults w)); [discriminate|].
  unfold DatabaseManager.select_user_id. rewrite Hus, filter_comm.
  match goal with |- context [List.filter ?f (users (db w))] =>
    destruct (List.filter f (users (db w))) as [|u rest] end;
    cbn [map List.filter]; [discriminate|].
  intros [= Hid].
  assert (Hkeep : negb (DatabaseManager.sql_eq (Some (u_id u)) (Some uid)) = true).
  { apply not_owned_spec. congruence. }
  rewrite Hkeep. cbn [map]. now rewrite Hid.
Qed.

(** An instance: Bob logs in after Alice deleted her account. *)
Lemma delete_account_keeps_other_logins_witness :
  result (AuthManager.authenticate_user (fun _ => "hash-b") "bob" "builder")
    (after delete_user_account Sample.world_of_alice) = Some "user-bob".
Proof.
  apply (delete_account_keeps_other_logins (fun _ => "hash-b") "user-alice" "user-bob" "bob"
           "builder" Sample.world_of_alice); try reflexivity. discriminate.
Defined.


(** ** The order of the listings *)

Lemma later_first_transitive : Transitive later_first.
Proof. intros x y z. unfold later_first. lia. Qed.

Lemma later_first_total : Total later_first.
Proof. intros x y. unfold later_first. lia. Qed.

Lemma recent_first_transitive : Transitive recent_first.
Proof. intros x y z. unfold recent_first. lia. Qed.

Lemma recent_first_total : Total recent_first.
Proof. intros x y. unfold recent_first. lia. Qed.

Lemma get_recent_applications_result (limit : Z) (w : world) :
  result (get_recent_applications limit) w =
    if hd false (db_faults w) then []
    else select_recent (user_id (session w)) limit (db w).
Proof.
  unfold get_recent_applications.
  rewrite !result_bind. cbn [result get_session fst]. change (after get_session w) with w.
  rewrite fetch_result. now destruct (hd false (db_faults w)).
Qed.

(** Both listings of applications are ordered by date of application,
    the latest first, and the recent list of the dashboard has at most
    [limit] entries when [limit] is not negative. *)
Theorem listings_are_latest_first (limit : Z) (w : world) :
  StronglySorted later_first (result get_user_applications w)
  /\ StronglySorted recent_first (result (get_recent_applications limit) w)
  /\ ((limit < 0)%Z
      \/ (length (result (get_recent_applications limit) w) <= Z.to_nat limit)%nat).
Proof.
  rewrite get_user_applications_result, get_recent_applications_result.
  destruct (hd false (db_faults w)).
  { split; [constructor | split; [constructor | right; cbn; lia]]. }
  unfold select_applications, select_recent.
  split; [| split].
  - apply (@StronglySorted_merge_sort _ _ _ later_first_transitive later_first_total).
  - match goal with |- context [merge_sort recent_first ?l] =>
      pose proof (@StronglySorted_merge_sort _ recent_first _ recent_first_transitive
                    recent_first_total l) as Hsorted;
      set (rows := merge_sort recent_first l) in * end.
    cbn zeta. destruct (limit <? 0)%Z; [exact Hsorted|].
    rewrite <- (firstn_skipn (Z.to_nat limit) rows) in Hsorted.
    now apply StronglySorted_app_1_l in Hsorted.
  - cbn zeta. destruct (limit <? 0)%Z eqn:Hneg; [left; lia | right].
    apply firstn_le_length.
Qed.

(** The recent list of the dashboard does not join [profiles]: deleting
    a profile leaves it as it was. *)
Theorem deleted_profile_stays_in_recent_list (profile_id : string) (limit : Z) (w : world) :
  calm 2 w ->
  result (get_recent_applications limit) (after (delete_profile profile_id) w)
    = result (get_recent_applications limit) w.
Proof.
  intros Hcalm. apply calm_S in Hcalm as [Hf1 Hcalm]. apply calm_S in Hcalm as [Hf2 _].
  unfold delete_profile. rewrite !after_bind.
  cbn [result get_session fst]. change (after get_session w) with w.
  destruct (execute_query_world
              (DatabaseManager.delete_profile_row profile_id (user_id (session w))) w)
    as (Hd & Hp & Hs).
  set (w' := after (execute_query _) w) in *.
  rewrite Hf1 in Hd. cbn [DatabaseManager.delete_profile_row default] in Hd.
  assert (Hf' : hd false (db_faults w') = false) by (rewrite Hp; exact Hf2).
  rewrite !get_recent_applications_result, Hf', Hf1, Hs, Hd. reflexivity.
Qed.

(** An instance: Alice deletes the profile she applied with. *)
Lemma deleted_profile_stays_in_recent_list_witness :
  result (get_recent_applications 5) (after (delete_profile "profile-1") Sample.world_of_alice)
    = result (get_recent_applications 5) Sample.world_of_alice.
Proof.
  apply (deleted_profile_stays_in_recent_list "profile-1" 5 Sample.world_of_alice).
  reflexivity.
Defined.

(** ** The statuses the applications page can draw *)

Lemma update_application_statuses (status notes app_id : string) (uid : option string)
    (d d' : database) (a : application_row) :
  DatabaseManager.update_application status notes app_id uid d = Some d' ->
  In a (applications d') ->
  a_status a = status \/ In a (applications d).
Proof.
  unfold DatabaseManager.update_application. intros [= <-]. cbn.
  intros Hin. apply in_map_iff in Hin as (b & <- & Hb).
  destruct (String.eqb (a_id b) app_id && DatabaseManager.sql_eq (a_user_id b) uid);
    [now left | now right].
Qed.

(** When every stored status is one of the options of the selectbox
    "Update Status", it stays so after the Update button with a status
    taken from the selectbox and after [apply_to_job], so [index] finds
    the status of every application the page draws. *)
Theorem statuses_stay_selectable (w : world) :
  (forall a, In a (applications (db w)) -> index (a_status a) status_options <> None) ->
  (forall app_id new_status notes a,
      index new_status status_options <> None ->
      In a (applications (db (after (update_button app_id new_status notes) w))) ->
      index (a_status a) status_options <> None)
  /\ (forall job name plist app_id created applied a,
        In a (applications (db (after (apply_to_job job name plist app_id created applied) w))) ->
        index (a_status a) status_options <> None).
Proof.
  intros Hknown. split.
  - intros app_id new_status notes a Hnew. unfold update_button, update_application_status.
    rewrite !after_bind. cbn [result get_session fst]. change (after get_session w) with w.
    cbn [after show snd db].
    match goal with |- context [execute_query ?s] =>
      destruct (execute_query_world s w) as (-> & _ & _) end.
    destruct (hd false (db_faults w)); [apply Hknown|].
    destruct (DatabaseManager.update_application new_status notes app_id
                (user_id (session w)) (db w)) as [d'|] eqn:E; [| apply Hknown].
    cbn. intros Hin.
    destruct (update_application_statuses _ _ _ _ _ _ _ E Hin) as [-> | Hold];
      [exact Hnew | now apply Hknown].
  - intros job name plist app_id created applied a.
    destruct (apply_to_job_run job name plist app_id created applied w)
      as [[-> _] | (pd & text & w1 & Hd & _ & _ & ->)]; [apply Hknown|].
    destruct (quiet_notify_submitted job w1) as (-> & _ & _). rewrite Hd. cbn.
    intros Hin. apply in_app_or in Hin as [Hin | [<- | []]]; [now apply Hknown|].
    cbn. discriminate.
Qed.

(** An instance: the sample store holds the status "applied" only. *)
Lemma statuses_stay_selectable_witness :
  (forall app_id new_status notes a,
      index new_status status_options <> None ->
      In a (applications (db (after (update_button app_id new_status notes)
                                Sample.world_of_alice))) ->
      index (a_status a) status_options <> None)
  /\ (forall job name plist app_id created applied a,
        In a (applications (db (after (apply_to_job job name plist app_id created applied)
                                  Sample.world_of_alice))) ->
        index (a_status a) status_options <> None).
Proof.
  apply (statuses_stay_selectable Sample.world_of_alice).
  intros a [<- | [<- | []]]; cbn; discriminate.
Defined.
